(** * CheckSol token: risk scoring and evidence collection

    A shallow embedding of the TypeScript sources

    - [lib/helius.ts]      (Helius client helpers),
    - [lib/utils.ts]       (address validation),
    - [lib/risk-score.ts]  (the scorer, [computeRiskScore]),
    - [app/api/analyze]    (the collector, the [GET] route handler),

    followed by the properties established about them.

    Conventions.
    - A JavaScript [number] coming from JSON or from the caller is a binary64
      value: Rocq's primitive [float], compared with [PrimFloat.ltb] and
      [PrimFloat.leb] (both false on NaN, as [<] and [<=] are in JavaScript)
      through [JS.lt], [JS.le], [JS.gt] and [JS.ge].
    - The running [score] and the [impact] literals are integers of small
      magnitude (the base 50 plus at most ten literal deltas), which binary64
      represents exactly; they are kept in [Z].
    - Array lengths and counters are in [Z]; [Number_of_Z] converts where
      the source stores one into a [number] field.
    - A [bigint] is a [Z].
    - [x?: T], [T | null] and [T | undefined] are [option T].
    - A call that may throw returns [result]; [Throw] carries the message
      of the [Error].
    - A string is held as the bytes of its UTF-8 form (a lone surrogate in
      the generalised three-byte form); [===], [startsWith] and [includes]
      compare bytes, while [trim], [toUpperCase], [toLowerCase] and
      [length] go through the code points. *)

From Stdlib Require Import ZArith NArith Lia Bool String Ascii List Permutation Sorted.
From Stdlib Require Import QArith Qabs Lqa.
From Stdlib Require Import DecimalString.
From Stdlib Require Import PrimFloat FloatOps SpecFloat.
From stdpp Require Import gmap strings list.
Import ListNotations.

Local Open Scope Z_scope.
Local Open Scope string_scope.

(* ===================================================================== *)
(** * Unicode text *)
(* ===================================================================== *)

Module Unicode.
Local Open Scope N_scope.

(** An element of the text: a code point, or a byte that belongs to no
    well-formed sequence and is carried along unchanged. *)
Inductive Point :=
| Code (cp : N)
| Stray (b : ascii).

Definition byte (c : ascii) : N := N_of_ascii c.

Definition continuation (c : ascii) : bool :=
  (0x80 <=? byte c) && (byte c <=? 0xBF).

(** The code points of a string (StringToCodePoints), read from its
    UTF-8 form: one to four bytes each, shortest form only. *)
Fixpoint decode (s : string) : list Point :=
  match s with
  | EmptyString => []
  | String a s1 =>
      let b0 := byte a in
      if b0 <? 0x80 then Code b0 :: decode s1
      else
        match s1 with
        | EmptyString => [Stray a]
        | String b s2 =>
            let cp2 := (b0 - 0xC0) * 0x40 + (byte b - 0x80) in
            if (0xC0 <=? b0) && (b0 <? 0xE0) && continuation b && (0x80 <=? cp2)
            then Code cp2 :: decode s2
            else
              match s2 with
              | EmptyString => Stray a :: decode s1
              | String c s3 =>
                  let cp3 := ((b0 - 0xE0) * 0x40 + (byte b - 0x80)) * 0x40
                             + (byte c - 0x80) in
                  if (0xE0 <=? b0) && (b0 <? 0xF0) && continuation b
                     && continuation c && (0x800 <=? cp3)
                  then Code cp3 :: decode s3
                  else
                    match s3 with
                    | EmptyString => Stray a :: decode s1
                    | String d s4 =>
                        let cp4 := (((b0 - 0xF0) * 0x40 + (byte b - 0x80)) * 0x40
                                    + (byte c - 0x80)) * 0x40 + (byte d - 0x80) in
                        if (0xF0 <=? b0) && (b0 <? 0xF8) && continuation b
                           && continuation c && continuation d
                           && (0x10000 <=? cp4) && (cp4 <? 0x110000)
                        then Code cp4 :: decode s4
                        else Stray a :: decode s1
                    end
              end
        end
  end.

(** The UTF-8 form of a code point. *)
Definition utf8 (cp : N) : string :=
  let char (n : N) := ascii_of_N n in
  let tail (n : N) := char (0x80 + n mod 0x40) in
  if cp <? 0x80 then String (char cp) ""
  else if cp <? 0x800 then
    String (char (0xC0 + cp / 0x40)) (String (tail cp) "")
  else if cp <? 0x10000 then
    String (char (0xE0 + cp / 0x1000))
      (String (tail (cp / 0x40)) (String (tail cp) ""))
  else
    String (char (0xF0 + cp / 0x40000))
      (String (tail (cp / 0x1000)) (String (tail (cp / 0x40)) (String (tail cp) ""))).

(** CodePointsToString. *)
Fixpoint encode (l : list Point) : string :=
  match l with
  | [] => EmptyString
  | Code cp :: l' => (utf8 cp ++ encode l')%string
  | Stray b :: l' => String b (encode l')
  end.

(** White space and line terminators: what [trim] strips. *)
Definition WHITE_SPACE : list N :=
  [ 0x0009; 0x000A; 0x000B; 0x000C; 0x000D; 0x0020; 0x00A0; 0x1680;
    0x2000; 0x2001; 0x2002; 0x2003; 0x2004; 0x2005; 0x2006; 0x2007;
    0x2008; 0x2009; 0x200A; 0x2028; 0x2029; 0x202F; 0x205F; 0x3000;
    0xFEFF ].

(** The case mappings of the Unicode Character Database, version 14.0,
    for the code points from U+0080 on: the one-to-one mappings of
    UnicodeData.txt and the unconditional one-to-many mappings of
    SpecialCasing.txt; then the Cased and Case_Ignorable properties, as
    ranges. *)

Definition UPPER_SIMPLE : list (N * N) :=
  [
    (0x00B5, 0x039C); (0x00E0, 0x00C0); (0x00E1, 0x00C1); (0x00E2, 0x00C2); (0x00E3, 0x00C3);
    (0x00E4, 0x00C4); (0x00E5, 0x00C5); (0x00E6, 0x00C6); (0x00E7, 0x00C7); (0x00E8, 0x00C8);
    (0x00E9, 0x00C9); (0x00EA, 0x00CA); (0x00EB, 0x00CB); (0x00EC, 0x00CC); (0x00ED, 0x00CD);
    (0x00EE, 0x00CE); (0x00EF, 0x00CF); (0x00F0, 0x00D0); (0x00F1, 0x00D1); (0x00F2, 0x00D2);
    (0x00F3, 0x00D3); (0x00F4, 0x00D4); (0x00F5, 0x00D5); (0x00F6, 0x00D6); (0x00F8, 0x00D8);
    (0x00F9, 0x00D9); (0x00FA, 0x00DA); (0x00FB, 0x00DB); (0x00FC, 0x00DC); (0x00FD, 0x00DD);
    (0x00FE, 0x00DE); (0x00FF, 0x0178); (0x0101, 0x0100); (0x0103, 0x0102); (0x0105, 0x0104);
    (0x0107, 0x0106); (0x0109, 0x0108); (0x010B, 0x010A); (0x010D, 0x010C); (0x010F, 0x010E);
    (0x0111, 0x0110); (0x0113, 0x0112); (0x0115, 0x0114); (0x0117, 0x0116); (0x0119, 0x0118);
    (0x011B, 0x011A); (0x011D, 0x011C); (0x011F, 0x011E); (0x0121, 0x0120); (0x0123, 0x0122);
    (0x0125, 0x0124); (0x0127, 0x0126); (0x0129, 0x0128); (0x012B, 0x012A); (0x012D, 0x012C);
    (0x012F, 0x012E); (0x0131, 0x0049); (0x0133, 0x0132); (0x0135, 0x0134); (0x0137, 0x0136);
    (0x013A, 0x0139); (0x013C, 0x013B); (0x013E, 0x013D); (0x0140, 0x013F); (0x0142, 0x0141);
    (0x0144, 0x0143); (0x0146, 0x0145); (0x0148, 0x0147); (0x014B, 0x014A); (0x014D, 0x014C);
    (0x014F, 0x014E); (0x0151, 0x0150); (0x0153, 0x0152); (0x0155, 0x0154); (0x0157, 0x0156);
    (0x0159, 0x0158); (0x015B, 0x015A); (0x015D, 0x015C); (0x015F, 0x015E); (0x0161, 0x0160);
    (0x0163, 0x0162); (0x0165, 0x0164); (0x0167, 0x0166); (0x0169, 0x0168); (0x016B, 0x016A);
    (0x016D, 0x016C); (0x016F, 0x016E); (0x0171, 0x0170); (0x0173, 0x0172); (0x0175, 0x0174);
    (0x0177, 0x0176); (0x017A, 0x0179); (0x017C, 0x017B); (0x017E, 0x017D); (0x017F, 0x0053);
    (0x0180, 0x0243); (0x0183, 0x0182); (0x0185, 0x0184); (0x0188, 0x0187); (0x018C, 0x018B);
    (0x0192, 0x0191); (0x0195, 0x01F6); (0x0199, 0x0198); (0x019A, 0x023D); (0x019E, 0x0220);
    (0x01A1, 0x01A0); (0x01A3, 0x01A2); (0x01A5, 0x01A4); (0x01A8, 0x01A7); (0x01AD, 0x01AC);
    (0x01B0, 0x01AF); (0x01B4, 0x01B3); (0x01B6, 0x01B5); (0x01B9, 0x01B8); (0x01BD, 0x01BC);
    (0x01BF, 0x01F7); (0x01C5, 0x01C4); (0x01C6, 0x01C4); (0x01C8, 0x01C7); (0x01C9, 0x01C7);
    (0x01CB, 0x01CA); (0x01CC, 0x01CA); (0x01CE, 0x01CD); (0x01D0, 0x01CF); (0x01D2, 0x01D1);
    (0x01D4, 0x01D3); (0x01D6, 0x01D5); (0x01D8, 0x01D7); (0x01DA, 0x01D9); (0x01DC, 0x01DB);
    (0x01DD, 0x018E); (0x01DF, 0x01DE); (0x01E1, 0x01E0); (0x01E3, 0x01E2); (0x01E5, 0x01E4);
    (0x01E7, 0x01E6); (0x01E9, 0x01E8); (0x01EB, 0x01EA); (0x01ED, 0x01EC); (0x01EF, 0x01EE);
    (0x01F2, 0x01F1); (0x01F3, 0x01F1); (0x01F5, 0x01F4); (0x01F9, 0x01F8); (0x01FB, 0x01FA);
    (0x01FD, 0x01FC); (0x01FF, 0x01FE); (0x0201, 0x0200); (0x0203, 0x0202); (0x0205, 0x0204);
    (0x0207, 0x0206); (0x0209, 0x0208); (0x020B, 0x020A); (0x020D, 0x020C); (0x020F, 0x020E);
    (0x0211, 0x0210); (0x0213, 0x0212); (0x0215, 0x0214); (0x0217, 0x0216); (0x0219, 0x0218);
    (0x021B, 0x021A); (0x021D, 0x021C); (0x021F, 0x021E); (0x0223, 0x0222); (0x0225, 0x0224);
    (0x0227, 0x0226); (0x0229, 0x0228); (0x022B, 0x022A); (0x022D, 0x022C); (0x022F, 0x022E);
    (0x0231, 0x0230); (0x0233, 0x0232); (0x023C, 0x023B); (0x023F, 0x2C7E); (0x0240, 0x2C7F);
    (0x0242, 0x0241); (0x0247, 0x0246); (0x0249, 0x0248); (0x024B, 0x024A); (0x024D, 0x024C);
    (0x024F, 0x024E); (0x0250, 0x2C6F); (0x0251, 0x2C6D); (0x0252, 0x2C70); (0x0253, 0x0181);
    (0x0254, 0x0186); (0x0256, 0x0189); (0x0257, 0x018A); (0x0259, 0x018F); (0x025B, 0x0190);
    (0x025C, 0xA7AB); (0x0260, 0x0193); (0x0261, 0xA7AC); (0x0263, 0x0194); (0x0265, 0xA78D);
    (0x0266, 0xA7AA); (0x0268, 0x0197); (0x0269, 0x0196); (0x026A, 0xA7AE); (0x026B, 0x2C62);
    (0x026C, 0xA7AD); (0x026F, 0x019C); (0x0271, 0x2C6E); (0x0272, 0x019D); (0x0275, 0x019F);
    (0x027D, 0x2C64); (0x0280, 0x01A6); (0x0282, 0xA7C5); (0x0283, 0x01A9); (0x0287, 0xA7B1);
    (0x0288, 0x01AE); (0x0289, 0x0244); (0x028A, 0x01B1); (0x028B, 0x01B2); (0x028C, 0x0245);
    (0x0292, 0x01B7); (0x029D, 0xA7B2); (0x029E, 0xA7B0); (0x0345, 0x0399); (0x0371, 0x0370);
    (0x0373, 0x0372); (0x0377, 0x0376); (0x037B, 0x03FD); (0x037C, 0x03FE); (0x037D, 0x03FF);
    (0x03AC, 0x0386); (0x03AD, 0x0388); (0x03AE, 0x0389); (0x03AF, 0x038A); (0x03B1, 0x0391);
    (0x03B2, 0x0392); (0x03B3, 0x0393); (0x03B4, 0x0394); (0x03B5, 0x0395); (0x03B6, 0x0396);
    (0x03B7, 0x0397); (0x03B8, 0x0398); (0x03B9, 0x0399); (0x03BA, 0x039A); (0x03BB, 0x039B);
    (0x03BC, 0x039C); (0x03BD, 0x039D); (0x03BE, 0x039E); (0x03BF, 0x039F); (0x03C0, 0x03A0);
    (0x03C1, 0x03A1); (0x03C2, 0x03A3); (0x03C3, 0x03A3); (0x03C4, 0x03A4); (0x03C5, 0x03A5);
    (0x03C6, 0x03A6); (0x03C7, 0x03A7); (0x03C8, 0x03A8); (0x03C9, 0x03A9); (0x03CA, 0x03AA);
    (0x03CB, 0x03AB); (0x03CC, 0x038C); (0x03CD, 0x038E); (0x03CE, 0x038F); (0x03D0, 0x0392);
    (0x03D1, 0x0398); (0x03D5, 0x03A6); (0x03D6, 0x03A0); (0x03D7, 0x03CF); (0x03D9, 0x03D8);
    (0x03DB, 0x03DA); (0x03DD, 0x03DC); (0x03DF, 0x03DE); (0x03E1, 0x03E0); (0x03E3, 0x03E2);
    (0x03E5, 0x03E4); (0x03E7, 0x03E6); (0x03E9, 0x03E8); (0x03EB, 0x03EA); (0x03ED, 0x03EC);
    (0x03EF, 0x03EE); (0x03F0, 0x039A); (0x03F1, 0x03A1); (0x03F2, 0x03F9); (0x03F3, 0x037F);
    (0x03F5, 0x0395); (0x03F8, 0x03F7); (0x03FB, 0x03FA); (0x0430, 0x0410); (0x0431, 0x0411);
    (0x0432, 0x0412); (0x0433, 0x0413); (0x0434, 0x0414); (0x0435, 0x0415); (0x0436, 0x0416);
    (0x0437, 0x0417); (0x0438, 0x0418); (0x0439, 0x0419); (0x043A, 0x041A); (0x043B, 0x041B);
    (0x043C, 0x041C); (0x043D, 0x041D); (0x043E, 0x041E); (0x043F, 0x041F); (0x0440, 0x0420);
    (0x0441, 0x0421); (0x0442, 0x0422); (0x0443, 0x0423); (0x0444, 0x0424); (0x0445, 0x0425);
    (0x0446, 0x0426); (0x0447, 0x0427); (0x0448, 0x0428); (0x0449, 0x0429); (0x044A, 0x042A);
    (0x044B, 0x042B); (0x044C, 0x042C); (0x044D, 0x042D); (0x044E, 0x042E); (0x044F, 0x042F);
    (0x0450, 0x0400); (0x0451, 0x0401); (0x0452, 0x0402); (0x0453, 0x0403); (0x0454, 0x0404);
    (0x0455, 0x0405); (0x0456, 0x0406); (0x0457, 0x0407); (0x0458, 0x0408); (0x0459, 0x0409);
    (0x045A, 0x040A); (0x045B, 0x040B); (0x045C, 0x040C); (0x045D, 0x040D); (0x045E, 0x040E);
    (0x045F, 0x040F); (0x0461, 0x0460); (0x0463, 0x0462); (0x0465, 0x0464); (0x0467, 0x0466);
    (0x0469, 0x0468); (0x046B, 0x046A); (0x046D, 0x046C); (0x046F, 0x046E); (0x0471, 0x0470);
    (0x0473, 0x0472); (0x0475, 0x0474); (0x0477, 0x0476); (0x0479, 0x0478); (0x047B, 0x047A);
    (0x047D, 0x047C); (0x047F, 0x047E); (0x0481, 0x0480); (0x048B, 0x048A); (0x048D, 0x048C);
    (0x048F, 0x048E); (0x0491, 0x0490); (0x0493, 0x0492); (0x0495, 0x0494); (0x0497, 0x0496);
    (0x0499, 0x0498); (0x049B, 0x049A); (0x049D, 0x049C); (0x049F, 0x049E); (0x04A1, 0x04A0);
    (0x04A3, 0x04A2); (0x04A5, 0x04A4); (0x04A7, 0x04A6); (0x04A9, 0x04A8); (0x04AB, 0x04AA);
    (0x04AD, 0x04AC); (0x04AF, 0x04AE); (0x04B1, 0x04B0); (0x04B3, 0x04B2); (0x04B5, 0x04B4);
    (0x04B7, 0x04B6); (0x04B9, 0x04B8); (0x04BB, 0x04BA); (0x04BD, 0x04BC); (0x04BF, 0x04BE);
    (0x04C2, 0x04C1); (0x04C4, 0x04C3); (0x04C6, 0x04C5); (0x04C8, 0x04C7); (0x04CA, 0x04C9);
    (0x04CC, 0x04CB); (0x04CE, 0x04CD); (0x04CF, 0x04C0); (0x04D1, 0x04D0); (0x04D3, 0x04D2);
    (0x04D5, 0x04D4); (0x04D7, 0x04D6); (0x04D9, 0x04D8); (0x04DB, 0x04DA); (0x04DD, 0x04DC);
    (0x04DF, 0x04DE); (0x04E1, 0x04E0); (0x04E3, 0x04E2); (0x04E5, 0x04E4); (0x04E7, 0x04E6);
    (0x04E9, 0x04E8); (0x04EB, 0x04EA); (0x04ED, 0x04EC); (0x04EF, 0x04EE); (0x04F1, 0x04F0);
    (0x04F3, 0x04F2); (0x04F5, 0x04F4); (0x04F7, 0x04F6); (0x04F9, 0x04F8); (0x04FB, 0x04FA);
    (0x04FD, 0x04FC); (0x04FF, 0x04FE); (0x0501, 0x0500); (0x0503, 0x0502); (0x0505, 0x0504);
    (0x0507, 0x0506); (0x0509, 0x0508); (0x050B, 0x050A); (0x050D, 0x050C); (0x050F, 0x050E);
    (0x0511, 0x0510); (0x0513, 0x0512); (0x0515, 0x0514); (0x0517, 0x0516); (0x0519, 0x0518);
    (0x051B, 0x051A); (0x051D, 0x051C); (0x051F, 0x051E); (0x0521, 0x0520); (0x0523, 0x0522);
    (0x0525, 0x0524); (0x0527, 0x0526); (0x0529, 0x0528); (0x052B, 0x052A); (0x052D, 0x052C);
    (0x052F, 0x052E); (0x0561, 0x0531); (0x0562, 0x0532); (0x0563, 0x0533); (0x0564, 0x0534);
    (0x0565, 0x0535); (0x0566, 0x0536); (0x0567, 0x0537); (0x0568, 0x0538); (0x0569, 0x0539);
    (0x056A, 0x053A); (0x056B, 0x053B); (0x056C, 0x053C); (0x056D, 0x053D); (0x056E, 0x053E);
    (0x056F, 0x053F); (0x0570, 0x0540); (0x0571, 0x0541); (0x0572, 0x0542); (0x0573, 0x0543);
    (0x0574, 0x0544); (0x0575, 0x0545); (0x0576, 0x0546); (0x0577, 0x0547); (0x0578, 0x0548);
    (0x0579, 0x0549); (0x057A, 0x054A); (0x057B, 0x054B); (0x057C, 0x054C); (0x057D, 0x054D);
    (0x057E, 0x054E); (0x057F, 0x054F); (0x0580, 0x0550); (0x0581, 0x0551); (0x0582, 0x0552);
    (0x0583, 0x0553); (0x0584, 0x0554); (0x0585, 0x0555); (0x0586, 0x0556); (0x10D0, 0x1C90);
    (0x10D1, 0x1C91); (0x10D2, 0x1C92); (0x10D3, 0x1C93); (0x10D4, 0x1C94); (0x10D5, 0x1C95);
    (0x10D6, 0x1C96); (0x10D7, 0x1C97); (0x10D8, 0x1C98); (0x10D9, 0x1C99); (0x10DA, 0x1C9A);
    (0x10DB, 0x1C9B); (0x10DC, 0x1C9C); (0x10DD, 0x1C9D); (0x10DE, 0x1C9E); (0x10DF, 0x1C9F);
    (0x10E0, 0x1CA0); (0x10E1, 0x1CA1); (0x10E2, 0x1CA2); (0x10E3, 0x1CA3); (0x10E4, 0x1CA4);
    (0x10E5, 0x1CA5); (0x10E6, 0x1CA6); (0x10E7, 0x1CA7); (0x10E8, 0x1CA8); (0x10E9, 0x1CA9);
    (0x10EA, 0x1CAA); (0x10EB, 0x1CAB); (0x10EC, 0x1CAC); (0x10ED, 0x1CAD); (0x10EE, 0x1CAE);
    (0x10EF, 0x1CAF); (0x10F0, 0x1CB0); (0x10F1, 0x1CB1); (0x10F2, 0x1CB2); (0x10F3, 0x1CB3);
    (0x10F4, 0x1CB4); (0x10F5, 0x1CB5); (0x10F6, 0x1CB6); (0x10F7, 0x1CB7); (0x10F8, 0x1CB8);
    (0x10F9, 0x1CB9); (0x10FA, 0x1CBA); (0x10FD, 0x1CBD); (0x10FE, 0x1CBE); (0x10FF, 0x1CBF);
    (0x13F8, 0x13F0); (0x13F9, 0x13F1); (0x13FA, 0x13F2); (0x13FB, 0x13F3); (0x13FC, 0x13F4);
    (0x13FD, 0x13F5); (0x1C80, 0x0412); (0x1C81, 0x0414); (0x1C82, 0x041E); (0x1C83, 0x0421);
    (0x1C84, 0x0422); (0x1C85, 0x0422); (0x1C86, 0x042A); (0x1C87, 0x0462); (0x1C88, 0xA64A);
    (0x1D79, 0xA77D); (0x1D7D, 0x2C63); (0x1D8E, 0xA7C6); (0x1E01, 0x1E00); (0x1E03, 0x1E02);
    (0x1E05, 0x1E04); (0x1E07, 0x1E06); (0x1E09, 0x1E08); (0x1E0B, 0x1E0A); (0x1E0D, 0x1E0C);
    (0x1E0F, 0x1E0E); (0x1E11, 0x1E10); (0x1E13, 0x1E12); (0x1E15, 0x1E14); (0x1E17, 0x1E16);
    (0x1E19, 0x1E18); (0x1E1B, 0x1E1A); (0x1E1D, 0x1E1C); (0x1E1F, 0x1E1E); (0x1E21, 0x1E20);
    (0x1E23, 0x1E22); (0x1E25, 0x1E24); (0x1E27, 0x1E26); (0x1E29, 0x1E28); (0x1E2B, 0x1E2A);
    (0x1E2D, 0x1E2C); (0x1E2F, 0x1E2E); (0x1E31, 0x1E30); (0x1E33, 0x1E32); (0x1E35, 0x1E34);
    (0x1E37, 0x1E36); (0x1E39, 0x1E38); (0x1E3B, 0x1E3A); (0x1E3D, 0x1E3C); (0x1E3F, 0x1E3E);
    (0x1E41, 0x1E40); (0x1E43, 0x1E42); (0x1E45, 0x1E44); (0x1E47, 0x1E46); (0x1E49, 0x1E48);
    (0x1E4B, 0x1E4A); (0x1E4D, 0x1E4C); (0x1E4F, 0x1E4E); (0x1E51, 0x1E50); (0x1E53, 0x1E52);
    (0x1E55, 0x1E54); (0x1E57, 0x1E56); (0x1E59, 0x1E58); (0x1E5B, 0x1E5A); (0x1E5D, 0x1E5C);
    (0x1E5F, 0x1E5E); (0x1E61, 0x1E60); (0x1E63, 0x1E62); (0x1E65, 0x1E64); (0x1E67, 0x1E66);
    (0x1E69, 0x1E68); (0x1E6B, 0x1E6A); (0x1E6D, 0x1E6C); (0x1E6F, 0x1E6E); (0x1E71, 0x1E70);
    (0x1E73, 0x1E72); (0x1E75, 0x1E74); (0x1E77, 0x1E76); (0x1E79, 0x1E78); (0x1E7B, 0x1E7A);
    (0x1E7D, 0x1E7C); (0x1E7F, 0x1E7E); (0x1E81, 0x1E80); (0x1E83, 0x1E82); (0x1E85, 0x1E84);
    (0x1E87, 0x1E86); (0x1E89, 0x1E88); (0x1E8B, 0x1E8A); (0x1E8D, 0x1E8C); (0x1E8F, 0x1E8E);
    (0x1E91, 0x1E90); (0x1E93, 0x1E92); (0x1E95, 0x1E94); (0x1E9B, 0x1E60); (0x1EA1, 0x1EA0);
    (0x1EA3, 0x1EA2); (0x1EA5, 0x1EA4); (0x1EA7, 0x1EA6); (0x1EA9, 0x1EA8); (0x1EAB, 0x1EAA);
    (0x1EAD, 0x1EAC); (0x1EAF, 0x1EAE); (0x1EB1, 0x1EB0); (0x1EB3, 0x1EB2); (0x1EB5, 0x1EB4);
    (0x1EB7, 0x1EB6); (0x1EB9, 0x1EB8); (0x1EBB, 0x1EBA); (0x1EBD, 0x1EBC); (0x1EBF, 0x1EBE);
    (0x1EC1, 0x1EC0); (0x1EC3, 0x1EC2); (0x1EC5, 0x1EC4); (0x1EC7, 0x1EC6); (0x1EC9, 0x1EC8);
    (0x1ECB, 0x1ECA); (0x1ECD, 0x1ECC); (0x1ECF, 0x1ECE); (0x1ED1, 0x1ED0); (0x1ED3, 0x1ED2);
    (0x1ED5, 0x1ED4); (0x1ED7, 0x1ED6); (0x1ED9, 0x1ED8); (0x1EDB, 0x1EDA); (0x1EDD, 0x1EDC);
    (0x1EDF, 0x1EDE); (0x1EE1, 0x1EE0); (0x1EE3, 0x1EE2); (0x1EE5, 0x1EE4); (0x1EE7, 0x1EE6);
    (0x1EE9, 0x1EE8); (0x1EEB, 0x1EEA); (0x1EED, 0x1EEC); (0x1EEF, 0x1EEE); (0x1EF1, 0x1EF0);
    (0x1EF3, 0x1EF2); (0x1EF5, 0x1EF4); (0x1EF7, 0x1EF6); (0x1EF9, 0x1EF8); (0x1EFB, 0x1EFA);
    (0x1EFD, 0x1EFC); (0x1EFF, 0x1EFE); (0x1F00, 0x1F08); (0x1F01, 0x1F09); (0x1F02, 0x1F0A);
    (0x1F03, 0x1F0B); (0x1F04, 0x1F0C); (0x1F05, 0x1F0D); (0x1F06, 0x1F0E); (0x1F07, 0x1F0F);
    (0x1F10, 0x1F18); (0x1F11, 0x1F19); (0x1F12, 0x1F1A); (0x1F13, 0x1F1B); (0x1F14, 0x1F1C);
    (0x1F15, 0x1F1D); (0x1F20, 0x1F28); (0x1F21, 0x1F29); (0x1F22, 0x1F2A); (0x1F23, 0x1F2B);
    (0x1F24, 0x1F2C); (0x1F25, 0x1F2D); (0x1F26, 0x1F2E); (0x1F27, 0x1F2F); (0x1F30, 0x1F38);
    (0x1F31, 0x1F39); (0x1F32, 0x1F3A); (0x1F33, 0x1F3B); (0x1F34, 0x1F3C); (0x1F35, 0x1F3D);
    (0x1F36, 0x1F3E); (0x1F37, 0x1F3F); (0x1F40, 0x1F48); (0x1F41, 0x1F49); (0x1F42, 0x1F4A);
    (0x1F43, 0x1F4B); (0x1F44, 0x1F4C); (0x1F45, 0x1F4D); (0x1F51, 0x1F59); (0x1F53, 0x1F5B);
    (0x1F55, 0x1F5D); (0x1F57, 0x1F5F); (0x1F60, 0x1F68); (0x1F61, 0x1F69); (0x1F62, 0x1F6A);
    (0x1F63, 0x1F6B); (0x1F64, 0x1F6C); (0x1F65, 0x1F6D); (0x1F66, 0x1F6E); (0x1F67, 0x1F6F);
    (0x1F70, 0x1FBA); (0x1F71, 0x1FBB); (0x1F72, 0x1FC8); (0x1F73, 0x1FC9); (0x1F74, 0x1FCA);
    (0x1F75, 0x1FCB); (0x1F76, 0x1FDA); (0x1F77, 0x1FDB); (0x1F78, 0x1FF8); (0x1F79, 0x1FF9);
    (0x1F7A, 0x1FEA); (0x1F7B, 0x1FEB); (0x1F7C, 0x1FFA); (0x1F7D, 0x1FFB); (0x1FB0, 0x1FB8);
    (0x1FB1, 0x1FB9); (0x1FBE, 0x0399); (0x1FD0, 0x1FD8); (0x1FD1, 0x1FD9); (0x1FE0, 0x1FE8);
    (0x1FE1, 0x1FE9); (0x1FE5, 0x1FEC); (0x214E, 0x2132); (0x2170, 0x2160); (0x2171, 0x2161);
    (0x2172, 0x2162); (0x2173, 0x2163); (0x2174, 0x2164); (0x2175, 0x2165); (0x2176, 0x2166);
    (0x2177, 0x2167); (0x2178, 0x2168); (0x2179, 0x2169); (0x217A, 0x216A); (0x217B, 0x216B);
    (0x217C, 0x216C); (0x217D, 0x216D); (0x217E, 0x216E); (0x217F, 0x216F); (0x2184, 0x2183);
    (0x24D0, 0x24B6); (0x24D1, 0x24B7); (0x24D2, 0x24B8); (0x24D3, 0x24B9); (0x24D4, 0x24BA);
    (0x24D5, 0x24BB); (0x24D6, 0x24BC); (0x24D7, 0x24BD); (0x24D8, 0x24BE); (0x24D9, 0x24BF);
    (0x24DA, 0x24C0); (0x24DB, 0x24C1); (0x24DC, 0x24C2); (0x24DD, 0x24C3); (0x24DE, 0x24C4);
    (0x24DF, 0x24C5); (0x24E0, 0x24C6); (0x24E1, 0x24C7); (0x24E2, 0x24C8); (0x24E3, 0x24C9);
    (0x24E4, 0x24CA); (0x24E5, 0x24CB); (0x24E6, 0x24CC); (0x24E7, 0x24CD); (0x24E8, 0x24CE);
    (0x24E9, 0x24CF); (0x2C30, 0x2C00); (0x2C31, 0x2C01); (0x2C32, 0x2C02); (0x2C33, 0x2C03);
    (0x2C34, 0x2C04); (0x2C35, 0x2C05); (0x2C36, 0x2C06); (0x2C37, 0x2C07); (0x2C38, 0x2C08);
    (0x2C39, 0x2C09); (0x2C3A, 0x2C0A); (0x2C3B, 0x2C0B); (0x2C3C, 0x2C0C); (0x2C3D, 0x2C0D);
    (0x2C3E, 0x2C0E); (0x2C3F, 0x2C0F); (0x2C40, 0x2C10); (0x2C41, 0x2C11); (0x2C42, 0x2C12);
    (0x2C43, 0x2C13); (0x2C44, 0x2C14); (0x2C45, 0x2C15); (0x2C46, 0x2C16); (0x2C47, 0x2C17);
    (0x2C48, 0x2C18); (0x2C49, 0x2C19); (0x2C4A, 0x2C1A); (0x2C4B, 0x2C1B); (0x2C4C, 0x2C1C);
    (0x2C4D, 0x2C1D); (0x2C4E, 0x2C1E); (0x2C4F, 0x2C1F); (0x2C50, 0x2C20); (0x2C51, 0x2C21);
    (0x2C52, 0x2C22); (0x2C53, 0x2C23); (0x2C54, 0x2C24); (0x2C55, 0x2C25); (0x2C56, 0x2C26);
    (0x2C57, 0x2C27); (0x2C58, 0x2C28); (0x2C59, 0x2C29); (0x2C5A, 0x2C2A); (0x2C5B, 0x2C2B);
    (0x2C5C, 0x2C2C); (0x2C5D, 0x2C2D); (0x2C5E, 0x2C2E); (0x2C5F, 0x2C2F); (0x2C61, 0x2C60);
    (0x2C65, 0x023A); (0x2C66, 0x023E); (0x2C68, 0x2C67); (0x2C6A, 0x2C69); (0x2C6C, 0x2C6B);
    (0x2C73, 0x2C72); (0x2C76, 0x2C75); (0x2C81, 0x2C80); (0x2C83, 0x2C82); (0x2C85, 0x2C84);
    (0x2C87, 0x2C86); (0x2C89, 0x2C88); (0x2C8B, 0x2C8A); (0x2C8D, 0x2C8C); (0x2C8F, 0x2C8E);
    (0x2C91, 0x2C90); (0x2C93, 0x2C92); (0x2C95, 0x2C94); (0x2C97, 0x2C96); (0x2C99, 0x2C98);
    (0x2C9B, 0x2C9A); (0x2C9D, 0x2C9C); (0x2C9F, 0x2C9E); (0x2CA1, 0x2CA0); (0x2CA3, 0x2CA2);
    (0x2CA5, 0x2CA4); (0x2CA7, 0x2CA6); (0x2CA9, 0x2CA8); (0x2CAB, 0x2CAA); (0x2CAD, 0x2CAC);
    (0x2CAF, 0x2CAE); (0x2CB1, 0x2CB0); (0x2CB3, 0x2CB2); (0x2CB5, 0x2CB4); (0x2CB7, 0x2CB6);
    (0x2CB9, 0x2CB8); (0x2CBB, 0x2CBA); (0x2CBD, 0x2CBC); (0x2CBF, 0x2CBE); (0x2CC1, 0x2CC0);
    (0x2CC3, 0x2CC2); (0x2CC5, 0x2CC4); (0x2CC7, 0x2CC6); (0x2CC9, 0x2CC8); (0x2CCB, 0x2CCA);
    (0x2CCD, 0x2CCC); (0x2CCF, 0x2CCE); (0x2CD1, 0x2CD0); (0x2CD3, 0x2CD2); (0x2CD5, 0x2CD4);
    (0x2CD7, 0x2CD6); (0x2CD9, 0x2CD8); (0x2CDB, 0x2CDA); (0x2CDD, 0x2CDC); (0x2CDF, 0x2CDE);
    (0x2CE1, 0x2CE0); (0x2CE3, 0x2CE2); (0x2CEC, 0x2CEB); (0x2CEE, 0x2CED); (0x2CF3, 0x2CF2);
    (0x2D00, 0x10A0); (0x2D01, 0x10A1); (0x2D02, 0x10A2); (0x2D03, 0x10A3); (0x2D04, 0x10A4);
    (0x2D05, 0x10A5); (0x2D06, 0x10A6); (0x2D07, 0x10A7); (0x2D08, 0x10A8); (0x2D09, 0x10A9);
    (0x2D0A, 0x10AA); (0x2D0B, 0x10AB); (0x2D0C, 0x10AC); (0x2D0D, 0x10AD); (0x2D0E, 0x10AE);
    (0x2D0F, 0x10AF); (0x2D10, 0x10B0); (0x2D11, 0x10B1); (0x2D12, 0x10B2); (0x2D13, 0x10B3);
    (0x2D14, 0x10B4); (0x2D15, 0x10B5); (0x2D16, 0x10B6); (0x2D17, 0x10B7); (0x2D18, 0x10B8);
    (0x2D19, 0x10B9); (0x2D1A, 0x10BA); (0x2D1B, 0x10BB); (0x2D1C, 0x10BC); (0x2D1D, 0x10BD);
    (0x2D1E, 0x10BE); (0x2D1F, 0x10BF); (0x2D20, 0x10C0); (0x2D21, 0x10C1); (0x2D22, 0x10C2);
    (0x2D23, 0x10C3); (0x2D24, 0x10C4); (0x2D25, 0x10C5); (0x2D27, 0x10C7); (0x2D2D, 0x10CD);
    (0xA641, 0xA640); (0xA643, 0xA642); (0xA645, 0xA644); (0xA647, 0xA646); (0xA649, 0xA648);
    (0xA64B, 0xA64A); (0xA64D, 0xA64C); (0xA64F, 0xA64E); (0xA651, 0xA650); (0xA653, 0xA652);
    (0xA655, 0xA654); (0xA657, 0xA656); (0xA659, 0xA658); (0xA65B, 0xA65A); (0xA65D, 0xA65C);
    (0xA65F, 0xA65E); (0xA661, 0xA660); (0xA663, 0xA662); (0xA665, 0xA664); (0xA667, 0xA666);
    (0xA669, 0xA668); (0xA66B, 0xA66A); (0xA66D, 0xA66C); (0xA681, 0xA680); (0xA683, 0xA682);
    (0xA685, 0xA684); (0xA687, 0xA686); (0xA689, 0xA688); (0xA68B, 0xA68A); (0xA68D, 0xA68C);
    (0xA68F, 0xA68E); (0xA691, 0xA690); (0xA693, 0xA692); (0xA695, 0xA694); (0xA697, 0xA696);
    (0xA699, 0xA698); (0xA69B, 0xA69A); (0xA723, 0xA722); (0xA725, 0xA724); (0xA727, 0xA726);
    (0xA729, 0xA728); (0xA72B, 0xA72A); (0xA72D, 0xA72C); (0xA72F, 0xA72E); (0xA733, 0xA732);
    (0xA735, 0xA734); (0xA737, 0xA736); (0xA739, 0xA738); (0xA73B, 0xA73A); (0xA73D, 0xA73C);
    (0xA73F, 0xA73E); (0xA741, 0xA740); (0xA743, 0xA742); (0xA745, 0xA744); (0xA747, 0xA746);
    (0xA749, 0xA748); (0xA74B, 0xA74A); (0xA74D, 0xA74C); (0xA74F, 0xA74E); (0xA751, 0xA750);
    (0xA753, 0xA752); (0xA755, 0xA754); (0xA757, 0xA756); (0xA759, 0xA758); (0xA75B, 0xA75A);
    (0xA75D, 0xA75C); (0xA75F, 0xA75E); (0xA761, 0xA760); (0xA763, 0xA762); (0xA765, 0xA764);
    (0xA767, 0xA766); (0xA769, 0xA768); (0xA76B, 0xA76A); (0xA76D, 0xA76C); (0xA76F, 0xA76E);
    (0xA77A, 0xA779); (0xA77C, 0xA77B); (0xA77F, 0xA77E); (0xA781, 0xA780); (0xA783, 0xA782);
    (0xA785, 0xA784); (0xA787, 0xA786); (0xA78C, 0xA78B); (0xA791, 0xA790); (0xA793, 0xA792);
    (0xA794, 0xA7C4); (0xA797, 0xA796); (0xA799, 0xA798); (0xA79B, 0xA79A); (0xA79D, 0xA79C);
    (0xA79F, 0xA79E); (0xA7A1, 0xA7A0); (0xA7A3, 0xA7A2); (0xA7A5, 0xA7A4); (0xA7A7, 0xA7A6);
    (0xA7A9, 0xA7A8); (0xA7B5, 0xA7B4); (0xA7B7, 0xA7B6); (0xA7B9, 0xA7B8); (0xA7BB, 0xA7BA);
    (0xA7BD, 0xA7BC); (0xA7BF, 0xA7BE); (0xA7C1, 0xA7C0); (0xA7C3, 0xA7C2); (0xA7C8, 0xA7C7);
    (0xA7CA, 0xA7C9); (0xA7D1, 0xA7D0); (0xA7D7, 0xA7D6); (0xA7D9, 0xA7D8); (0xA7F6, 0xA7F5);
    (0xAB53, 0xA7B3); (0xAB70, 0x13A0); (0xAB71, 0x13A1); (0xAB72, 0x13A2); (0xAB73, 0x13A3);
    (0xAB74, 0x13A4); (0xAB75, 0x13A5); (0xAB76, 0x13A6); (0xAB77, 0x13A7); (0xAB78, 0x13A8);
    (0xAB79, 0x13A9); (0xAB7A, 0x13AA); (0xAB7B, 0x13AB); (0xAB7C, 0x13AC); (0xAB7D, 0x13AD);
    (0xAB7E, 0x13AE); (0xAB7F, 0x13AF); (0xAB80, 0x13B0); (0xAB81, 0x13B1); (0xAB82, 0x13B2);
    (0xAB83, 0x13B3); (0xAB84, 0x13B4); (0xAB85, 0x13B5); (0xAB86, 0x13B6); (0xAB87, 0x13B7);
    (0xAB88, 0x13B8); (0xAB89, 0x13B9); (0xAB8A, 0x13BA); (0xAB8B, 0x13BB); (0xAB8C, 0x13BC);
    (0xAB8D, 0x13BD); (0xAB8E, 0x13BE); (0xAB8F, 0x13BF); (0xAB90, 0x13C0); (0xAB91, 0x13C1);
    (0xAB92, 0x13C2); (0xAB93, 0x13C3); (0xAB94, 0x13C4); (0xAB95, 0x13C5); (0xAB96, 0x13C6);
    (0xAB97, 0x13C7); (0xAB98, 0x13C8); (0xAB99, 0x13C9); (0xAB9A, 0x13CA); (0xAB9B, 0x13CB);
    (0xAB9C, 0x13CC); (0xAB9D, 0x13CD); (0xAB9E, 0x13CE); (0xAB9F, 0x13CF); (0xABA0, 0x13D0);
    (0xABA1, 0x13D1); (0xABA2, 0x13D2); (0xABA3, 0x13D3); (0xABA4, 0x13D4); (0xABA5, 0x13D5);
    (0xABA6, 0x13D6); (0xABA7, 0x13D7); (0xABA8, 0x13D8); (0xABA9, 0x13D9); (0xABAA, 0x13DA);
    (0xABAB, 0x13DB); (0xABAC, 0x13DC); (0xABAD, 0x13DD); (0xABAE, 0x13DE); (0xABAF, 0x13DF);
    (0xABB0, 0x13E0); (0xABB1, 0x13E1); (0xABB2, 0x13E2); (0xABB3, 0x13E3); (0xABB4, 0x13E4);
    (0xABB5, 0x13E5); (0xABB6, 0x13E6); (0xABB7, 0x13E7); (0xABB8, 0x13E8); (0xABB9, 0x13E9);
    (0xABBA, 0x13EA); (0xABBB, 0x13EB); (0xABBC, 0x13EC); (0xABBD, 0x13ED); (0xABBE, 0x13EE);
    (0xABBF, 0x13EF); (0xFF41, 0xFF21); (0xFF42, 0xFF22); (0xFF43, 0xFF23); (0xFF44, 0xFF24);
    (0xFF45, 0xFF25); (0xFF46, 0xFF26); (0xFF47, 0xFF27); (0xFF48, 0xFF28); (0xFF49, 0xFF29);
    (0xFF4A, 0xFF2A); (0xFF4B, 0xFF2B); (0xFF4C, 0xFF2C); (0xFF4D, 0xFF2D); (0xFF4E, 0xFF2E);
    (0xFF4F, 0xFF2F); (0xFF50, 0xFF30); (0xFF51, 0xFF31); (0xFF52, 0xFF32); (0xFF53, 0xFF33);
    (0xFF54, 0xFF34); (0xFF55, 0xFF35); (0xFF56, 0xFF36); (0xFF57, 0xFF37); (0xFF58, 0xFF38);
    (0xFF59, 0xFF39); (0xFF5A, 0xFF3A); (0x10428, 0x10400); (0x10429, 0x10401); (0x1042A, 0x10402);
    (0x1042B, 0x10403); (0x1042C, 0x10404); (0x1042D, 0x10405); (0x1042E, 0x10406); (0x1042F, 0x10407);
    (0x10430, 0x10408); (0x10431, 0x10409); (0x10432, 0x1040A); (0x10433, 0x1040B); (0x10434, 0x1040C);
    (0x10435, 0x1040D); (0x10436, 0x1040E); (0x10437, 0x1040F); (0x10438, 0x10410); (0x10439, 0x10411);
    (0x1043A, 0x10412); (0x1043B, 0x10413); (0x1043C, 0x10414); (0x1043D, 0x10415); (0x1043E, 0x10416);
    (0x1043F, 0x10417); (0x10440, 0x10418); (0x10441, 0x10419); (0x10442, 0x1041A); (0x10443, 0x1041B);
    (0x10444, 0x1041C); (0x10445, 0x1041D); (0x10446, 0x1041E); (0x10447, 0x1041F); (0x10448, 0x10420);
    (0x10449, 0x10421); (0x1044A, 0x10422); (0x1044B, 0x10423); (0x1044C, 0x10424); (0x1044D, 0x10425);
    (0x1044E, 0x10426); (0x1044F, 0x10427); (0x104D8, 0x104B0); (0x104D9, 0x104B1); (0x104DA, 0x104B2);
    (0x104DB, 0x104B3); (0x104DC, 0x104B4); (0x104DD, 0x104B5); (0x104DE, 0x104B6); (0x104DF, 0x104B7);
    (0x104E0, 0x104B8); (0x104E1, 0x104B9); (0x104E2, 0x104BA); (0x104E3, 0x104BB); (0x104E4, 0x104BC);
    (0x104E5, 0x104BD); (0x104E6, 0x104BE); (0x104E7, 0x104BF); (0x104E8, 0x104C0); (0x104E9, 0x104C1);
    (0x104EA, 0x104C2); (0x104EB, 0x104C3); (0x104EC, 0x104C4); (0x104ED, 0x104C5); (0x104EE, 0x104C6);
    (0x104EF, 0x104C7); (0x104F0, 0x104C8); (0x104F1, 0x104C9); (0x104F2, 0x104CA); (0x104F3, 0x104CB);
    (0x104F4, 0x104CC); (0x104F5, 0x104CD); (0x104F6, 0x104CE); (0x104F7, 0x104CF); (0x104F8, 0x104D0);
    (0x104F9, 0x104D1); (0x104FA, 0x104D2); (0x104FB, 0x104D3); (0x10597, 0x10570); (0x10598, 0x10571);
    (0x10599, 0x10572); (0x1059A, 0x10573); (0x1059B, 0x10574); (0x1059C, 0x10575); (0x1059D, 0x10576);
    (0x1059E, 0x10577); (0x1059F, 0x10578); (0x105A0, 0x10579); (0x105A1, 0x1057A); (0x105A3, 0x1057C);
    (0x105A4, 0x1057D); (0x105A5, 0x1057E); (0x105A6, 0x1057F); (0x105A7, 0x10580); (0x105A8, 0x10581);
    (0x105A9, 0x10582); (0x105AA, 0x10583); (0x105AB, 0x10584); (0x105AC, 0x10585); (0x105AD, 0x10586);
    (0x105AE, 0x10587); (0x105AF, 0x10588); (0x105B0, 0x10589); (0x105B1, 0x1058A); (0x105B3, 0x1058C);
    (0x105B4, 0x1058D); (0x105B5, 0x1058E); (0x105B6, 0x1058F); (0x105B7, 0x10590); (0x105B8, 0x10591);
    (0x105B9, 0x10592); (0x105BB, 0x10594); (0x105BC, 0x10595); (0x10CC0, 0x10C80); (0x10CC1, 0x10C81);
    (0x10CC2, 0x10C82); (0x10CC3, 0x10C83); (0x10CC4, 0x10C84); (0x10CC5, 0x10C85); (0x10CC6, 0x10C86);
    (0x10CC7, 0x10C87); (0x10CC8, 0x10C88); (0x10CC9, 0x10C89); (0x10CCA, 0x10C8A); (0x10CCB, 0x10C8B);
    (0x10CCC, 0x10C8C); (0x10CCD, 0x10C8D); (0x10CCE, 0x10C8E); (0x10CCF, 0x10C8F); (0x10CD0, 0x10C90);
    (0x10CD1, 0x10C91); (0x10CD2, 0x10C92); (0x10CD3, 0x10C93); (0x10CD4, 0x10C94); (0x10CD5, 0x10C95);
    (0x10CD6, 0x10C96); (0x10CD7, 0x10C97); (0x10CD8, 0x10C98); (0x10CD9, 0x10C99); (0x10CDA, 0x10C9A);
    (0x10CDB, 0x10C9B); (0x10CDC, 0x10C9C); (0x10CDD, 0x10C9D); (0x10CDE, 0x10C9E); (0x10CDF, 0x10C9F);
    (0x10CE0, 0x10CA0); (0x10CE1, 0x10CA1); (0x10CE2, 0x10CA2); (0x10CE3, 0x10CA3); (0x10CE4, 0x10CA4);
    (0x10CE5, 0x10CA5); (0x10CE6, 0x10CA6); (0x10CE7, 0x10CA7); (0x10CE8, 0x10CA8); (0x10CE9, 0x10CA9);
    (0x10CEA, 0x10CAA); (0x10CEB, 0x10CAB); (0x10CEC, 0x10CAC); (0x10CED, 0x10CAD); (0x10CEE, 0x10CAE);
    (0x10CEF, 0x10CAF); (0x10CF0, 0x10CB0); (0x10CF1, 0x10CB1); (0x10CF2, 0x10CB2); (0x118C0, 0x118A0);
    (0x118C1, 0x118A1); (0x118C2, 0x118A2); (0x118C3, 0x118A3); (0x118C4, 0x118A4); (0x118C5, 0x118A5);
    (0x118C6, 0x118A6); (0x118C7, 0x118A7); (0x118C8, 0x118A8); (0x118C9, 0x118A9); (0x118CA, 0x118AA);
    (0x118CB, 0x118AB); (0x118CC, 0x118AC); (0x118CD, 0x118AD); (0x118CE, 0x118AE); (0x118CF, 0x118AF);
    (0x118D0, 0x118B0); (0x118D1, 0x118B1); (0x118D2, 0x118B2); (0x118D3, 0x118B3); (0x118D4, 0x118B4);
    (0x118D5, 0x118B5); (0x118D6, 0x118B6); (0x118D7, 0x118B7); (0x118D8, 0x118B8); (0x118D9, 0x118B9);
    (0x118DA, 0x118BA); (0x118DB, 0x118BB); (0x118DC, 0x118BC); (0x118DD, 0x118BD); (0x118DE, 0x118BE);
    (0x118DF, 0x118BF); (0x16E60, 0x16E40); (0x16E61, 0x16E41); (0x16E62, 0x16E42); (0x16E63, 0x16E43);
    (0x16E64, 0x16E44); (0x16E65, 0x16E45); (0x16E66, 0x16E46); (0x16E67, 0x16E47); (0x16E68, 0x16E48);
    (0x16E69, 0x16E49); (0x16E6A, 0x16E4A); (0x16E6B, 0x16E4B); (0x16E6C, 0x16E4C); (0x16E6D, 0x16E4D);
    (0x16E6E, 0x16E4E); (0x16E6F, 0x16E4F); (0x16E70, 0x16E50); (0x16E71, 0x16E51); (0x16E72, 0x16E52);
    (0x16E73, 0x16E53); (0x16E74, 0x16E54); (0x16E75, 0x16E55); (0x16E76, 0x16E56); (0x16E77, 0x16E57);
    (0x16E78, 0x16E58); (0x16E79, 0x16E59); (0x16E7A, 0x16E5A); (0x16E7B, 0x16E5B); (0x16E7C, 0x16E5C);
    (0x16E7D, 0x16E5D); (0x16E7E, 0x16E5E); (0x16E7F, 0x16E5F); (0x1E922, 0x1E900); (0x1E923, 0x1E901);
    (0x1E924, 0x1E902); (0x1E925, 0x1E903); (0x1E926, 0x1E904); (0x1E927, 0x1E905); (0x1E928, 0x1E906);
    (0x1E929, 0x1E907); (0x1E92A, 0x1E908); (0x1E92B, 0x1E909); (0x1E92C, 0x1E90A); (0x1E92D, 0x1E90B);
    (0x1E92E, 0x1E90C); (0x1E92F, 0x1E90D); (0x1E930, 0x1E90E); (0x1E931, 0x1E90F); (0x1E932, 0x1E910);
    (0x1E933, 0x1E911); (0x1E934, 0x1E912); (0x1E935, 0x1E913); (0x1E936, 0x1E914); (0x1E937, 0x1E915);
    (0x1E938, 0x1E916); (0x1E939, 0x1E917); (0x1E93A, 0x1E918); (0x1E93B, 0x1E919); (0x1E93C, 0x1E91A);
    (0x1E93D, 0x1E91B); (0x1E93E, 0x1E91C); (0x1E93F, 0x1E91D); (0x1E940, 0x1E91E); (0x1E941, 0x1E91F);
    (0x1E942, 0x1E920); (0x1E943, 0x1E921) ].

Definition UPPER_SPECIAL : list (N * list N) :=
  [
    (0x00DF, [0x0053; 0x0053]); (0x0149, [0x02BC; 0x004E]); (0x01F0, [0x004A; 0x030C]);
    (0x0390, [0x0399; 0x0308; 0x0301]); (0x03B0, [0x03A5; 0x0308; 0x0301]); (0x0587, [0x0535; 0x0552]);
    (0x1E96, [0x0048; 0x0331]); (0x1E97, [0x0054; 0x0308]); (0x1E98, [0x0057; 0x030A]);
    (0x1E99, [0x0059; 0x030A]); (0x1E9A, [0x0041; 0x02BE]); (0x1F50, [0x03A5; 0x0313]);
    (0x1F52, [0x03A5; 0x0313; 0x0300]); (0x1F54, [0x03A5; 0x0313; 0x0301]); (0x1F56, [0x03A5; 0x0313; 0x0342]);
    (0x1F80, [0x1F08; 0x0399]); (0x1F81, [0x1F09; 0x0399]); (0x1F82, [0x1F0A; 0x0399]);
    (0x1F83, [0x1F0B; 0x0399]); (0x1F84, [0x1F0C; 0x0399]); (0x1F85, [0x1F0D; 0x0399]);
    (0x1F86, [0x1F0E; 0x0399]); (0x1F87, [0x1F0F; 0x0399]); (0x1F88, [0x1F08; 0x0399]);
    (0x1F89, [0x1F09; 0x0399]); (0x1F8A, [0x1F0A; 0x0399]); (0x1F8B, [0x1F0B; 0x0399]);
    (0x1F8C, [0x1F0C; 0x0399]); (0x1F8D, [0x1F0D; 0x0399]); (0x1F8E, [0x1F0E; 0x0399]);
    (0x1F8F, [0x1F0F; 0x0399]); (0x1F90, [0x1F28; 0x0399]); (0x1F91, [0x1F29; 0x0399]);
    (0x1F92, [0x1F2A; 0x0399]); (0x1F93, [0x1F2B; 0x0399]); (0x1F94, [0x1F2C; 0x0399]);
    (0x1F95, [0x1F2D; 0x0399]); (0x1F96, [0x1F2E; 0x0399]); (0x1F97, [0x1F2F; 0x0399]);
    (0x1F98, [0x1F28; 0x0399]); (0x1F99, [0x1F29; 0x0399]); (0x1F9A, [0x1F2A; 0x0399]);
    (0x1F9B, [0x1F2B; 0x0399]); (0x1F9C, [0x1F2C; 0x0399]); (0x1F9D, [0x1F2D; 0x0399]);
    (0x1F9E, [0x1F2E; 0x0399]); (0x1F9F, [0x1F2F; 0x0399]); (0x1FA0, [0x1F68; 0x0399]);
    (0x1FA1, [0x1F69; 0x0399]); (0x1FA2, [0x1F6A; 0x0399]); (0x1FA3, [0x1F6B; 0x0399]);
    (0x1FA4, [0x1F6C; 0x0399]); (0x1FA5, [0x1F6D; 0x0399]); (0x1FA6, [0x1F6E; 0x0399]);
    (0x1FA7, [0x1F6F; 0x0399]); (0x1FA8, [0x1F68; 0x0399]); (0x1FA9, [0x1F69; 0x0399]);
    (0x1FAA, [0x1F6A; 0x0399]); (0x1FAB, [0x1F6B; 0x0399]); (0x1FAC, [0x1F6C; 0x0399]);
    (0x1FAD, [0x1F6D; 0x0399]); (0x1FAE, [0x1F6E; 0x0399]); (0x1FAF, [0x1F6F; 0x0399]);
    (0x1FB2, [0x1FBA; 0x0399]); (0x1FB3, [0x0391; 0x0399]); (0x1FB4, [0x0386; 0x0399]);
    (0x1FB6, [0x0391; 0x0342]); (0x1FB7, [0x0391; 0x0342; 0x0399]); (0x1FBC, [0x0391; 0x0399]);
    (0x1FC2, [0x1FCA; 0x0399]); (0x1FC3, [0x0397; 0x0399]); (0x1FC4, [0x0389; 0x0399]);
    (0x1FC6, [0x0397; 0x0342]); (0x1FC7, [0x0397; 0x0342; 0x0399]); (0x1FCC, [0x0397; 0x0399]);
    (0x1FD2, [0x0399; 0x0308; 0x0300]); (0x1FD3, [0x0399; 0x0308; 0x0301]); (0x1FD6, [0x0399; 0x0342]);
    (0x1FD7, [0x0399; 0x0308; 0x0342]); (0x1FE2, [0x03A5; 0x0308; 0x0300]); (0x1FE3, [0x03A5; 0x0308; 0x0301]);
    (0x1FE4, [0x03A1; 0x0313]); (0x1FE6, [0x03A5; 0x0342]); (0x1FE7, [0x03A5; 0x0308; 0x0342]);
    (0x1FF2, [0x1FFA; 0x0399]); (0x1FF3, [0x03A9; 0x0399]); (0x1FF4, [0x038F; 0x0399]);
    (0x1FF6, [0x03A9; 0x0342]); (0x1FF7, [0x03A9; 0x0342; 0x0399]); (0x1FFC, [0x03A9; 0x0399]);
    (0xFB00, [0x0046; 0x0046]); (0xFB01, [0x0046; 0x0049]); (0xFB02, [0x0046; 0x004C]);
    (0xFB03, [0x0046; 0x0046; 0x0049]); (0xFB04, [0x0046; 0x0046; 0x004C]); (0xFB05, [0x0053; 0x0054]);
    (0xFB06, [0x0053; 0x0054]); (0xFB13, [0x0544; 0x0546]); (0xFB14, [0x0544; 0x0535]);
    (0xFB15, [0x0544; 0x053B]); (0xFB16, [0x054E; 0x0546]); (0xFB17, [0x0544; 0x053D]) ].

Definition LOWER_SIMPLE : list (N * N) :=
  [
    (0x00C0, 0x00E0); (0x00C1, 0x00E1); (0x00C2, 0x00E2); (0x00C3, 0x00E3); (0x00C4, 0x00E4);
    (0x00C5, 0x00E5); (0x00C6, 0x00E6); (0x00C7, 0x00E7); (0x00C8, 0x00E8); (0x00C9, 0x00E9);
    (0x00CA, 0x00EA); (0x00CB, 0x00EB); (0x00CC, 0x00EC); (0x00CD, 0x00ED); (0x00CE, 0x00EE);
    (0x00CF, 0x00EF); (0x00D0, 0x00F0); (0x00D1, 0x00F1); (0x00D2, 0x00F2); (0x00D3, 0x00F3);
    (0x00D4, 0x00F4); (0x00D5, 0x00F5); (0x00D6, 0x00F6); (0x00D8, 0x00F8); (0x00D9, 0x00F9);
    (0x00DA, 0x00FA); (0x00DB, 0x00FB); (0x00DC, 0x00FC); (0x00DD, 0x00FD); (0x00DE, 0x00FE);
    (0x0100, 0x0101); (0x0102, 0x0103); (0x0104, 0x0105); (0x0106, 0x0107); (0x0108, 0x0109);
    (0x010A, 0x010B); (0x010C, 0x010D); (0x010E, 0x010F); (0x0110, 0x0111); (0x0112, 0x0113);
    (0x0114, 0x0115); (0x0116, 0x0117); (0x0118, 0x0119); (0x011A, 0x011B); (0x011C, 0x011D);
    (0x011E, 0x011F); (0x0120, 0x0121); (0x0122, 0x0123); (0x0124, 0x0125); (0x0126, 0x0127);
    (0x0128, 0x0129); (0x012A, 0x012B); (0x012C, 0x012D); (0x012E, 0x012F); (0x0132, 0x0133);
    (0x0134, 0x0135); (0x0136, 0x0137); (0x0139, 0x013A); (0x013B, 0x013C); (0x013D, 0x013E);
    (0x013F, 0x0140); (0x0141, 0x0142); (0x0143, 0x0144); (0x0145, 0x0146); (0x0147, 0x0148);
    (0x014A, 0x014B); (0x014C, 0x014D); (0x014E, 0x014F); (0x0150, 0x0151); (0x0152, 0x0153);
    (0x0154, 0x0155); (0x0156, 0x0157); (0x0158, 0x0159); (0x015A, 0x015B); (0x015C, 0x015D);
    (0x015E, 0x015F); (0x0160, 0x0161); (0x0162, 0x0163); (0x0164, 0x0165); (0x0166, 0x0167);
    (0x0168, 0x0169); (0x016A, 0x016B); (0x016C, 0x016D); (0x016E, 0x016F); (0x0170, 0x0171);
    (0x0172, 0x0173); (0x0174, 0x0175); (0x0176, 0x0177); (0x0178, 0x00FF); (0x0179, 0x017A);
    (0x017B, 0x017C); (0x017D, 0x017E); (0x0181, 0x0253); (0x0182, 0x0183); (0x0184, 0x0185);
    (0x0186, 0x0254); (0x0187, 0x0188); (0x0189, 0x0256); (0x018A, 0x0257); (0x018B, 0x018C);
    (0x018E, 0x01DD); (0x018F, 0x0259); (0x0190, 0x025B); (0x0191, 0x0192); (0x0193, 0x0260);
    (0x0194, 0x0263); (0x0196, 0x0269); (0x0197, 0x0268); (0x0198, 0x0199); (0x019C, 0x026F);
    (0x019D, 0x0272); (0x019F, 0x0275); (0x01A0, 0x01A1); (0x01A2, 0x01A3); (0x01A4, 0x01A5);
    (0x01A6, 0x0280); (0x01A7, 0x01A8); (0x01A9, 0x0283); (0x01AC, 0x01AD); (0x01AE, 0x0288);
    (0x01AF, 0x01B0); (0x01B1, 0x028A); (0x01B2, 0x028B); (0x01B3, 0x01B4); (0x01B5, 0x01B6);
    (0x01B7, 0x0292); (0x01B8, 0x01B9); (0x01BC, 0x01BD); (0x01C4, 0x01C6); (0x01C5, 0x01C6);
    (0x01C7, 0x01C9); (0x01C8, 0x01C9); (0x01CA, 0x01CC); (0x01CB, 0x01CC); (0x01CD, 0x01CE);
    (0x01CF, 0x01D0); (0x01D1, 0x01D2); (0x01D3, 0x01D4); (0x01D5, 0x01D6); (0x01D7, 0x01D8);
    (0x01D9, 0x01DA); (0x01DB, 0x01DC); (0x01DE, 0x01DF); (0x01E0, 0x01E1); (0x01E2, 0x01E3);
    (0x01E4, 0x01E5); (0x01E6, 0x01E7); (0x01E8, 0x01E9); (0x01EA, 0x01EB); (0x01EC, 0x01ED);
    (0x01EE, 0x01EF); (0x01F1, 0x01F3); (0x01F2, 0x01F3); (0x01F4, 0x01F5); (0x01F6, 0x0195);
    (0x01F7, 0x01BF); (0x01F8, 0x01F9); (0x01FA, 0x01FB); (0x01FC, 0x01FD); (0x01FE, 0x01FF);
    (0x0200, 0x0201); (0x0202, 0x0203); (0x0204, 0x0205); (0x0206, 0x0207); (0x0208, 0x0209);
    (0x020A, 0x020B); (0x020C, 0x020D); (0x020E, 0x020F); (0x0210, 0x0211); (0x0212, 0x0213);
    (0x0214, 0x0215); (0x0216, 0x0217); (0x0218, 0x0219); (0x021A, 0x021B); (0x021C, 0x021D);
    (0x021E, 0x021F); (0x0220, 0x019E); (0x0222, 0x0223); (0x0224, 0x0225); (0x0226, 0x0227);
    (0x0228, 0x0229); (0x022A, 0x022B); (0x022C, 0x022D); (0x022E, 0x022F); (0x0230, 0x0231);
    (0x0232, 0x0233); (0x023A, 0x2C65); (0x023B, 0x023C); (0x023D, 0x019A); (0x023E, 0x2C66);
    (0x0241, 0x0242); (0x0243, 0x0180); (0x0244, 0x0289); (0x0245, 0x028C); (0x0246, 0x0247);
    (0x0248, 0x0249); (0x024A, 0x024B); (0x024C, 0x024D); (0x024E, 0x024F); (0x0370, 0x0371);
    (0x0372, 0x0373); (0x0376, 0x0377); (0x037F, 0x03F3); (0x0386, 0x03AC); (0x0388, 0x03AD);
    (0x0389, 0x03AE); (0x038A, 0x03AF); (0x038C, 0x03CC); (0x038E, 0x03CD); (0x038F, 0x03CE);
    (0x0391, 0x03B1); (0x0392, 0x03B2); (0x0393, 0x03B3); (0x0394, 0x03B4); (0x0395, 0x03B5);
    (0x0396, 0x03B6); (0x0397, 0x03B7); (0x0398, 0x03B8); (0x0399, 0x03B9); (0x039A, 0x03BA);
    (0x039B, 0x03BB); (0x039C, 0x03BC); (0x039D, 0x03BD); (0x039E, 0x03BE); (0x039F, 0x03BF);
    (0x03A0, 0x03C0); (0x03A1, 0x03C1); (0x03A3, 0x03C3); (0x03A4, 0x03C4); (0x03A5, 0x03C5);
    (0x03A6, 0x03C6); (0x03A7, 0x03C7); (0x03A8, 0x03C8); (0x03A9, 0x03C9); (0x03AA, 0x03CA);
    (0x03AB, 0x03CB); (0x03CF, 0x03D7); (0x03D8, 0x03D9); (0x03DA, 0x03DB); (0x03DC, 0x03DD);
    (0x03DE, 0x03DF); (0x03E0, 0x03E1); (0x03E2, 0x03E3); (0x03E4, 0x03E5); (0x03E6, 0x03E7);
    (0x03E8, 0x03E9); (0x03EA, 0x03EB); (0x03EC, 0x03ED); (0x03EE, 0x03EF); (0x03F4, 0x03B8);
    (0x03F7, 0x03F8); (0x03F9, 0x03F2); (0x03FA, 0x03FB); (0x03FD, 0x037B); (0x03FE, 0x037C);
    (0x03FF, 0x037D); (0x0400, 0x0450); (0x0401, 0x0451); (0x0402, 0x0452); (0x0403, 0x0453);
    (0x0404, 0x0454); (0x0405, 0x0455); (0x0406, 0x0456); (0x0407, 0x0457); (0x0408, 0x0458);
    (0x0409, 0x0459); (0x040A, 0x045A); (0x040B, 0x045B); (0x040C, 0x045C); (0x040D, 0x045D);
    (0x040E, 0x045E); (0x040F, 0x045F); (0x0410, 0x0430); (0x0411, 0x0431); (0x0412, 0x0432);
    (0x0413, 0x0433); (0x0414, 0x0434); (0x0415, 0x0435); (0x0416, 0x0436); (0x0417, 0x0437);
    (0x0418, 0x0438); (0x0419, 0x0439); (0x041A, 0x043A); (0x041B, 0x043B); (0x041C, 0x043C);
    (0x041D, 0x043D); (0x041E, 0x043E); (0x041F, 0x043F); (0x0420, 0x0440); (0x0421, 0x0441);
    (0x0422, 0x0442); (0x0423, 0x0443); (0x0424, 0x0444); (0x0425, 0x0445); (0x0426, 0x0446);
    (0x0427, 0x0447); (0x0428, 0x0448); (0x0429, 0x0449); (0x042A, 0x044A); (0x042B, 0x044B);
    (0x042C, 0x044C); (0x042D, 0x044D); (0x042E, 0x044E); (0x042F, 0x044F); (0x0460, 0x0461);
    (0x0462, 0x0463); (0x0464, 0x0465); (0x0466, 0x0467); (0x0468, 0x0469); (0x046A, 0x046B);
    (0x046C, 0x046D); (0x046E, 0x046F); (0x0470, 0x0471); (0x0472, 0x0473); (0x0474, 0x0475);
    (0x0476, 0x0477); (0x0478, 0x0479); (0x047A, 0x047B); (0x047C, 0x047D); (0x047E, 0x047F);
    (0x0480, 0x0481); (0x048A, 0x048B); (0x048C, 0x048D); (0x048E, 0x048F); (0x0490, 0x0491);
    (0x0492, 0x0493); (0x0494, 0x0495); (0x0496, 0x0497); (0x0498, 0x0499); (0x049A, 0x049B);
    (0x049C, 0x049D); (0x049E, 0x049F); (0x04A0, 0x04A1); (0x04A2, 0x04A3); (0x04A4, 0x04A5);
    (0x04A6, 0x04A7); (0x04A8, 0x04A9); (0x04AA, 0x04AB); (0x04AC, 0x04AD); (0x04AE, 0x04AF);
    (0x04B0, 0x04B1); (0x04B2, 0x04B3); (0x04B4, 0x04B5); (0x04B6, 0x04B7); (0x04B8, 0x04B9);
    (0x04BA, 0x04BB); (0x04BC, 0x04BD); (0x04BE, 0x04BF); (0x04C0, 0x04CF); (0x04C1, 0x04C2);
    (0x04C3, 0x04C4); (0x04C5, 0x04C6); (0x04C7, 0x04C8); (0x04C9, 0x04CA); (0x04CB, 0x04CC);
    (0x04CD, 0x04CE); (0x04D0, 0x04D1); (0x04D2, 0x04D3); (0x04D4, 0x04D5); (0x04D6, 0x04D7);
    (0x04D8, 0x04D9); (0x04DA, 0x04DB); (0x04DC, 0x04DD); (0x04DE, 0x04DF); (0x04E0, 0x04E1);
    (0x04E2, 0x04E3); (0x04E4, 0x04E5); (0x04E6, 0x04E7); (0x04E8, 0x04E9); (0x04EA, 0x04EB);
    (0x04EC, 0x04ED); (0x04EE, 0x04EF); (0x04F0, 0x04F1); (0x04F2, 0x04F3); (0x04F4, 0x04F5);
    (0x04F6, 0x04F7); (0x04F8, 0x04F9); (0x04FA, 0x04FB); (0x04FC, 0x04FD); (0x04FE, 0x04FF);
    (0x0500, 0x0501); (0x0502, 0x0503); (0x0504, 0x0505); (0x0506, 0x0507); (0x0508, 0x0509);
    (0x050A, 0x050B); (0x050C, 0x050D); (0x050E, 0x050F); (0x0510, 0x0511); (0x0512, 0x0513);
    (0x0514, 0x0515); (0x0516, 0x0517); (0x0518, 0x0519); (0x051A, 0x051B); (0x051C, 0x051D);
    (0x051E, 0x051F); (0x0520, 0x0521); (0x0522, 0x0523); (0x0524, 0x0525); (0x0526, 0x0527);
    (0x0528, 0x0529); (0x052A, 0x052B); (0x052C, 0x052D); (0x052E, 0x052F); (0x0531, 0x0561);
    (0x0532, 0x0562); (0x0533, 0x0563); (0x0534, 0x0564); (0x0535, 0x0565); (0x0536, 0x0566);
    (0x0537, 0x0567); (0x0538, 0x0568); (0x0539, 0x0569); (0x053A, 0x056A); (0x053B, 0x056B);
    (0x053C, 0x056C); (0x053D, 0x056D); (0x053E, 0x056E); (0x053F, 0x056F); (0x0540, 0x0570);
    (0x0541, 0x0571); (0x0542, 0x0572); (0x0543, 0x0573); (0x0544, 0x0574); (0x0545, 0x0575);
    (0x0546, 0x0576); (0x0547, 0x0577); (0x0548, 0x0578); (0x0549, 0x0579); (0x054A, 0x057A);
    (0x054B, 0x057B); (0x054C, 0x057C); (0x054D, 0x057D); (0x054E, 0x057E); (0x054F, 0x057F);
    (0x0550, 0x0580); (0x0551, 0x0581); (0x0552, 0x0582); (0x0553, 0x0583); (0x0554, 0x0584);
    (0x0555, 0x0585); (0x0556, 0x0586); (0x10A0, 0x2D00); (0x10A1, 0x2D01); (0x10A2, 0x2D02);
    (0x10A3, 0x2D03); (0x10A4, 0x2D04); (0x10A5, 0x2D05); (0x10A6, 0x2D06); (0x10A7, 0x2D07);
    (0x10A8, 0x2D08); (0x10A9, 0x2D09); (0x10AA, 0x2D0A); (0x10AB, 0x2D0B); (0x10AC, 0x2D0C);
    (0x10AD, 0x2D0D); (0x10AE, 0x2D0E); (0x10AF, 0x2D0F); (0x10B0, 0x2D10); (0x10B1, 0x2D11);
    (0x10B2, 0x2D12); (0x10B3, 0x2D13); (0x10B4, 0x2D14); (0x10B5, 0x2D15); (0x10B6, 0x2D16);
    (0x10B7, 0x2D17); (0x10B8, 0x2D18); (0x10B9, 0x2D19); (0x10BA, 0x2D1A); (0x10BB, 0x2D1B);
    (0x10BC, 0x2D1C); (0x10BD, 0x2D1D); (0x10BE, 0x2D1E); (0x10BF, 0x2D1F); (0x10C0, 0x2D20);
    (0x10C1, 0x2D21); (0x10C2, 0x2D22); (0x10C3, 0x2D23); (0x10C4, 0x2D24); (0x10C5, 0x2D25);
    (0x10C7, 0x2D27); (0x10CD, 0x2D2D); (0x13A0, 0xAB70); (0x13A1, 0xAB71); (0x13A2, 0xAB72);
    (0x13A3, 0xAB73); (0x13A4, 0xAB74); (0x13A5, 0xAB75); (0x13A6, 0xAB76); (0x13A7, 0xAB77);
    (0x13A8, 0xAB78); (0x13A9, 0xAB79); (0x13AA, 0xAB7A); (0x13AB, 0xAB7B); (0x13AC, 0xAB7C);
    (0x13AD, 0xAB7D); (0x13AE, 0xAB7E); (0x13AF, 0xAB7F); (0x13B0, 0xAB80); (0x13B1, 0xAB81);
    (0x13B2, 0xAB82); (0x13B3, 0xAB83); (0x13B4, 0xAB84); (0x13B5, 0xAB85); (0x13B6, 0xAB86);
    (0x13B7, 0xAB87); (0x13B8, 0xAB88); (0x13B9, 0xAB89); (0x13BA, 0xAB8A); (0x13BB, 0xAB8B);
    (0x13BC, 0xAB8C); (0x13BD, 0xAB8D); (0x13BE, 0xAB8E); (0x13BF, 0xAB8F); (0x13C0, 0xAB90);
    (0x13C1, 0xAB91); (0x13C2, 0xAB92); (0x13C3, 0xAB93); (0x13C4, 0xAB94); (0x13C5, 0xAB95);
    (0x13C6, 0xAB96); (0x13C7, 0xAB97); (0x13C8, 0xAB98); (0x13C9, 0xAB99); (0x13CA, 0xAB9A);
    (0x13CB, 0xAB9B); (0x13CC, 0xAB9C); (0x13CD, 0xAB9D); (0x13CE, 0xAB9E); (0x13CF, 0xAB9F);
    (0x13D0, 0xABA0); (0x13D1, 0xABA1); (0x13D2, 0xABA2); (0x13D3, 0xABA3); (0x13D4, 0xABA4);
    (0x13D5, 0xABA5); (0x13D6, 0xABA6); (0x13D7, 0xABA7); (0x13D8, 0xABA8); (0x13D9, 0xABA9);
    (0x13DA, 0xABAA); (0x13DB, 0xABAB); (0x13DC, 0xABAC); (0x13DD, 0xABAD); (0x13DE, 0xABAE);
    (0x13DF, 0xABAF); (0x13E0, 0xABB0); (0x13E1, 0xABB1); (0x13E2, 0xABB2); (0x13E3, 0xABB3);
    (0x13E4, 0xABB4); (0x13E5, 0xABB5); (0x13E6, 0xABB6); (0x13E7, 0xABB7); (0x13E8, 0xABB8);
    (0x13E9, 0xABB9); (0x13EA, 0xABBA); (0x13EB, 0xABBB); (0x13EC, 0xABBC); (0x13ED, 0xABBD);
    (0x13EE, 0xABBE); (0x13EF, 0xABBF); (0x13F0, 0x13F8); (0x13F1, 0x13F9); (0x13F2, 0x13FA);
    (0x13F3, 0x13FB); (0x13F4, 0x13FC); (0x13F5, 0x13FD); (0x1C90, 0x10D0); (0x1C91, 0x10D1);
    (0x1C92, 0x10D2); (0x1C93, 0x10D3); (0x1C94, 0x10D4); (0x1C95, 0x10D5); (0x1C96, 0x10D6);
    (0x1C97, 0x10D7); (0x1C98, 0x10D8); (0x1C99, 0x10D9); (0x1C9A, 0x10DA); (0x1C9B, 0x10DB);
    (0x1C9C, 0x10DC); (0x1C9D, 0x10DD); (0x1C9E, 0x10DE); (0x1C9F, 0x10DF); (0x1CA0, 0x10E0);
    (0x1CA1, 0x10E1); (0x1CA2, 0x10E2); (0x1CA3, 0x10E3); (0x1CA4, 0x10E4); (0x1CA5, 0x10E5);
    (0x1CA6, 0x10E6); (0x1CA7, 0x10E7); (0x1CA8, 0x10E8); (0x1CA9, 0x10E9); (0x1CAA, 0x10EA);
    (0x1CAB, 0x10EB); (0x1CAC, 0x10EC); (0x1CAD, 0x10ED); (0x1CAE, 0x10EE); (0x1CAF, 0x10EF);
    (0x1CB0, 0x10F0); (0x1CB1, 0x10F1); (0x1CB2, 0x10F2); (0x1CB3, 0x10F3); (0x1CB4, 0x10F4);
    (0x1CB5, 0x10F5); (0x1CB6, 0x10F6); (0x1CB7, 0x10F7); (0x1CB8, 0x10F8); (0x1CB9, 0x10F9);
    (0x1CBA, 0x10FA); (0x1CBD, 0x10FD); (0x1CBE, 0x10FE); (0x1CBF, 0x10FF); (0x1E00, 0x1E01);
    (0x1E02, 0x1E03); (0x1E04, 0x1E05); (0x1E06, 0x1E07); (0x1E08, 0x1E09); (0x1E0A, 0x1E0B);
    (0x1E0C, 0x1E0D); (0x1E0E, 0x1E0F); (0x1E10, 0x1E11); (0x1E12, 0x1E13); (0x1E14, 0x1E15);
    (0x1E16, 0x1E17); (0x1E18, 0x1E19); (0x1E1A, 0x1E1B); (0x1E1C, 0x1E1D); (0x1E1E, 0x1E1F);
    (0x1E20, 0x1E21); (0x1E22, 0x1E23); (0x1E24, 0x1E25); (0x1E26, 0x1E27); (0x1E28, 0x1E29);
    (0x1E2A, 0x1E2B); (0x1E2C, 0x1E2D); (0x1E2E, 0x1E2F); (0x1E30, 0x1E31); (0x1E32, 0x1E33);
    (0x1E34, 0x1E35); (0x1E36, 0x1E37); (0x1E38, 0x1E39); (0x1E3A, 0x1E3B); (0x1E3C, 0x1E3D);
    (0x1E3E, 0x1E3F); (0x1E40, 0x1E41); (0x1E42, 0x1E43); (0x1E44, 0x1E45); (0x1E46, 0x1E47);
    (0x1E48, 0x1E49); (0x1E4A, 0x1E4B); (0x1E4C, 0x1E4D); (0x1E4E, 0x1E4F); (0x1E50, 0x1E51);
    (0x1E52, 0x1E53); (0x1E54, 0x1E55); (0x1E56, 0x1E57); (0x1E58, 0x1E59); (0x1E5A, 0x1E5B);
    (0x1E5C, 0x1E5D); (0x1E5E, 0x1E5F); (0x1E60, 0x1E61); (0x1E62, 0x1E63); (0x1E64, 0x1E65);
    (0x1E66, 0x1E67); (0x1E68, 0x1E69); (0x1E6A, 0x1E6B); (0x1E6C, 0x1E6D); (0x1E6E, 0x1E6F);
    (0x1E70, 0x1E71); (0x1E72, 0x1E73); (0x1E74, 0x1E75); (0x1E76, 0x1E77); (0x1E78, 0x1E79);
    (0x1E7A, 0x1E7B); (0x1E7C, 0x1E7D); (0x1E7E, 0x1E7F); (0x1E80, 0x1E81); (0x1E82, 0x1E83);
    (0x1E84, 0x1E85); (0x1E86, 0x1E87); (0x1E88, 0x1E89); (0x1E8A, 0x1E8B); (0x1E8C, 0x1E8D);
    (0x1E8E, 0x1E8F); (0x1E90, 0x1E91); (0x1E92, 0x1E93); (0x1E94, 0x1E95); (0x1E9E, 0x00DF);
    (0x1EA0, 0x1EA1); (0x1EA2, 0x1EA3); (0x1EA4, 0x1EA5); (0x1EA6, 0x1EA7); (0x1EA8, 0x1EA9);
    (0x1EAA, 0x1EAB); (0x1EAC, 0x1EAD); (0x1EAE, 0x1EAF); (0x1EB0, 0x1EB1); (0x1EB2, 0x1EB3);
    (0x1EB4, 0x1EB5); (0x1EB6, 0x1EB7); (0x1EB8, 0x1EB9); (0x1EBA, 0x1EBB); (0x1EBC, 0x1EBD);
    (0x1EBE, 0x1EBF); (0x1EC0, 0x1EC1); (0x1EC2, 0x1EC3); (0x1EC4, 0x1EC5); (0x1EC6, 0x1EC7);
    (0x1EC8, 0x1EC9); (0x1ECA, 0x1ECB); (0x1ECC, 0x1ECD); (0x1ECE, 0x1ECF); (0x1ED0, 0x1ED1);
    (0x1ED2, 0x1ED3); (0x1ED4, 0x1ED5); (0x1ED6, 0x1ED7); (0x1ED8, 0x1ED9); (0x1EDA, 0x1EDB);
    (0x1EDC, 0x1EDD); (0x1EDE, 0x1EDF); (0x1EE0, 0x1EE1); (0x1EE2, 0x1EE3); (0x1EE4, 0x1EE5);
    (0x1EE6, 0x1EE7); (0x1EE8, 0x1EE9); (0x1EEA, 0x1EEB); (0x1EEC, 0x1EED); (0x1EEE, 0x1EEF);
    (0x1EF0, 0x1EF1); (0x1EF2, 0x1EF3); (0x1EF4, 0x1EF5); (0x1EF6, 0x1EF7); (0x1EF8, 0x1EF9);
    (0x1EFA, 0x1EFB); (0x1EFC, 0x1EFD); (0x1EFE, 0x1EFF); (0x1F08, 0x1F00); (0x1F09, 0x1F01);
    (0x1F0A, 0x1F02); (0x1F0B, 0x1F03); (0x1F0C, 0x1F04); (0x1F0D, 0x1F05); (0x1F0E, 0x1F06);
    (0x1F0F, 0x1F07); (0x1F18, 0x1F10); (0x1F19, 0x1F11); (0x1F1A, 0x1F12); (0x1F1B, 0x1F13);
    (0x1F1C, 0x1F14); (0x1F1D, 0x1F15); (0x1F28, 0x1F20); (0x1F29, 0x1F21); (0x1F2A, 0x1F22);
    (0x1F2B, 0x1F23); (0x1F2C, 0x1F24); (0x1F2D, 0x1F25); (0x1F2E, 0x1F26); (0x1F2F, 0x1F27);
    (0x1F38, 0x1F30); (0x1F39, 0x1F31); (0x1F3A, 0x1F32); (0x1F3B, 0x1F33); (0x1F3C, 0x1F34);
    (0x1F3D, 0x1F35); (0x1F3E, 0x1F36); (0x1F3F, 0x1F37); (0x1F48, 0x1F40); (0x1F49, 0x1F41);
    (0x1F4A, 0x1F42); (0x1F4B, 0x1F43); (0x1F4C, 0x1F44); (0x1F4D, 0x1F45); (0x1F59, 0x1F51);
    (0x1F5B, 0x1F53); (0x1F5D, 0x1F55); (0x1F5F, 0x1F57); (0x1F68, 0x1F60); (0x1F69, 0x1F61);
    (0x1F6A, 0x1F62); (0x1F6B, 0x1F63); (0x1F6C, 0x1F64); (0x1F6D, 0x1F65); (0x1F6E, 0x1F66);
    (0x1F6F, 0x1F67); (0x1F88, 0x1F80); (0x1F89, 0x1F81); (0x1F8A, 0x1F82); (0x1F8B, 0x1F83);
    (0x1F8C, 0x1F84); (0x1F8D, 0x1F85); (0x1F8E, 0x1F86); (0x1F8F, 0x1F87); (0x1F98, 0x1F90);
    (0x1F99, 0x1F91); (0x1F9A, 0x1F92); (0x1F9B, 0x1F93); (0x1F9C, 0x1F94); (0x1F9D, 0x1F95);
    (0x1F9E, 0x1F96); (0x1F9F, 0x1F97); (0x1FA8, 0x1FA0); (0x1FA9, 0x1FA1); (0x1FAA, 0x1FA2);
    (0x1FAB, 0x1FA3); (0x1FAC, 0x1FA4); (0x1FAD, 0x1FA5); (0x1FAE, 0x1FA6); (0x1FAF, 0x1FA7);
    (0x1FB8, 0x1FB0); (0x1FB9, 0x1FB1); (0x1FBA, 0x1F70); (0x1FBB, 0x1F71); (0x1FBC, 0x1FB3);
    (0x1FC8, 0x1F72); (0x1FC9, 0x1F73); (0x1FCA, 0x1F74); (0x1FCB, 0x1F75); (0x1FCC, 0x1FC3);
    (0x1FD8, 0x1FD0); (0x1FD9, 0x1FD1); (0x1FDA, 0x1F76); (0x1FDB, 0x1F77); (0x1FE8, 0x1FE0);
    (0x1FE9, 0x1FE1); (0x1FEA, 0x1F7A); (0x1FEB, 0x1F7B); (0x1FEC, 0x1FE5); (0x1FF8, 0x1F78);
    (0x1FF9, 0x1F79); (0x1FFA, 0x1F7C); (0x1FFB, 0x1F7D); (0x1FFC, 0x1FF3); (0x2126, 0x03C9);
    (0x212A, 0x006B); (0x212B, 0x00E5); (0x2132, 0x214E); (0x2160, 0x2170); (0x2161, 0x2171);
    (0x2162, 0x2172); (0x2163, 0x2173); (0x2164, 0x2174); (0x2165, 0x2175); (0x2166, 0x2176);
    (0x2167, 0x2177); (0x2168, 0x2178); (0x2169, 0x2179); (0x216A, 0x217A); (0x216B, 0x217B);
    (0x216C, 0x217C); (0x216D, 0x217D); (0x216E, 0x217E); (0x216F, 0x217F); (0x2183, 0x2184);
    (0x24B6, 0x24D0); (0x24B7, 0x24D1); (0x24B8, 0x24D2); (0x24B9, 0x24D3); (0x24BA, 0x24D4);
    (0x24BB, 0x24D5); (0x24BC, 0x24D6); (0x24BD, 0x24D7); (0x24BE, 0x24D8); (0x24BF, 0x24D9);
    (0x24C0, 0x24DA); (0x24C1, 0x24DB); (0x24C2, 0x24DC); (0x24C3, 0x24DD); (0x24C4, 0x24DE);
    (0x24C5, 0x24DF); (0x24C6, 0x24E0); (0x24C7, 0x24E1); (0x24C8, 0x24E2); (0x24C9, 0x24E3);
    (0x24CA, 0x24E4); (0x24CB, 0x24E5); (0x24CC, 0x24E6); (0x24CD, 0x24E7); (0x24CE, 0x24E8);
    (0x24CF, 0x24E9); (0x2C00, 0x2C30); (0x2C01, 0x2C31); (0x2C02, 0x2C32); (0x2C03, 0x2C33);
    (0x2C04, 0x2C34); (0x2C05, 0x2C35); (0x2C06, 0x2C36); (0x2C07, 0x2C37); (0x2C08, 0x2C38);
    (0x2C09, 0x2C39); (0x2C0A, 0x2C3A); (0x2C0B, 0x2C3B); (0x2C0C, 0x2C3C); (0x2C0D, 0x2C3D);
    (0x2C0E, 0x2C3E); (0x2C0F, 0x2C3F); (0x2C10, 0x2C40); (0x2C11, 0x2C41); (0x2C12, 0x2C42);
    (0x2C13, 0x2C43); (0x2C14, 0x2C44); (0x2C15, 0x2C45); (0x2C16, 0x2C46); (0x2C17, 0x2C47);
    (0x2C18, 0x2C48); (0x2C19, 0x2C49); (0x2C1A, 0x2C4A); (0x2C1B, 0x2C4B); (0x2C1C, 0x2C4C);
    (0x2C1D, 0x2C4D); (0x2C1E, 0x2C4E); (0x2C1F, 0x2C4F); (0x2C20, 0x2C50); (0x2C21, 0x2C51);
    (0x2C22, 0x2C52); (0x2C23, 0x2C53); (0x2C24, 0x2C54); (0x2C25, 0x2C55); (0x2C26, 0x2C56);
    (0x2C27, 0x2C57); (0x2C28, 0x2C58); (0x2C29, 0x2C59); (0x2C2A, 0x2C5A); (0x2C2B, 0x2C5B);
    (0x2C2C, 0x2C5C); (0x2C2D, 0x2C5D); (0x2C2E, 0x2C5E); (0x2C2F, 0x2C5F); (0x2C60, 0x2C61);
    (0x2C62, 0x026B); (0x2C63, 0x1D7D); (0x2C64, 0x027D); (0x2C67, 0x2C68); (0x2C69, 0x2C6A);
    (0x2C6B, 0x2C6C); (0x2C6D, 0x0251); (0x2C6E, 0x0271); (0x2C6F, 0x0250); (0x2C70, 0x0252);
    (0x2C72, 0x2C73); (0x2C75, 0x2C76); (0x2C7E, 0x023F); (0x2C7F, 0x0240); (0x2C80, 0x2C81);
    (0x2C82, 0x2C83); (0x2C84, 0x2C85); (0x2C86, 0x2C87); (0x2C88, 0x2C89); (0x2C8A, 0x2C8B);
    (0x2C8C, 0x2C8D); (0x2C8E, 0x2C8F); (0x2C90, 0x2C91); (0x2C92, 0x2C93); (0x2C94, 0x2C95);
    (0x2C96, 0x2C97); (0x2C98, 0x2C99); (0x2C9A, 0x2C9B); (0x2C9C, 0x2C9D); (0x2C9E, 0x2C9F);
    (0x2CA0, 0x2CA1); (0x2CA2, 0x2CA3); (0x2CA4, 0x2CA5); (0x2CA6, 0x2CA7); (0x2CA8, 0x2CA9);
    (0x2CAA, 0x2CAB); (0x2CAC, 0x2CAD); (0x2CAE, 0x2CAF); (0x2CB0, 0x2CB1); (0x2CB2, 0x2CB3);
    (0x2CB4, 0x2CB5); (0x2CB6, 0x2CB7); (0x2CB8, 0x2CB9); (0x2CBA, 0x2CBB); (0x2CBC, 0x2CBD);
    (0x2CBE, 0x2CBF); (0x2CC0, 0x2CC1); (0x2CC2, 0x2CC3); (0x2CC4, 0x2CC5); (0x2CC6, 0x2CC7);
    (0x2CC8, 0x2CC9); (0x2CCA, 0x2CCB); (0x2CCC, 0x2CCD); (0x2CCE, 0x2CCF); (0x2CD0, 0x2CD1);
    (0x2CD2, 0x2CD3); (0x2CD4, 0x2CD5); (0x2CD6, 0x2CD7); (0x2CD8, 0x2CD9); (0x2CDA, 0x2CDB);
    (0x2CDC, 0x2CDD); (0x2CDE, 0x2CDF); (0x2CE0, 0x2CE1); (0x2CE2, 0x2CE3); (0x2CEB, 0x2CEC);
    (0x2CED, 0x2CEE); (0x2CF2, 0x2CF3); (0xA640, 0xA641); (0xA642, 0xA643); (0xA644, 0xA645);
    (0xA646, 0xA647); (0xA648, 0xA649); (0xA64A, 0xA64B); (0xA64C, 0xA64D); (0xA64E, 0xA64F);
    (0xA650, 0xA651); (0xA652, 0xA653); (0xA654, 0xA655); (0xA656, 0xA657); (0xA658, 0xA659);
    (0xA65A, 0xA65B); (0xA65C, 0xA65D); (0xA65E, 0xA65F); (0xA660, 0xA661); (0xA662, 0xA663);
    (0xA664, 0xA665); (0xA666, 0xA667); (0xA668, 0xA669); (0xA66A, 0xA66B); (0xA66C, 0xA66D);
    (0xA680, 0xA681); (0xA682, 0xA683); (0xA684, 0xA685); (0xA686, 0xA687); (0xA688, 0xA689);
    (0xA68A, 0xA68B); (0xA68C, 0xA68D); (0xA68E, 0xA68F); (0xA690, 0xA691); (0xA692, 0xA693);
    (0xA694, 0xA695); (0xA696, 0xA697); (0xA698, 0xA699); (0xA69A, 0xA69B); (0xA722, 0xA723);
    (0xA724, 0xA725); (0xA726, 0xA727); (0xA728, 0xA729); (0xA72A, 0xA72B); (0xA72C, 0xA72D);
    (0xA72E, 0xA72F); (0xA732, 0xA733); (0xA734, 0xA735); (0xA736, 0xA737); (0xA738, 0xA739);
    (0xA73A, 0xA73B); (0xA73C, 0xA73D); (0xA73E, 0xA73F); (0xA740, 0xA741); (0xA742, 0xA743);
    (0xA744, 0xA745); (0xA746, 0xA747); (0xA748, 0xA749); (0xA74A, 0xA74B); (0xA74C, 0xA74D);
    (0xA74E, 0xA74F); (0xA750, 0xA751); (0xA752, 0xA753); (0xA754, 0xA755); (0xA756, 0xA757);
    (0xA758, 0xA759); (0xA75A, 0xA75B); (0xA75C, 0xA75D); (0xA75E, 0xA75F); (0xA760, 0xA761);
    (0xA762, 0xA763); (0xA764, 0xA765); (0xA766, 0xA767); (0xA768, 0xA769); (0xA76A, 0xA76B);
    (0xA76C, 0xA76D); (0xA76E, 0xA76F); (0xA779, 0xA77A); (0xA77B, 0xA77C); (0xA77D, 0x1D79);
    (0xA77E, 0xA77F); (0xA780, 0xA781); (0xA782, 0xA783); (0xA784, 0xA785); (0xA786, 0xA787);
    (0xA78B, 0xA78C); (0xA78D, 0x0265); (0xA790, 0xA791); (0xA792, 0xA793); (0xA796, 0xA797);
    (0xA798, 0xA799); (0xA79A, 0xA79B); (0xA79C, 0xA79D); (0xA79E, 0xA79F); (0xA7A0, 0xA7A1);
    (0xA7A2, 0xA7A3); (0xA7A4, 0xA7A5); (0xA7A6, 0xA7A7); (0xA7A8, 0xA7A9); (0xA7AA, 0x0266);
    (0xA7AB, 0x025C); (0xA7AC, 0x0261); (0xA7AD, 0x026C); (0xA7AE, 0x026A); (0xA7B0, 0x029E);
    (0xA7B1, 0x0287); (0xA7B2, 0x029D); (0xA7B3, 0xAB53); (0xA7B4, 0xA7B5); (0xA7B6, 0xA7B7);
    (0xA7B8, 0xA7B9); (0xA7BA, 0xA7BB); (0xA7BC, 0xA7BD); (0xA7BE, 0xA7BF); (0xA7C0, 0xA7C1);
    (0xA7C2, 0xA7C3); (0xA7C4, 0xA794); (0xA7C5, 0x0282); (0xA7C6, 0x1D8E); (0xA7C7, 0xA7C8);
    (0xA7C9, 0xA7CA); (0xA7D0, 0xA7D1); (0xA7D6, 0xA7D7); (0xA7D8, 0xA7D9); (0xA7F5, 0xA7F6);
    (0xFF21, 0xFF41); (0xFF22, 0xFF42); (0xFF23, 0xFF43); (0xFF24, 0xFF44); (0xFF25, 0xFF45);
    (0xFF26, 0xFF46); (0xFF27, 0xFF47); (0xFF28, 0xFF48); (0xFF29, 0xFF49); (0xFF2A, 0xFF4A);
    (0xFF2B, 0xFF4B); (0xFF2C, 0xFF4C); (0xFF2D, 0xFF4D); (0xFF2E, 0xFF4E); (0xFF2F, 0xFF4F);
    (0xFF30, 0xFF50); (0xFF31, 0xFF51); (0xFF32, 0xFF52); (0xFF33, 0xFF53); (0xFF34, 0xFF54);
    (0xFF35, 0xFF55); (0xFF36, 0xFF56); (0xFF37, 0xFF57); (0xFF38, 0xFF58); (0xFF39, 0xFF59);
    (0xFF3A, 0xFF5A); (0x10400, 0x10428); (0x10401, 0x10429); (0x10402, 0x1042A); (0x10403, 0x1042B);
    (0x10404, 0x1042C); (0x10405, 0x1042D); (0x10406, 0x1042E); (0x10407, 0x1042F); (0x10408, 0x10430);
    (0x10409, 0x10431); (0x1040A, 0x10432); (0x1040B, 0x10433); (0x1040C, 0x10434); (0x1040D, 0x10435);
    (0x1040E, 0x10436); (0x1040F, 0x10437); (0x10410, 0x10438); (0x10411, 0x10439); (0x10412, 0x1043A);
    (0x10413, 0x1043B); (0x10414, 0x1043C); (0x10415, 0x1043D); (0x10416, 0x1043E); (0x10417, 0x1043F);
    (0x10418, 0x10440); (0x10419, 0x10441); (0x1041A, 0x10442); (0x1041B, 0x10443); (0x1041C, 0x10444);
    (0x1041D, 0x10445); (0x1041E, 0x10446); (0x1041F, 0x10447); (0x10420, 0x10448); (0x10421, 0x10449);
    (0x10422, 0x1044A); (0x10423, 0x1044B); (0x10424, 0x1044C); (0x10425, 0x1044D); (0x10426, 0x1044E);
    (0x10427, 0x1044F); (0x104B0, 0x104D8); (0x104B1, 0x104D9); (0x104B2, 0x104DA); (0x104B3, 0x104DB);
    (0x104B4, 0x104DC); (0x104B5, 0x104DD); (0x104B6, 0x104DE); (0x104B7, 0x104DF); (0x104B8, 0x104E0);
    (0x104B9, 0x104E1); (0x104BA, 0x104E2); (0x104BB, 0x104E3); (0x104BC, 0x104E4); (0x104BD, 0x104E5);
    (0x104BE, 0x104E6); (0x104BF, 0x104E7); (0x104C0, 0x104E8); (0x104C1, 0x104E9); (0x104C2, 0x104EA);
    (0x104C3, 0x104EB); (0x104C4, 0x104EC); (0x104C5, 0x104ED); (0x104C6, 0x104EE); (0x104C7, 0x104EF);
    (0x104C8, 0x104F0); (0x104C9, 0x104F1); (0x104CA, 0x104F2); (0x104CB, 0x104F3); (0x104CC, 0x104F4);
    (0x104CD, 0x104F5); (0x104CE, 0x104F6); (0x104CF, 0x104F7); (0x104D0, 0x104F8); (0x104D1, 0x104F9);
    (0x104D2, 0x104FA); (0x104D3, 0x104FB); (0x10570, 0x10597); (0x10571, 0x10598); (0x10572, 0x10599);
    (0x10573, 0x1059A); (0x10574, 0x1059B); (0x10575, 0x1059C); (0x10576, 0x1059D); (0x10577, 0x1059E);
    (0x10578, 0x1059F); (0x10579, 0x105A0); (0x1057A, 0x105A1); (0x1057C, 0x105A3); (0x1057D, 0x105A4);
    (0x1057E, 0x105A5); (0x1057F, 0x105A6); (0x10580, 0x105A7); (0x10581, 0x105A8); (0x10582, 0x105A9);
    (0x10583, 0x105AA); (0x10584, 0x105AB); (0x10585, 0x105AC); (0x10586, 0x105AD); (0x10587, 0x105AE);
    (0x10588, 0x105AF); (0x10589, 0x105B0); (0x1058A, 0x105B1); (0x1058C, 0x105B3); (0x1058D, 0x105B4);
    (0x1058E, 0x105B5); (0x1058F, 0x105B6); (0x10590, 0x105B7); (0x10591, 0x105B8); (0x10592, 0x105B9);
    (0x10594, 0x105BB); (0x10595, 0x105BC); (0x10C80, 0x10CC0); (0x10C81, 0x10CC1); (0x10C82, 0x10CC2);
    (0x10C83, 0x10CC3); (0x10C84, 0x10CC4); (0x10C85, 0x10CC5); (0x10C86, 0x10CC6); (0x10C87, 0x10CC7);
    (0x10C88, 0x10CC8); (0x10C89, 0x10CC9); (0x10C8A, 0x10CCA); (0x10C8B, 0x10CCB); (0x10C8C, 0x10CCC);
    (0x10C8D, 0x10CCD); (0x10C8E, 0x10CCE); (0x10C8F, 0x10CCF); (0x10C90, 0x10CD0); (0x10C91, 0x10CD1);
    (0x10C92, 0x10CD2); (0x10C93, 0x10CD3); (0x10C94, 0x10CD4); (0x10C95, 0x10CD5); (0x10C96, 0x10CD6);
    (0x10C97, 0x10CD7); (0x10C98, 0x10CD8); (0x10C99, 0x10CD9); (0x10C9A, 0x10CDA); (0x10C9B, 0x10CDB);
    (0x10C9C, 0x10CDC); (0x10C9D, 0x10CDD); (0x10C9E, 0x10CDE); (0x10C9F, 0x10CDF); (0x10CA0, 0x10CE0);
    (0x10CA1, 0x10CE1); (0x10CA2, 0x10CE2); (0x10CA3, 0x10CE3); (0x10CA4, 0x10CE4); (0x10CA5, 0x10CE5);
    (0x10CA6, 0x10CE6); (0x10CA7, 0x10CE7); (0x10CA8, 0x10CE8); (0x10CA9, 0x10CE9); (0x10CAA, 0x10CEA);
    (0x10CAB, 0x10CEB); (0x10CAC, 0x10CEC); (0x10CAD, 0x10CED); (0x10CAE, 0x10CEE); (0x10CAF, 0x10CEF);
    (0x10CB0, 0x10CF0); (0x10CB1, 0x10CF1); (0x10CB2, 0x10CF2); (0x118A0, 0x118C0); (0x118A1, 0x118C1);
    (0x118A2, 0x118C2); (0x118A3, 0x118C3); (0x118A4, 0x118C4); (0x118A5, 0x118C5); (0x118A6, 0x118C6);
    (0x118A7, 0x118C7); (0x118A8, 0x118C8); (0x118A9, 0x118C9); (0x118AA, 0x118CA); (0x118AB, 0x118CB);
    (0x118AC, 0x118CC); (0x118AD, 0x118CD); (0x118AE, 0x118CE); (0x118AF, 0x118CF); (0x118B0, 0x118D0);
    (0x118B1, 0x118D1); (0x118B2, 0x118D2); (0x118B3, 0x118D3); (0x118B4, 0x118D4); (0x118B5, 0x118D5);
    (0x118B6, 0x118D6); (0x118B7, 0x118D7); (0x118B8, 0x118D8); (0x118B9, 0x118D9); (0x118BA, 0x118DA);
    (0x118BB, 0x118DB); (0x118BC, 0x118DC); (0x118BD, 0x118DD); (0x118BE, 0x118DE); (0x118BF, 0x118DF);
    (0x16E40, 0x16E60); (0x16E41, 0x16E61); (0x16E42, 0x16E62); (0x16E43, 0x16E63); (0x16E44, 0x16E64);
    (0x16E45, 0x16E65); (0x16E46, 0x16E66); (0x16E47, 0x16E67); (0x16E48, 0x16E68); (0x16E49, 0x16E69);
    (0x16E4A, 0x16E6A); (0x16E4B, 0x16E6B); (0x16E4C, 0x16E6C); (0x16E4D, 0x16E6D); (0x16E4E, 0x16E6E);
    (0x16E4F, 0x16E6F); (0x16E50, 0x16E70); (0x16E51, 0x16E71); (0x16E52, 0x16E72); (0x16E53, 0x16E73);
    (0x16E54, 0x16E74); (0x16E55, 0x16E75); (0x16E56, 0x16E76); (0x16E57, 0x16E77); (0x16E58, 0x16E78);
    (0x16E59, 0x16E79); (0x16E5A, 0x16E7A); (0x16E5B, 0x16E7B); (0x16E5C, 0x16E7C); (0x16E5D, 0x16E7D);
    (0x16E5E, 0x16E7E); (0x16E5F, 0x16E7F); (0x1E900, 0x1E922); (0x1E901, 0x1E923); (0x1E902, 0x1E924);
    (0x1E903, 0x1E925); (0x1E904, 0x1E926); (0x1E905, 0x1E927); (0x1E906, 0x1E928); (0x1E907, 0x1E929);
    (0x1E908, 0x1E92A); (0x1E909, 0x1E92B); (0x1E90A, 0x1E92C); (0x1E90B, 0x1E92D); (0x1E90C, 0x1E92E);
    (0x1E90D, 0x1E92F); (0x1E90E, 0x1E930); (0x1E90F, 0x1E931); (0x1E910, 0x1E932); (0x1E911, 0x1E933);
    (0x1E912, 0x1E934); (0x1E913, 0x1E935); (0x1E914, 0x1E936); (0x1E915, 0x1E937); (0x1E916, 0x1E938);
    (0x1E917, 0x1E939); (0x1E918, 0x1E93A); (0x1E919, 0x1E93B); (0x1E91A, 0x1E93C); (0x1E91B, 0x1E93D);
    (0x1E91C, 0x1E93E); (0x1E91D, 0x1E93F); (0x1E91E, 0x1E940); (0x1E91F, 0x1E941); (0x1E920, 0x1E942);
    (0x1E921, 0x1E943) ].

Definition LOWER_SPECIAL : list (N * list N) :=
  [
    (0x0130, [0x0069; 0x0307]) ].

Definition CASED : list (N * N) :=
  [
    (0x0041, 0x005A); (0x0061, 0x007A); (0x00AA, 0x00AA); (0x00B5, 0x00B5); (0x00BA, 0x00BA);
    (0x00C0, 0x00D6); (0x00D8, 0x00F6); (0x00F8, 0x01BA); (0x01BC, 0x01BF); (0x01C4, 0x0293);
    (0x0295, 0x02B8); (0x02C0, 0x02C1); (0x02E0, 0x02E4); (0x0345, 0x0345); (0x0370, 0x0373);
    (0x0376, 0x0377); (0x037A, 0x037D); (0x037F, 0x037F); (0x0386, 0x0386); (0x0388, 0x038A);
    (0x038C, 0x038C); (0x038E, 0x03A1); (0x03A3, 0x03F5); (0x03F7, 0x0481); (0x048A, 0x052F);
    (0x0531, 0x0556); (0x0560, 0x0588); (0x10A0, 0x10C5); (0x10C7, 0x10C7); (0x10CD, 0x10CD);
    (0x10D0, 0x10FA); (0x10FD, 0x10FF); (0x13A0, 0x13F5); (0x13F8, 0x13FD); (0x1C80, 0x1C88);
    (0x1C90, 0x1CBA); (0x1CBD, 0x1CBF); (0x1D00, 0x1DBF); (0x1E00, 0x1F15); (0x1F18, 0x1F1D);
    (0x1F20, 0x1F45); (0x1F48, 0x1F4D); (0x1F50, 0x1F57); (0x1F59, 0x1F59); (0x1F5B, 0x1F5B);
    (0x1F5D, 0x1F5D); (0x1F5F, 0x1F7D); (0x1F80, 0x1FB4); (0x1FB6, 0x1FBC); (0x1FBE, 0x1FBE);
    (0x1FC2, 0x1FC4); (0x1FC6, 0x1FCC); (0x1FD0, 0x1FD3); (0x1FD6, 0x1FDB); (0x1FE0, 0x1FEC);
    (0x1FF2, 0x1FF4); (0x1FF6, 0x1FFC); (0x2071, 0x2071); (0x207F, 0x207F); (0x2090, 0x209C);
    (0x2102, 0x2102); (0x2107, 0x2107); (0x210A, 0x2113); (0x2115, 0x2115); (0x2119, 0x211D);
    (0x2124, 0x2124); (0x2126, 0x2126); (0x2128, 0x2128); (0x212A, 0x212D); (0x212F, 0x2134);
    (0x2139, 0x2139); (0x213C, 0x213F); (0x2145, 0x2149); (0x214E, 0x214E); (0x2160, 0x217F);
    (0x2183, 0x2184); (0x24B6, 0x24E9); (0x2C00, 0x2CE4); (0x2CEB, 0x2CEE); (0x2CF2, 0x2CF3);
    (0x2D00, 0x2D25); (0x2D27, 0x2D27); (0x2D2D, 0x2D2D); (0xA640, 0xA66D); (0xA680, 0xA69D);
    (0xA722, 0xA787); (0xA78B, 0xA78E); (0xA790, 0xA7CA); (0xA7D0, 0xA7D1); (0xA7D3, 0xA7D3);
    (0xA7D5, 0xA7D9); (0xA7F5, 0xA7F6); (0xA7F8, 0xA7FA); (0xAB30, 0xAB5A); (0xAB5C, 0xAB68);
    (0xAB70, 0xABBF); (0xFB00, 0xFB06); (0xFB13, 0xFB17); (0xFF21, 0xFF3A); (0xFF41, 0xFF5A);
    (0x10400, 0x1044F); (0x104B0, 0x104D3); (0x104D8, 0x104FB); (0x10570, 0x1057A); (0x1057C, 0x1058A);
    (0x1058C, 0x10592); (0x10594, 0x10595); (0x10597, 0x105A1); (0x105A3, 0x105B1); (0x105B3, 0x105B9);
    (0x105BB, 0x105BC); (0x10780, 0x10780); (0x10783, 0x10785); (0x10787, 0x107B0); (0x107B2, 0x107BA);
    (0x10C80, 0x10CB2); (0x10CC0, 0x10CF2); (0x118A0, 0x118DF); (0x16E40, 0x16E7F); (0x1D400, 0x1D454);
    (0x1D456, 0x1D49C); (0x1D49E, 0x1D49F); (0x1D4A2, 0x1D4A2); (0x1D4A5, 0x1D4A6); (0x1D4A9, 0x1D4AC);
    (0x1D4AE, 0x1D4B9); (0x1D4BB, 0x1D4BB); (0x1D4BD, 0x1D4C3); (0x1D4C5, 0x1D505); (0x1D507, 0x1D50A);
    (0x1D50D, 0x1D514); (0x1D516, 0x1D51C); (0x1D51E, 0x1D539); (0x1D53B, 0x1D53E); (0x1D540, 0x1D544);
    (0x1D546, 0x1D546); (0x1D54A, 0x1D550); (0x1D552, 0x1D6A5); (0x1D6A8, 0x1D6C0); (0x1D6C2, 0x1D6DA);
    (0x1D6DC, 0x1D6FA); (0x1D6FC, 0x1D714); (0x1D716, 0x1D734); (0x1D736, 0x1D74E); (0x1D750, 0x1D76E);
    (0x1D770, 0x1D788); (0x1D78A, 0x1D7A8); (0x1D7AA, 0x1D7C2); (0x1D7C4, 0x1D7CB); (0x1DF00, 0x1DF09);
    (0x1DF0B, 0x1DF1E); (0x1E900, 0x1E943); (0x1F130, 0x1F149); (0x1F150, 0x1F169); (0x1F170, 0x1F189) ].

Definition CASE_IGNORABLE : list (N * N) :=
  [
    (0x0027, 0x0027); (0x002E, 0x002E); (0x003A, 0x003A); (0x005E, 0x005E); (0x0060, 0x0060);
    (0x00A8, 0x00A8); (0x00AD, 0x00AD); (0x00AF, 0x00AF); (0x00B4, 0x00B4); (0x00B7, 0x00B8);
    (0x02B0, 0x036F); (0x0374, 0x0375); (0x037A, 0x037A); (0x0384, 0x0385); (0x0387, 0x0387);
    (0x0483, 0x0489); (0x0559, 0x0559); (0x055F, 0x055F); (0x0591, 0x05BD); (0x05BF, 0x05BF);
    (0x05C1, 0x05C2); (0x05C4, 0x05C5); (0x05C7, 0x05C7); (0x05F4, 0x05F4); (0x0600, 0x0605);
    (0x0610, 0x061A); (0x061C, 0x061C); (0x0640, 0x0640); (0x064B, 0x065F); (0x0670, 0x0670);
    (0x06D6, 0x06DD); (0x06DF, 0x06E8); (0x06EA, 0x06ED); (0x070F, 0x070F); (0x0711, 0x0711);
    (0x0730, 0x074A); (0x07A6, 0x07B0); (0x07EB, 0x07F5); (0x07FA, 0x07FA); (0x07FD, 0x07FD);
    (0x0816, 0x082D); (0x0859, 0x085B); (0x0888, 0x0888); (0x0890, 0x0891); (0x0898, 0x089F);
    (0x08C9, 0x0902); (0x093A, 0x093A); (0x093C, 0x093C); (0x0941, 0x0948); (0x094D, 0x094D);
    (0x0951, 0x0957); (0x0962, 0x0963); (0x0971, 0x0971); (0x0981, 0x0981); (0x09BC, 0x09BC);
    (0x09C1, 0x09C4); (0x09CD, 0x09CD); (0x09E2, 0x09E3); (0x09FE, 0x09FE); (0x0A01, 0x0A02);
    (0x0A3C, 0x0A3C); (0x0A41, 0x0A42); (0x0A47, 0x0A48); (0x0A4B, 0x0A4D); (0x0A51, 0x0A51);
    (0x0A70, 0x0A71); (0x0A75, 0x0A75); (0x0A81, 0x0A82); (0x0ABC, 0x0ABC); (0x0AC1, 0x0AC5);
    (0x0AC7, 0x0AC8); (0x0ACD, 0x0ACD); (0x0AE2, 0x0AE3); (0x0AFA, 0x0AFF); (0x0B01, 0x0B01);
    (0x0B3C, 0x0B3C); (0x0B3F, 0x0B3F); (0x0B41, 0x0B44); (0x0B4D, 0x0B4D); (0x0B55, 0x0B56);
    (0x0B62, 0x0B63); (0x0B82, 0x0B82); (0x0BC0, 0x0BC0); (0x0BCD, 0x0BCD); (0x0C00, 0x0C00);
    (0x0C04, 0x0C04); (0x0C3C, 0x0C3C); (0x0C3E, 0x0C40); (0x0C46, 0x0C48); (0x0C4A, 0x0C4D);
    (0x0C55, 0x0C56); (0x0C62, 0x0C63); (0x0C81, 0x0C81); (0x0CBC, 0x0CBC); (0x0CBF, 0x0CBF);
    (0x0CC6, 0x0CC6); (0x0CCC, 0x0CCD); (0x0CE2, 0x0CE3); (0x0D00, 0x0D01); (0x0D3B, 0x0D3C);
    (0x0D41, 0x0D44); (0x0D4D, 0x0D4D); (0x0D62, 0x0D63); (0x0D81, 0x0D81); (0x0DCA, 0x0DCA);
    (0x0DD2, 0x0DD4); (0x0DD6, 0x0DD6); (0x0E31, 0x0E31); (0x0E34, 0x0E3A); (0x0E46, 0x0E4E);
    (0x0EB1, 0x0EB1); (0x0EB4, 0x0EBC); (0x0EC6, 0x0EC6); (0x0EC8, 0x0ECD); (0x0F18, 0x0F19);
    (0x0F35, 0x0F35); (0x0F37, 0x0F37); (0x0F39, 0x0F39); (0x0F71, 0x0F7E); (0x0F80, 0x0F84);
    (0x0F86, 0x0F87); (0x0F8D, 0x0F97); (0x0F99, 0x0FBC); (0x0FC6, 0x0FC6); (0x102D, 0x1030);
    (0x1032, 0x1037); (0x1039, 0x103A); (0x103D, 0x103E); (0x1058, 0x1059); (0x105E, 0x1060);
    (0x1071, 0x1074); (0x1082, 0x1082); (0x1085, 0x1086); (0x108D, 0x108D); (0x109D, 0x109D);
    (0x10FC, 0x10FC); (0x135D, 0x135F); (0x1712, 0x1714); (0x1732, 0x1733); (0x1752, 0x1753);
    (0x1772, 0x1773); (0x17B4, 0x17B5); (0x17B7, 0x17BD); (0x17C6, 0x17C6); (0x17C9, 0x17D3);
    (0x17D7, 0x17D7); (0x17DD, 0x17DD); (0x180B, 0x180F); (0x1843, 0x1843); (0x1885, 0x1886);
    (0x18A9, 0x18A9); (0x1920, 0x1922); (0x1927, 0x1928); (0x1932, 0x1932); (0x1939, 0x193B);
    (0x1A17, 0x1A18); (0x1A1B, 0x1A1B); (0x1A56, 0x1A56); (0x1A58, 0x1A5E); (0x1A60, 0x1A60);
    (0x1A62, 0x1A62); (0x1A65, 0x1A6C); (0x1A73, 0x1A7C); (0x1A7F, 0x1A7F); (0x1AA7, 0x1AA7);
    (0x1AB0, 0x1ACE); (0x1B00, 0x1B03); (0x1B34, 0x1B34); (0x1B36, 0x1B3A); (0x1B3C, 0x1B3C);
    (0x1B42, 0x1B42); (0x1B6B, 0x1B73); (0x1B80, 0x1B81); (0x1BA2, 0x1BA5); (0x1BA8, 0x1BA9);
    (0x1BAB, 0x1BAD); (0x1BE6, 0x1BE6); (0x1BE8, 0x1BE9); (0x1BED, 0x1BED); (0x1BEF, 0x1BF1);
    (0x1C2C, 0x1C33); (0x1C36, 0x1C37); (0x1C78, 0x1C7D); (0x1CD0, 0x1CD2); (0x1CD4, 0x1CE0);
    (0x1CE2, 0x1CE8); (0x1CED, 0x1CED); (0x1CF4, 0x1CF4); (0x1CF8, 0x1CF9); (0x1D2C, 0x1D6A);
    (0x1D78, 0x1D78); (0x1D9B, 0x1DFF); (0x1FBD, 0x1FBD); (0x1FBF, 0x1FC1); (0x1FCD, 0x1FCF);
    (0x1FDD, 0x1FDF); (0x1FED, 0x1FEF); (0x1FFD, 0x1FFE); (0x200B, 0x200F); (0x2018, 0x2019);
    (0x2024, 0x2024); (0x2027, 0x2027); (0x202A, 0x202E); (0x2060, 0x2064); (0x2066, 0x206F);
    (0x2071, 0x2071); (0x207F, 0x207F); (0x2090, 0x209C); (0x20D0, 0x20F0); (0x2C7C, 0x2C7D);
    (0x2CEF, 0x2CF1); (0x2D6F, 0x2D6F); (0x2D7F, 0x2D7F); (0x2DE0, 0x2DFF); (0x2E2F, 0x2E2F);
    (0x3005, 0x3005); (0x302A, 0x302D); (0x3031, 0x3035); (0x303B, 0x303B); (0x3099, 0x309E);
    (0x30FC, 0x30FE); (0xA015, 0xA015); (0xA4F8, 0xA4FD); (0xA60C, 0xA60C); (0xA66F, 0xA672);
    (0xA674, 0xA67D); (0xA67F, 0xA67F); (0xA69C, 0xA69F); (0xA6F0, 0xA6F1); (0xA700, 0xA721);
    (0xA770, 0xA770); (0xA788, 0xA78A); (0xA7F2, 0xA7F4); (0xA7F8, 0xA7F9); (0xA802, 0xA802);
    (0xA806, 0xA806); (0xA80B, 0xA80B); (0xA825, 0xA826); (0xA82C, 0xA82C); (0xA8C4, 0xA8C5);
    (0xA8E0, 0xA8F1); (0xA8FF, 0xA8FF); (0xA926, 0xA92D); (0xA947, 0xA951); (0xA980, 0xA982);
    (0xA9B3, 0xA9B3); (0xA9B6, 0xA9B9); (0xA9BC, 0xA9BD); (0xA9CF, 0xA9CF); (0xA9E5, 0xA9E6);
    (0xAA29, 0xAA2E); (0xAA31, 0xAA32); (0xAA35, 0xAA36); (0xAA43, 0xAA43); (0xAA4C, 0xAA4C);
    (0xAA70, 0xAA70); (0xAA7C, 0xAA7C); (0xAAB0, 0xAAB0); (0xAAB2, 0xAAB4); (0xAAB7, 0xAAB8);
    (0xAABE, 0xAABF); (0xAAC1, 0xAAC1); (0xAADD, 0xAADD); (0xAAEC, 0xAAED); (0xAAF3, 0xAAF4);
    (0xAAF6, 0xAAF6); (0xAB5B, 0xAB5F); (0xAB69, 0xAB6B); (0xABE5, 0xABE5); (0xABE8, 0xABE8);
    (0xABED, 0xABED); (0xFB1E, 0xFB1E); (0xFBB2, 0xFBC2); (0xFE00, 0xFE0F); (0xFE13, 0xFE13);
    (0xFE20, 0xFE2F); (0xFE52, 0xFE52); (0xFE55, 0xFE55); (0xFEFF, 0xFEFF); (0xFF07, 0xFF07);
    (0xFF0E, 0xFF0E); (0xFF1A, 0xFF1A); (0xFF3E, 0xFF3E); (0xFF40, 0xFF40); (0xFF70, 0xFF70);
    (0xFF9E, 0xFF9F); (0xFFE3, 0xFFE3); (0xFFF9, 0xFFFB); (0x101FD, 0x101FD); (0x102E0, 0x102E0);
    (0x10376, 0x1037A); (0x10780, 0x10785); (0x10787, 0x107B0); (0x107B2, 0x107BA); (0x10A01, 0x10A03);
    (0x10A05, 0x10A06); (0x10A0C, 0x10A0F); (0x10A38, 0x10A3A); (0x10A3F, 0x10A3F); (0x10AE5, 0x10AE6);
    (0x10D24, 0x10D27); (0x10EAB, 0x10EAC); (0x10F46, 0x10F50); (0x10F82, 0x10F85); (0x11001, 0x11001);
    (0x11038, 0x11046); (0x11070, 0x11070); (0x11073, 0x11074); (0x1107F, 0x11081); (0x110B3, 0x110B6);
    (0x110B9, 0x110BA); (0x110BD, 0x110BD); (0x110C2, 0x110C2); (0x110CD, 0x110CD); (0x11100, 0x11102);
    (0x11127, 0x1112B); (0x1112D, 0x11134); (0x11173, 0x11173); (0x11180, 0x11181); (0x111B6, 0x111BE);
    (0x111C9, 0x111CC); (0x111CF, 0x111CF); (0x1122F, 0x11231); (0x11234, 0x11234); (0x11236, 0x11237);
    (0x1123E, 0x1123E); (0x112DF, 0x112DF); (0x112E3, 0x112EA); (0x11300, 0x11301); (0x1133B, 0x1133C);
    (0x11340, 0x11340); (0x11366, 0x1136C); (0x11370, 0x11374); (0x11438, 0x1143F); (0x11442, 0x11444);
    (0x11446, 0x11446); (0x1145E, 0x1145E); (0x114B3, 0x114B8); (0x114BA, 0x114BA); (0x114BF, 0x114C0);
    (0x114C2, 0x114C3); (0x115B2, 0x115B5); (0x115BC, 0x115BD); (0x115BF, 0x115C0); (0x115DC, 0x115DD);
    (0x11633, 0x1163A); (0x1163D, 0x1163D); (0x1163F, 0x11640); (0x116AB, 0x116AB); (0x116AD, 0x116AD);
    (0x116B0, 0x116B5); (0x116B7, 0x116B7); (0x1171D, 0x1171F); (0x11722, 0x11725); (0x11727, 0x1172B);
    (0x1182F, 0x11837); (0x11839, 0x1183A); (0x1193B, 0x1193C); (0x1193E, 0x1193E); (0x11943, 0x11943);
    (0x119D4, 0x119D7); (0x119DA, 0x119DB); (0x119E0, 0x119E0); (0x11A01, 0x11A0A); (0x11A33, 0x11A38);
    (0x11A3B, 0x11A3E); (0x11A47, 0x11A47); (0x11A51, 0x11A56); (0x11A59, 0x11A5B); (0x11A8A, 0x11A96);
    (0x11A98, 0x11A99); (0x11C30, 0x11C36); (0x11C38, 0x11C3D); (0x11C3F, 0x11C3F); (0x11C92, 0x11CA7);
    (0x11CAA, 0x11CB0); (0x11CB2, 0x11CB3); (0x11CB5, 0x11CB6); (0x11D31, 0x11D36); (0x11D3A, 0x11D3A);
    (0x11D3C, 0x11D3D); (0x11D3F, 0x11D45); (0x11D47, 0x11D47); (0x11D90, 0x11D91); (0x11D95, 0x11D95);
    (0x11D97, 0x11D97); (0x11EF3, 0x11EF4); (0x13430, 0x13438); (0x16AF0, 0x16AF4); (0x16B30, 0x16B36);
    (0x16B40, 0x16B43); (0x16F4F, 0x16F4F); (0x16F8F, 0x16F9F); (0x16FE0, 0x16FE1); (0x16FE3, 0x16FE4);
    (0x1AFF0, 0x1AFF3); (0x1AFF5, 0x1AFFB); (0x1AFFD, 0x1AFFE); (0x1BC9D, 0x1BC9E); (0x1BCA0, 0x1BCA3);
    (0x1CF00, 0x1CF2D); (0x1CF30, 0x1CF46); (0x1D167, 0x1D169); (0x1D173, 0x1D182); (0x1D185, 0x1D18B);
    (0x1D1AA, 0x1D1AD); (0x1D242, 0x1D244); (0x1DA00, 0x1DA36); (0x1DA3B, 0x1DA6C); (0x1DA75, 0x1DA75);
    (0x1DA84, 0x1DA84); (0x1DA9B, 0x1DA9F); (0x1DAA1, 0x1DAAF); (0x1E000, 0x1E006); (0x1E008, 0x1E018);
    (0x1E01B, 0x1E021); (0x1E023, 0x1E024); (0x1E026, 0x1E02A); (0x1E130, 0x1E13D); (0x1E2AE, 0x1E2AE);
    (0x1E2EC, 0x1E2EF); (0x1E8D0, 0x1E8D6); (0x1E944, 0x1E94B); (0x1F3FB, 0x1F3FF); (0xE0001, 0xE0001);
    (0xE0020, 0xE007F); (0xE0100, 0xE01EF) ].

Fixpoint lookup {A} (table : list (N * A)) (cp : N) : option A :=
  match table with
  | [] => None
  | (k, v) :: table' => if k =? cp then Some v else lookup table' cp
  end.

Definition within (ranges : list (N * N)) (cp : N) : bool :=
  existsb (fun r => (fst r <=? cp) && (cp <=? snd r)) ranges.

(** Full upper-case mapping of one code point. *)
Definition upperOf (cp : N) : list N :=
  if cp <? 0x80 then
    if (0x61 <=? cp) && (cp <=? 0x7A) then [cp - 0x20] else [cp]
  else
    match lookup UPPER_SPECIAL cp with
    | Some l => l
    | None =>
        match lookup UPPER_SIMPLE cp with
        | Some u => [u]
        | None => [cp]
        end
    end.

(** Full lower-case mapping of one code point, out of context. *)
Definition lowerOf (cp : N) : list N :=
  if cp <? 0x80 then
    if (0x41 <=? cp) && (cp <=? 0x5A) then [cp + 0x20] else [cp]
  else
    match lookup LOWER_SPECIAL cp with
    | Some l => l
    | None =>
        match lookup LOWER_SIMPLE cp with
        | Some u => [u]
        | None => [cp]
        end
    end.

(** Skipping case-ignorable code points, is the next one a cased
    letter? Used in both directions by the Final_Sigma condition. *)
Fixpoint reachesCased (l : list Point) : bool :=
  match l with
  | Code cp :: l' => if within CASE_IGNORABLE cp then reachesCased l' else within CASED cp
  | _ => false
  end.

Definition toUppercase (l : list Point) : list Point :=
  flat_map (fun p => match p with
                     | Code cp => map Code (upperOf cp)
                     | Stray b => [Stray b]
                     end) l.

(** [before] holds the points already passed, nearest first. A capital
    sigma becomes the final form when a cased letter precedes it and none
    follows. *)
Fixpoint toLowercaseFrom (before l : list Point) : list Point :=
  match l with
  | [] => []
  | p :: l' =>
      (match p with
       | Code cp =>
           if (cp =? 0x03A3) && reachesCased before && negb (reachesCased l')
           then [Code 0x03C2]
           else map Code (lowerOf cp)
       | Stray b => [Stray b]
       end ++ toLowercaseFrom (p :: before) l')%list
  end.

Definition toLowercase (l : list Point) : list Point := toLowercaseFrom [] l.

(** The UTF-16 code units of a text: a code point beyond U+FFFF is a
    surrogate pair. *)
Definition units (l : list Point) : list Point :=
  flat_map (fun p => match p with
                     | Code cp =>
                         if 0x10000 <=? cp
                         then [ Code (0xD800 + (cp - 0x10000) / 0x400);
                                Code (0xDC00 + (cp - 0x10000) mod 0x400) ]
                         else [p]
                     | Stray _ => [p]
                     end) l.

(** Code units back to code points: a high surrogate followed by a low
    one is one code point. *)
Fixpoint points (l : list Point) : list Point :=
  match l with
  | [] => []
  | Code hi :: l' =>
      match l' with
      | Code lo :: l'' =>
          if (0xD800 <=? hi) && (hi <=? 0xDBFF) && (0xDC00 <=? lo) && (lo <=? 0xDFFF)
          then Code (0x10000 + (hi - 0xD800) * 0x400 + (lo - 0xDC00)) :: points l''
          else Code hi :: points l'
      | _ => Code hi :: points l'
      end
  | Stray b :: l' => Stray b :: points l'
  end.

(** The UTF-8 forms of the white-space code points. *)
Definition whiteSpace : list (list ascii) :=
  Eval vm_compute in
    map (fun cp => list_ascii_of_string (utf8 cp)) WHITE_SPACE.

(** [s] less its prefix [w], when it starts with [w]. *)
Fixpoint after (w s : list ascii) : option (list ascii) :=
  match w, s with
  | [], _ => Some s
  | a :: w', b :: s' => if Ascii.eqb a b then after w' s' else None
  | _ :: _, [] => None
  end.

(** [s] less a leading occurrence of one of [spaces]. *)
Fixpoint behead (spaces : list (list ascii)) (s : list ascii)
    : option (list ascii) :=
  match spaces with
  | [] => None
  | w :: spaces' =>
      match after w s with
      | Some r => Some r
      | None => behead spaces' s
      end
  end.

(** Leading occurrences removed, at most [fuel] of them. *)
Fixpoint strip (fuel : nat) (spaces : list (list ascii)) (s : list ascii)
    : list ascii :=
  match fuel with
  | O => s
  | S fuel' =>
      match behead spaces s with
      | Some r => strip fuel' spaces r
      | None => s
      end
  end.

End Unicode.

(* ===================================================================== *)
(** * JavaScript values and built-ins used by the sources *)
(* ===================================================================== *)

Module JS.

(** [Number(z)] for a bigint or an array length: round to nearest binary64. *)
Definition Number_of_Z (z : Z) : float :=
  SF2Prim (binary_normalize prec emax z 0 false).

Definition lt (a b : float) : bool := PrimFloat.ltb a b.
Definition le (a b : float) : bool := PrimFloat.leb a b.
Definition gt (a b : float) : bool := PrimFloat.ltb b a.
Definition ge (a b : float) : bool := PrimFloat.leb b a.

(** Truthiness of an optional string: [undefined], [null] and the empty
    string are falsy. *)
Definition truthy (s : option string) : bool :=
  match s with
  | Some (String _ _) => true
  | _ => false
  end.

(** [a !== undefined]. *)
Definition defined {A} (a : option A) : bool :=
  match a with Some _ => true | None => false end.

(** [a ?? b]. *)
Definition nullish {A} (a : option A) (b : A) : A :=
  match a with Some x => x | None => b end.

(** [String.prototype.toUpperCase]: the full upper-case mapping of every
    code point. *)
Definition toUpperCase (s : string) : string :=
  Unicode.encode (Unicode.toUppercase (Unicode.decode s)).

(** [String.prototype.toLowerCase]: the full lower-case mapping of every
    code point, a capital sigma taking the final form where it ends a
    word. *)
Definition toLowerCase (s : string) : string :=
  Unicode.encode (Unicode.toLowercase (Unicode.decode s)).

(** [s.slice(from, to)] for [0 <= from <= to]: the code units from
    [from] up to [to]. *)
Definition slice (from to : nat) (s : string) : string :=
  Unicode.encode
    (Unicode.points
       (take (to - from) (drop from (Unicode.units (Unicode.decode s))))).

(** [s.length]: the number of UTF-16 code units. *)
Definition lengthOf (s : string) : nat :=
  List.length (Unicode.units (Unicode.decode s)).

(** [t.startsWith(p)]. *)
Fixpoint startsWith (t p : string) {struct p} : bool :=
  match p, t with
  | EmptyString, _ => true
  | String a p', String b t' => Ascii.eqb a b && startsWith t' p'
  | String _ _, EmptyString => false
  end.

(** [t.includes(p)]. *)
Fixpoint includes (t p : string) : bool :=
  startsWith t p ||
  match t with
  | EmptyString => false
  | String _ t' => includes t' p
  end.

(** [String.prototype.trimStart]: leading white space and line
    terminators removed. Each removal takes at least one byte, so the
    length of the text is fuel enough. *)
Definition trimStartBytes (l : list ascii) : list ascii :=
  Unicode.strip (List.length l) Unicode.whiteSpace l.

(** [String.prototype.trimEnd]: the same from the end, on the reversed
    text. *)
Definition trimEndBytes (l : list ascii) : list ascii :=
  rev (Unicode.strip (List.length l) (map (@rev ascii) Unicode.whiteSpace) (rev l)).

Definition trimStart (s : string) : string :=
  string_of_list_ascii (trimStartBytes (list_ascii_of_string s)).

Definition trimEnd (s : string) : string :=
  string_of_list_ascii (trimEndBytes (list_ascii_of_string s)).

(** [String.prototype.trim]. *)
Definition trim (s : string) : string :=
  string_of_list_ascii (trimEndBytes (trimStartBytes (list_ascii_of_string s))).

(** Value of a digit character in bases up to 16. *)
Definition digitOf (c : ascii) : option Z :=
  let n := Z.of_nat (nat_of_ascii c) in
  if (48 <=? n)%Z && (n <=? 57)%Z then Some (n - 48)
  else if (97 <=? n)%Z && (n <=? 102)%Z then Some (n - 87)
  else if (65 <=? n)%Z && (n <=? 70)%Z then Some (n - 55)
  else None.

Fixpoint digits (base acc : Z) (s : string) : option Z :=
  match s with
  | EmptyString => Some acc
  | String c s' =>
      match digitOf c with
      | Some d => if (d <? base)%Z then digits base (acc * base + d) s' else None
      | None => None
      end
  end.

(** One or more digits of the base. *)
Definition natural (base : Z) (s : string) : option Z :=
  match s with
  | EmptyString => None
  | _ => digits base 0 s
  end.

(** Outcome of a call that may throw. *)
Inductive result (A : Type) : Type :=
| Ok (a : A)
| Throw (message : string).
Arguments Ok {A} a.
Arguments Throw {A} message.

(** Sequencing: a throw skips the rest of the block. Together with
    stdpp's notation this reads [x ← call; rest]. *)
#[export] Instance result_bind : MBind result := fun A B k r =>
  match r with
  | Ok a => k a
  | Throw m => Throw m
  end.

(** [BigInt(s)] on a string (StringToBigInt): surrounding white space is
    dropped, the empty string is [0n], then either a decimal literal with
    an optional sign or an unsigned [0x], [0o] or [0b] literal; anything
    else throws a SyntaxError. *)
Definition BigInt (s : string) : result Z :=
  let parsed (o : option Z) :=
    match o with
    | Some z => Ok z
    | None => Throw ("Cannot convert " ++ s ++ " to a BigInt")
    end in
  match trim s with
  | EmptyString => Ok 0
  | String c0 (String c1 r) as t =>
      if Ascii.eqb c0 "0" && (Ascii.eqb c1 "x" || Ascii.eqb c1 "X") then parsed (natural 16 r)
      else if Ascii.eqb c0 "0" && (Ascii.eqb c1 "o" || Ascii.eqb c1 "O") then parsed (natural 8 r)
      else if Ascii.eqb c0 "0" && (Ascii.eqb c1 "b" || Ascii.eqb c1 "B") then parsed (natural 2 r)
      else if Ascii.eqb c0 "+" then parsed (natural 10 (String c1 r))
      else if Ascii.eqb c0 "-" then parsed (Z.opp <$> natural 10 (String c1 r))
      else parsed (natural 10 t)
  | t => parsed (natural 10 t)
  end.

(** [try { body } catch { handler }]. *)
Definition tryCatch {A} (body : result A) (handler : string -> A) : A :=
  match body with
  | Ok a => a
  | Throw m => handler m
  end.

End JS.

(* ===================================================================== *)
(** * lib/helius.ts *)
(* ===================================================================== *)

Module Helius.
Import JS.

Module NativeTransfer.
Record t := mk {
  fromUserAccount : option string;
  toUserAccount : option string;
  amount : option float }.
End NativeTransfer.

Module TokenTransfer.
Record t := mk {
  fromUserAccount : option string;
  toUserAccount : option string;
  mint : option string }.
End TokenTransfer.

Record HeliusTransaction := {
  signature : string;
  timestamp : option float;
  feePayer : option string;
  type : option string;
  source : option string;
  description : option string;
  nativeTransfers : option (list NativeTransfer.t);
  tokenTransfers : option (list TokenTransfer.t) }.

(** One step of either inner loop:
    [if (t.fromUserAccount === creator && t.toUserAccount)
       { if (!receivedBy.has(to)) receivedBy.set(to, ts) }]. *)
Definition record (creator : string) (ts : float)
    (from to : option string) (receivedBy : gmap string float)
    : gmap string float :=
  match from, to with
  | Some f, Some to' =>
      if String.eqb f creator && truthy to then
        match receivedBy !! to' with
        | Some _ => receivedBy
        | None => <[to' := ts]> receivedBy
        end
      else receivedBy
  | _, _ => receivedBy
  end.

(** Body of the outer loop for one transaction. *)
Definition visit (creator : string) (receivedBy : gmap string float)
    (tx : HeliusTransaction) : gmap string float :=
  let ts := nullish (timestamp tx) 0%float in
  let m1 :=
    match nativeTransfers tx with
    | Some l =>
        fold_left (fun m t =>
          record creator ts (NativeTransfer.fromUserAccount t)
                 (NativeTransfer.toUserAccount t) m) l receivedBy
    | None => receivedBy
    end in
  match tokenTransfers tx with
  | Some l =>
      fold_left (fun m t =>
        record creator ts (TokenTransfer.fromUserAccount t)
               (TokenTransfer.toUserAccount t) m) l m1
  | None => m1
  end.

Definition getWalletsReceivedFromCreator
    (creatorTxs : list HeliusTransaction) (creatorAddress : string)
    : gmap string float :=
  fold_left (visit creatorAddress) creatorTxs ∅.

(** What [getAsset] resolves to (the DAS record, or [null]). *)
Module Metadata.
Record t := mk { name : option string; symbol : option string }.
End Metadata.

Module Content.
Record t := mk { metadata : option Metadata.t }.
End Content.

Module TokenInfo.
Record t := mk {
  supply : option string;
  decimals : option float;
  mint_authority : option string }.
End TokenInfo.

Module Asset.
Record t := mk {
  id : string;
  creators : option (list string);
  content : option Content.t;
  token_info : option TokenInfo.t }.
End Asset.

(** SPL Token mint account: byte 10 = mint_authority option
    (0 = revoked, 1 = set). *)
Definition MINT_AUTHORITY_OPTION_OFFSET : nat := 10.

(** The parsed body of the [getAccountInfo] exchange: whether
    [json.error] is set, and [json.result?.value?.data] as the bytes
    [Buffer.from(data, "base64")] yields ([None] when the field is missing
    or is the empty string). *)
Record AccountInfoJson := {
  error : bool;
  data : option (list Z) }.

(** [getMintAuthoritySet]. The argument is the outcome of everything up
    to and including [await res.json()]: [getApiKey], [fetch] and the body
    parse can each throw, and nothing in the function catches that. *)
Definition getMintAuthoritySet (exchange : result AccountInfoJson)
    : result (option bool) :=
  json ← exchange;
  match error json, data json with
  | false, Some buf =>
      if (length buf <? MINT_AUTHORITY_OPTION_OFFSET + 1)%nat then Ok None
      else Ok (Some (Z.eqb (nth MINT_AUTHORITY_OPTION_OFFSET buf 0) 1))
  | _, _ => Ok None
  end.

Record TokenAccountHolder := {
  owner : string;
  amount : string }.

End Helius.

(* ===================================================================== *)
(** * lib/utils.ts *)
(* ===================================================================== *)

Module Utils.
Import JS.

(** Base58 alphabet for Solana address validation:
    [[1-9A-HJ-NP-Za-km-z]]. *)
Definition isBase58 (c : ascii) : bool :=
  let n := nat_of_ascii c in
  ((49 <=? n) && (n <=? 57)        (* 1-9 *)
   || (65 <=? n) && (n <=? 72)     (* A-H *)
   || (74 <=? n) && (n <=? 78)     (* J-N *)
   || (80 <=? n) && (n <=? 90)     (* P-Z *)
   || (97 <=? n) && (n <=? 107)    (* a-k *)
   || (109 <=? n) && (n <=? 122))%nat.  (* m-z *)

Fixpoint allBase58 (s : string) : bool :=
  match s with
  | EmptyString => true
  | String c s' => isBase58 c && allBase58 s'
  end.

Definition isValidSolanaAddress (value : string) : bool :=
  match value with
  | EmptyString => false
  | _ =>
      let trimmed := trim value in
      (32 <=? lengthOf trimmed)%nat && (lengthOf trimmed <=? 44)%nat
      && allBase58 trimmed
  end.

End Utils.

(* ===================================================================== *)
(** * lib/risk-score.ts *)
(* ===================================================================== *)

Module RiskScore.
Import JS.

Record CreatorAnalysis := {
  creatorAddress : string;
  creatorFirstTxTimestamp : option float;
  accountAgeDays : option float;
  totalTxCount : float;
  estimatedTokensCreated : float;
  tokenName : option string;
  tokenSymbol : option string;
  (** True if mint authority is still set. *)
  canMintUnlimited : option bool }.

Inductive FactorSeverity := Critical | Warning | Positive | Neutral.

(** A template literal, kept as its pieces: the fixed text and the
    interpolated numbers with the formatting call applied to each. *)
Inductive Piece :=
| Text (s : string)
| Num (x : float)                     (* ${x} *)
| Count (n : Z)                       (* ${n} for a length or a counter *)
| ToFixed (x : float) (digits : nat)  (* ${x.toFixed(digits)} *)
| Round (x : float)                   (* ${Math.round(x)} *)
| LocaleString (x : float).           (* ${x.toLocaleString()} *)

Module RiskFactor.
Record t := mk {
  id : string;
  label : string;
  severity : FactorSeverity;
  description : list Piece;
  impact : Z }.
End RiskFactor.

Module CreatorConnectedHolder.
Record t := mk {
  owner : string;
  percent : float;
  firstReceivedAt : option float }.
End CreatorConnectedHolder.

(** [amountRaw] and [totalSupplyRaw] are the decimal strings of bigints
    ([toString()]); they are kept as the integers they print. *)
Module TopHolder.
Record t := mk {
  owner : string;
  amountRaw : Z;
  percent : float }.
End TopHolder.

Record HolderStats := {
  totalSupplyRaw : Z;
  totalHolders : float;
  top10Percent : float;
  topHolders : list TopHolder.t;
  creatorHoldPercent : option float;
  creatorConnectedHolders : option (list CreatorConnectedHolder.t) }.

Inductive EmissionStatus := Fixed | Unlimited.

Module TokenPairInfo.
Record t := mk {
  quoteSymbol : string;
  liquidityUsd : float;
  dexId : option string;
  pairAddress : option string }.
End TokenPairInfo.

Inductive MigrationStatus := BondingCurve | Migrated | AmmOnly | UnknownStatus.

Record TokenMarketStats := {
  liquidityUsd : option float;
  pairs : option (list TokenPairInfo.t);
  txCount24h : option float;
  buys24h : option float;
  sells24h : option float;
  uniqueTraders24h : option float;
  freshHolders1dPercent : option float;
  freshHolders7dPercent : option float;
  migrationStatus : option MigrationStatus;
  migrationLabel : option string }.

Module CreatorPreviousToken.
Record t := mk {
  mint : string;
  symbol : option string;
  name : option string;
  liquidityUsd : float;
  pairs : list TokenPairInfo.t }.
End CreatorPreviousToken.

Inductive Severity := High | Medium | Low.

Record RiskResult := {
  score : Z;
  severity : Severity;
  factors : list RiskFactor.t;
  creator : CreatorAnalysis;
  mint : string;
  holderStats : option HolderStats;
  emissionStatus : option EmissionStatus;
  creatorSold : option bool;
  tokenMarket : option TokenMarketStats;
  creatorPreviousTokens : option (list CreatorPreviousToken.t) }.

Definition TOKEN_CREATION_TYPES : list string :=
  [ "CREATE";
    "CREATE_MINT_METADATA";
    "CREATE_MASTER_EDITION";
    "TOKEN_MINT";
    "MINT_TO";
    "INITIALIZE";
    "INITIALIZE_MINT";
    "NFT_MINT";
    "COMPRESSED_NFT_MINT" ].

Definition txLooksLikeTokenCreation (tx : Helius.HeliusTransaction) : bool :=
  let t := toUpperCase (nullish (Helius.type tx) "") in
  if existsb (fun prefix => String.eqb t prefix || startsWith t (prefix ++ "_"))
             TOKEN_CREATION_TYPES
  then true
  else if includes t "MINT" || includes t "CREATE" || includes t "INITIALIZE"
  then true
  else false.

(** The two locals every rule updates: [score] and [factors]. *)
Record Tally := {
  t_score : Z;
  t_factors : list RiskFactor.t }.

(** [score += delta; factors.push(f)]. The delta and the factor's
    [impact] are two literals in the source and stay two arguments. *)
Definition apply (delta : Z) (f : RiskFactor.t) (a : Tally) : Tally :=
  {| t_score := t_score a + delta; t_factors := t_factors a ++ [f] |}.

(** 1. Emission: unlimited vs fixed supply (explicit factor). *)
Definition rule_emission (creatorAnalysis : CreatorAnalysis) (a : Tally) : Tally :=
  match canMintUnlimited creatorAnalysis with
  | Some true =>
      apply (-20)
        (RiskFactor.mk "unlimited_mint"
           "Unlimited supply (creator can mint more)"
           Critical
           [Text "Mint authority is not revoked. The deployer can mint more tokens at any time and crash the price — typical scam or high-risk sign."]
           (-20)) a
  | Some false =>
      apply 10
        (RiskFactor.mk "fixed_supply"
           "Fixed supply (mint authority revoked)"
           Positive
           [Text "Creator revoked mint authority. No new tokens can be minted — supply is fixed."]
           10) a
  | None => a
  end.

(** 2. Creator sold? (creator's current share of supply). *)
Definition rule_creator_hold (holderStats : option HolderStats) (a : Tally) : Tally :=
  match holderStats with
  | Some hs =>
      match creatorHoldPercent hs with
      | Some p =>
          if lt p 1 then
            apply (-18)
              (RiskFactor.mk "creator_sold"
                 "Creator sold (or dumped) tokens"
                 Critical
                 [Text "Creator's share of supply is now "; ToFixed p 2;
                  Text "%. Creator selling is a strong red flag (dump)."]
                 (-18)) a
          else if ge p 10 then
            apply 8
              (RiskFactor.mk "creator_holds"
                 "Creator still holds a share"
                 Positive
                 [Text "Creator holds "; ToFixed p 1;
                  Text "% of supply — did not dump after launch."]
                 8) a
          else a
      | None => a
      end
  | None => a
  end.

(** Serial creator: many tokens created. *)
Definition rule_created (createdCount : Z) (a : Tally) : Tally :=
  if (createdCount >=? 10)%Z then
    apply (-25)
      (RiskFactor.mk "serial_creator"
         "Many tokens from same creator"
         Critical
         [Text "Creator has launched many tokens (est. "; Count createdCount;
          Text "+). Often a sign of serial scam."]
         (-25)) a
  else if (createdCount >=? 5)%Z then
    apply (-15)
      (RiskFactor.mk "multiple_tokens"
         "Multiple tokens from creator"
         Warning
         [Text "Creator has launched several tokens (est. "; Count createdCount;
          Text "). Check history."]
         (-15)) a
  else if (createdCount <=? 1)%Z then
    apply 10
      (RiskFactor.mk "first_or_few"
         "First or one of few tokens"
         Positive
         [Text "Creator has few token launches — fewer signs of serial scam."]
         10) a
  else a.

(** Account age. *)
Definition rule_age (creatorAnalysis : CreatorAnalysis) (a : Tally) : Tally :=
  match accountAgeDays creatorAnalysis with
  | Some ageDays =>
      if lt ageDays 1 then
        apply (-20)
          (RiskFactor.mk "brand_new_account"
             "Brand new wallet"
             Critical
             [Text "Creator wallet is less than 1 day old. Typical for scams."]
             (-20)) a
      else if lt ageDays 7 then
        apply (-10)
          (RiskFactor.mk "new_account"
             "New wallet"
             Warning
             [Text "Creator wallet age: ~"; Round ageDays;
              Text " days. Proceed with caution."]
             (-10)) a
      else if ge ageDays 90 then
        apply 10
          (RiskFactor.mk "established_account"
             "Established wallet"
             Positive
             [Text "Creator wallet has been active for "; Round ageDays;
              Text "+ days. Often a sign of legitimacy."]
             10) a
      else a
  | None => a
  end.

(** Very high activity (possible bot). *)
Definition rule_activity (creatorAnalysis : CreatorAnalysis) (a : Tally) : Tally :=
  let totalTx := totalTxCount creatorAnalysis in
  if gt totalTx 500 then
    apply (-5)
      (RiskFactor.mk "very_high_activity"
         "Very high activity"
         Warning
         [Text "Very high tx count ("; Num totalTx;
          Text "+). May indicate automated activity."]
         (-5)) a
  else a.

(** Very few holders (strong red flag — scam or illiquid). *)
Definition rule_holder_count (holderStats : option HolderStats) (a : Tally) : Tally :=
  match holderStats with
  | Some hs =>
      if gt (totalHolders hs) 0 then
        let n := totalHolders hs in
        if le n 2 then
          apply (-18)
            (RiskFactor.mk "very_few_holders"
               "Very few holders"
               Critical
               [Text "Only "; Num n;
                Text " holder(s). Typical sign of scam, illiquid token or coordinated wallets."]
               (-18)) a
        else if le n 5 then
          apply (-10)
            (RiskFactor.mk "few_holders"
               "Few holders"
               Warning
               [Text "Only "; Num n;
                Text " holders. High concentration and manipulation risk."]
               (-10)) a
        else if le n 15 then
          apply (-4)
            (RiskFactor.mk "low_holder_count"
               "Low holder count"
               Warning
               [Text "Only "; Num n; Text " holders. Moderate risk."]
               (-4)) a
        else a
      else a
  | None => a
  end.

(** Holder concentration: top 10 hold too much. *)
Definition rule_concentration (holderStats : option HolderStats) (a : Tally) : Tally :=
  match holderStats with
  | Some hs =>
      if ge (top10Percent hs) 0 then
        if ge (top10Percent hs) 80 then
          apply (-15)
            (RiskFactor.mk "extreme_concentration"
               "Extreme top-holder concentration"
               Critical
               [Text "Top 10 wallets hold "; ToFixed (top10Percent hs) 1;
                Text "% of supply. High dump and manipulation risk."]
               (-15)) a
        else if ge (top10Percent hs) 50 then
          apply (-8)
            (RiskFactor.mk "high_concentration"
               "High top-holder concentration"
               Warning
               [Text "Top 10 wallets hold "; ToFixed (top10Percent hs) 1;
                Text "% of supply. Dump risk if whales sell."]
               (-8)) a
        else if le (top10Percent hs) 30 && ge (totalHolders hs) 100 then
          apply 5
            (RiskFactor.mk "distributed_holders"
               "Distributed ownership"
               Positive
               [Text "Top 10 hold "; ToFixed (top10Percent hs) 1;
                Text "% — moderate concentration, many holders (";
                Num (totalHolders hs); Text "+)."]
               5) a
        else a
      else a
  | None => a
  end.

(** Connection: top holders that received from creator
    (sybil / coordinated distribution). *)
Definition rule_connected (holderStats : option HolderStats) (a : Tally) : Tally :=
  let connected :=
    nullish (hs ← holderStats; creatorConnectedHolders hs) [] in
  let len := Z.of_nat (length connected) in
  if (len >? 0)%Z then
    let totalTop10ConnectedPercent :=
      fold_left (fun s h => PrimFloat.add s (CreatorConnectedHolder.percent h))
                connected 0%float in
    if (len >=? 3)%Z || ge totalTop10ConnectedPercent 20 then
      apply (-14)
        (RiskFactor.mk "creator_connected_holders"
           "Top holders linked to creator"
           Critical
           [Count len;
            Text " of top 10 received SOL or tokens from the creator. Possible sybil or coordination: creator distributed to own wallets."]
           (-14)) a
    else
      apply (-6)
        (RiskFactor.mk "creator_connected_holders"
           "Some top holders linked to creator"
           Warning
           [Count len;
            Text " of top 10 received transfers from the creator. Check for coordination."]
           (-6)) a
  else a.

(** 3. Liquidity (LP volume in USD). *)
Definition rule_liquidity (tokenMarket : option TokenMarketStats) (a : Tally) : Tally :=
  match tm ← tokenMarket; liquidityUsd tm with
  | Some liq =>
      if ge liq 0 then
        if lt liq 2000 then
          apply (-12)
            (RiskFactor.mk "low_liquidity"
               "Very low liquidity"
               Critical
               [Text "Pool liquidity: $"; LocaleString liq;
                Text " — high rug / liquidity pull risk."]
               (-12)) a
        else if lt liq 10000 then
          apply (-5)
            (RiskFactor.mk "moderate_liquidity"
               "Low liquidity"
               Warning
               [Text "Pool liquidity: $"; LocaleString liq;
                Text " — caution on large trades."]
               (-5)) a
        else if ge liq 50000 then
          apply 5
            (RiskFactor.mk "good_liquidity"
               "Decent liquidity"
               Positive
               [Text "Pool liquidity: $"; LocaleString liq;
                Text " — reasonable for trading."]
               5) a
        else a
      else a
  | None => a
  end.

(** 4. Fresh holders (% new in 1D / 7D) — when data available. *)
Definition rule_fresh (tokenMarket : option TokenMarketStats) (a : Tally) : Tally :=
  let f1 := tm ← tokenMarket; freshHolders1dPercent tm in
  let f7 := tm ← tokenMarket; freshHolders7dPercent tm in
  if defined f1 || defined f7 then
    let fresh1d := nullish f1 0%float in
    let fresh7d := nullish f7 0%float in
    if gt fresh1d 50 || gt fresh7d 70 then
      apply (-5)
        (RiskFactor.mk "very_fresh_holders"
           "Very high share of new holders"
           Warning
           [Text "1D: "; ToFixed fresh1d 0; Text "% new, 7D: ";
            ToFixed fresh7d 0; Text "%. Possible wash trading or pump."]
           (-5)) a
    else a
  else a.

(** [Math.max(0, Math.min(100, score))]. *)
Definition clamp (score : Z) : Z := Z.max 0 (Z.min 100 score).

Definition tier (score : Z) : Severity :=
  if (score <=? 30)%Z then High
  else if (score <=? 60)%Z then Medium
  else Low.

(** [creatorTxs.filter(txLooksLikeTokenCreation).length]. *)
Definition createdCountOf (creatorTxs : list Helius.HeliusTransaction) : Z :=
  Z.of_nat (length (List.filter txLooksLikeTokenCreation creatorTxs)).

(** The rules in evaluation order, from the base score 50. *)
Definition tally (creatorAnalysis : CreatorAnalysis) (createdCount : Z)
    (holderStats : option HolderStats) (tokenMarket : option TokenMarketStats)
    : Tally :=
  let a := {| t_score := 50; t_factors := [] |} in
  let a := rule_emission creatorAnalysis a in
  let a := rule_creator_hold holderStats a in
  let a := rule_created createdCount a in
  let a := rule_age creatorAnalysis a in
  let a := rule_activity creatorAnalysis a in
  let a := rule_holder_count holderStats a in
  let a := rule_concentration holderStats a in
  let a := rule_connected holderStats a in
  let a := rule_liquidity tokenMarket a in
  rule_fresh tokenMarket a.

(** [computeRiskScore]. The assignment
    [creatorAnalysis.estimatedTokensCreated = Math.max(createdCount, 1)]
    mutates the caller's object, which is also the one returned in
    [creator]. *)
Definition computeRiskScore
    (mint : string)
    (creatorAnalysis : CreatorAnalysis)
    (creatorTxs : list Helius.HeliusTransaction)
    (holderStats : option HolderStats)
    (tokenMarket : option TokenMarketStats) : RiskResult :=
  let resultHolderStats := holderStats in
  let emissionStatus :=
    match canMintUnlimited creatorAnalysis with
    | Some true => Unlimited
    | _ => Fixed
    end in
  let creatorSold :=
    match hs ← holderStats; creatorHoldPercent hs with
    | Some p => lt p 1
    | None => false
    end in
  let createdCount := createdCountOf creatorTxs in
  let creatorAnalysis :=
    {| creatorAddress := creatorAddress creatorAnalysis;
       creatorFirstTxTimestamp := creatorFirstTxTimestamp creatorAnalysis;
       accountAgeDays := accountAgeDays creatorAnalysis;
       totalTxCount := totalTxCount creatorAnalysis;
       estimatedTokensCreated := Number_of_Z (Z.max createdCount 1);
       tokenName := tokenName creatorAnalysis;
       tokenSymbol := tokenSymbol creatorAnalysis;
       canMintUnlimited := canMintUnlimited creatorAnalysis |} in
  let a := tally creatorAnalysis createdCount holderStats tokenMarket in
  let score := clamp (t_score a) in
  {| score := score;
     severity := tier score;
     factors := t_factors a;
     creator := creatorAnalysis;
     mint := mint;
     holderStats := resultHolderStats;
     emissionStatus := Some emissionStatus;
     creatorSold := Some creatorSold;
     tokenMarket := tokenMarket;
     creatorPreviousTokens := None |}.

End RiskScore.

(* ===================================================================== *)
(** * app/api/analyze/route.ts *)
(* ===================================================================== *)

Module Analyze.
Import JS Helius RiskScore.

Definition CREATION_TYPES : list string :=
  [ "CREATE"; "CREATE_MINT_METADATA"; "TOKEN_MINT"; "MINT_TO"; "INITIALIZE";
    "INITIALIZE_MINT"; "NFT_MINT"; "COMPRESSED_NFT_MINT" ].

Definition isCreationTx (tx : HeliusTransaction) : bool :=
  let t := toUpperCase (nullish (type tx) "") in
  if existsb (fun prefix => String.eqb t prefix || startsWith t (prefix ++ "_"))
             CREATION_TYPES
  then true
  else includes t "MINT" || includes t "CREATE" || includes t "INITIALIZE".

(** [mints.add(m)] on an insertion-ordered [Set<string>]. *)
Definition setAdd (mints : list string) (m : string) : list string :=
  if existsb (String.eqb m) mints then mints else (mints ++ [m])%list.

(** Collect other mint addresses from creator txs that look like token
    creation. *)
Definition getOtherMintsFromCreatorTxs (txs : list HeliusTransaction)
    (currentMint : string) (limit : nat) : list string :=
  let mints :=
    fold_left (fun mints tx =>
      if negb (isCreationTx tx) then mints
      else
        fold_left (fun mints t =>
          match TokenTransfer.mint t with
          | Some raw =>
              let m := trim raw in
              if truthy (Some m) && negb (String.eqb m currentMint)
                 && Utils.isValidSolanaAddress m
              then setAdd mints m else mints
          | None => mints
          end) (nullish (tokenTransfers tx) []) mints) txs [] in
  take limit mints.

(** What [fetchDexScreenerData] resolves to. The function wraps its whole
    body in [try/catch] and resolves to [{}] on any failure, so it never
    throws; its pair aggregation is outside the properties below and its
    outcome is taken from the provider. *)
Module DexData.
Record t := mk {
  liquidityUsd : option float;
  txCount24h : option float;
  buys24h : option float;
  sells24h : option float;
  pairs : option (list TokenPairInfo.t);
  migrationStatus : option MigrationStatus;
  migrationLabel : option string }.
End DexData.

Inductive SortOrder := Asc | Desc.

Record TokenAccounts := {
  token_accounts : list TokenAccountHolder;
  total : float }.

(** Everything one request reads from outside: the environment, the
    clock, and the outcome of each provider call for its arguments. *)
Record Upstream := {
  HELIUS_API_KEY : option string;
  Date_now : float;
  getAsset : string -> result (option Asset.t);
  getAccountInfo : string -> result AccountInfoJson;
  getTransactionsByAddress :
    string -> SortOrder -> Z -> result (list HeliusTransaction);
  (** Of the two concurrent creator-history requests, whether the
      oldest-first one settles before the newest-first one. *)
  ascSettlesFirst : bool;
  getTokenAccountsByMint : string -> Z -> result TokenAccounts;
  fetchDexScreenerData : string -> DexData.t;
  (** [uniqueWallet24h] as the guarded Birdeye block leaves it
      ([undefined] without a key, on any failure or on a non-number). *)
  birdeyeUniqueWallet24h : option float }.

Record Request := { mintParam : option string }.

(** [NextResponse.json({ error }, { status })] and
    [NextResponse.json(result)]. *)
Inductive Response :=
| Json (status : Z) (error : string)
| JsonResult (result : RiskResult).

(** Insertion-ordered [Map<string, bigint>]. *)
Fixpoint mapGet (m : list (string * Z)) (k : string) : option Z :=
  match m with
  | [] => None
  | (k', v) :: m' => if String.eqb k' k then Some v else mapGet m' k
  end.

Fixpoint mapSet (m : list (string * Z)) (k : string) (v : Z) : list (string * Z) :=
  match m with
  | [] => [(k, v)]
  | (k', v') :: m' =>
      if String.eqb k' k then (k, v) :: m' else (k', v') :: mapSet m' k v
  end.

(** Body of the aggregation loop:
    [if (!a.owner) continue;
     byOwner.set(a.owner, (byOwner.get(a.owner) ?? 0n) + BigInt(a.amount))]. *)
Definition addAccount (byOwner : list (string * Z)) (a : TokenAccountHolder)
    : result (list (string * Z)) :=
  match owner a with
  | EmptyString => Ok byOwner
  | o =>
      amt ← BigInt (amount a);
      Ok (mapSet byOwner o (nullish (mapGet byOwner o) 0 + amt))
  end.

Fixpoint mergeByOwner (token_accounts : list TokenAccountHolder)
    (byOwner : list (string * Z)) : result (list (string * Z)) :=
  match token_accounts with
  | [] => Ok byOwner
  | a :: rest => m ← addAccount byOwner a; mergeByOwner rest m
  end.

(** [Array.prototype.sort] with the comparator
    [(a, b) => (b[1] > a[1] ? 1 : b[1] < a[1] ? -1 : 0)]: descending by
    balance and stable. *)
Fixpoint insertDesc (x : string * Z) (l : list (string * Z)) : list (string * Z) :=
  match l with
  | [] => [x]
  | y :: l' => if (snd x <? snd y)%Z then y :: insertDesc x l' else x :: y :: l'
  end.

Definition sortDesc (l : list (string * Z)) : list (string * Z) :=
  fold_right insertDesc [] l.

(** [[...byOwner.entries()].filter(([, v]) => v > 0n).sort(...)]. *)
Definition rankHolders (byOwner : list (string * Z)) : list (string * Z) :=
  sortDesc (List.filter (fun e => (0 <? snd e)%Z) byOwner).

(** [l.reduce((s, [, v]) => s + v, 0n)]. *)
Definition sumAmounts (l : list (string * Z)) : Z :=
  fold_left (fun s e => s + snd e) l 0.

(** [(amount * 10000n) / totalSupplyRaw]: hundredths of a percent,
    truncated (bigint division rounds toward zero). *)
Definition basisPoints (amount totalSupplyRaw : Z) : Z :=
  Z.quot (amount * 10000) totalSupplyRaw.

(** [Number((amount * 10000n) / totalSupplyRaw) / 100]. *)
Definition percentOf (amount totalSupplyRaw : Z) : float :=
  PrimFloat.div (Number_of_Z (basisPoints amount totalSupplyRaw)) 100.

(** Holder distribution: aggregate by owner, compute top 10 share. Any
    throw inside (the provider call, [BigInt]) leaves [holderStats]
    undefined. *)
Definition holderDistribution (accounts : result TokenAccounts)
    (creatorAddress : string) (creatorTxsDesc : list HeliusTransaction)
    : option HolderStats :=
  tryCatch
    (fetched ← accounts;
     byOwner ← mergeByOwner (token_accounts fetched) [];
     let sorted := rankHolders byOwner in
     let totalSupplyRaw := sumAmounts sorted in
     if (0 <? totalSupplyRaw)%Z && (0 <? length sorted)%nat then
       let top10 := take 10 sorted in
       let top10Sum := sumAmounts top10 in
       let top10Percent := percentOf top10Sum totalSupplyRaw in
       let creatorBalance := nullish (mapGet byOwner creatorAddress) 0 in
       let creatorHoldPercent := percentOf creatorBalance totalSupplyRaw in
       let topHoldersList :=
         map (fun e => TopHolder.mk (fst e) (snd e)
                         (percentOf (snd e) totalSupplyRaw)) top10 in
       let receivedFromCreator :=
         getWalletsReceivedFromCreator creatorTxsDesc creatorAddress in
       let creatorConnectedHolders :=
         map (fun h => CreatorConnectedHolder.mk (TopHolder.owner h)
                         (TopHolder.percent h)
                         (receivedFromCreator !! TopHolder.owner h))
             (List.filter
                (fun h => defined (receivedFromCreator !! TopHolder.owner h))
                topHoldersList) in
       Ok (Some
         {| totalSupplyRaw := totalSupplyRaw;
            totalHolders := Number_of_Z (Z.of_nat (length sorted));
            top10Percent := top10Percent;
            topHolders := topHoldersList;
            creatorHoldPercent := Some creatorHoldPercent;
            creatorConnectedHolders :=
              match creatorConnectedHolders with
              | [] => None
              | _ => Some creatorConnectedHolders
              end |})
     else Ok None)
    (fun _ => None).

(** Token metadata and mint authority from the asset record (optional):
    the first [try] block of the handler. A throw of [getAsset] leaves
    the three locals undefined. *)
Definition assetMetadata (up : Upstream) (mint : string)
    : option string * option string * option bool :=
  tryCatch
    (asset ← getAsset up mint;
     let names :=
       match a ← asset; c ← Asset.content a; Content.metadata c with
       | Some md => (Metadata.name md, Metadata.symbol md)
       | None => (None, None)
       end in
     let canMintUnlimited :=
       match a ← asset; Asset.token_info a with
       | Some info =>
           Some match TokenInfo.mint_authority info with
                | Some ma => negb (String.eqb ma "") && negb (String.eqb ma "null")
                | None => false
                end
       | None => None
       end in
     Ok (fst names, snd names, canMintUnlimited))
    (fun _ => (None, None, None)).

(** [if (canMintUnlimited === undefined) {
       const authoritySet = await getMintAuthoritySet(mint);
       if (authoritySet !== null) canMintUnlimited = authoritySet; }].
    The call is outside the [try] block above. *)
Definition mintAuthority (up : Upstream) (mint : string)
    (fromAsset : option bool) : result (option bool) :=
  match fromAsset with
  | Some _ => Ok fromAsset
  | None => getMintAuthoritySet (getAccountInfo up mint)
  end.

(** [const creationTx = mintTxsAsc[0]; if (!creationTx?.feePayer) ...]:
    the creation transaction and its fee payer, when there is one. *)
Definition creationOf (mintTxsAsc : list HeliusTransaction)
    : option (HeliusTransaction * string) :=
  match mintTxsAsc with
  | creationTx :: _ =>
      match feePayer creationTx with
      | Some (String _ _ as payer) => Some (creationTx, payer)
      | _ => None
      end
  | [] => None
  end.

(** [await Promise.all([p, q])] on two requests under way: both values
    when both are fulfilled, and otherwise the error of the request that
    rejects first in time. [pFirst] tells whether [p] settles before
    [q]; it matters only when both reject. *)
Definition promiseAll {A B} (pFirst : bool) (p : result A) (q : result B)
    : result (A * B) :=
  match p, q with
  | Ok a, Ok b => Ok (a, b)
  | Throw message, Ok _ => Throw message
  | Ok _, Throw message => Throw message
  | Throw message, Throw message' => Throw (if pFirst then message else message')
  end.

Definition accountAgeDaysAt (now : float) (accountFirstTimestamp : option float)
    : option float :=
  match accountFirstTimestamp with
  | Some ts =>
      Some (PrimFloat.div (PrimFloat.sub (PrimFloat.div now 1000) ts) 86400)
  | None => None
  end.

(** Liquidity and 24h tx count from DexScreener, unique traders from
    Birdeye. *)
Definition marketStats (up : Upstream) (mint : string) : option TokenMarketStats :=
  let dexData := fetchDexScreenerData up mint in
  let uniqueTraders24h := birdeyeUniqueWallet24h up in
  if defined (DexData.liquidityUsd dexData) || defined (DexData.txCount24h dexData)
     || defined (DexData.pairs dexData) || defined (DexData.migrationStatus dexData)
     || defined uniqueTraders24h
  then Some
    {| liquidityUsd := DexData.liquidityUsd dexData;
       pairs := DexData.pairs dexData;
       txCount24h := DexData.txCount24h dexData;
       buys24h := DexData.buys24h dexData;
       sells24h := DexData.sells24h dexData;
       uniqueTraders24h := uniqueTraders24h;
       freshHolders1dPercent := None;
       freshHolders7dPercent := None;
       migrationStatus := DexData.migrationStatus dexData;
       migrationLabel := DexData.migrationLabel dexData |}
  else None.

(** Creator's other tokens: liquidity and pairs for each. *)
Definition previousToken (up : Upstream) (otherMint : string)
    : CreatorPreviousToken.t :=
  let otherDex := fetchDexScreenerData up otherMint in
  let liquidityUsd := nullish (DexData.liquidityUsd otherDex) 0%float in
  let pairs := nullish (DexData.pairs otherDex) [] in
  let names :=
    tryCatch
      (asset ← getAsset up otherMint;
       Ok match a ← asset; c ← Asset.content a; Content.metadata c with
          | Some md => (Metadata.symbol md, Metadata.name md)
          | None => (None, None)
          end)
      (fun _ => (None, None)) in
  CreatorPreviousToken.mk otherMint (fst names) (snd names) liquidityUsd pairs.

(** [result.creatorPreviousTokens = ...] on the scorer's result. *)
Definition withPreviousTokens (r : RiskResult)
    (l : option (list CreatorPreviousToken.t)) : RiskResult :=
  {| score := score r; severity := severity r; factors := factors r;
     creator := creator r; mint := RiskScore.mint r;
     holderStats := holderStats r; emissionStatus := emissionStatus r;
     creatorSold := creatorSold r; tokenMarket := tokenMarket r;
     creatorPreviousTokens := l |}.

(** Everything after the creator is known and its history fetched. *)
Definition assemble (up : Upstream) (mint : string)
    (tokenName tokenSymbol : option string) (canMintUnlimited : option bool)
    (creationTx : HeliusTransaction) (creatorAddress : string)
    (creatorTxsAsc creatorTxsDesc : list HeliusTransaction) : RiskResult :=
  let creatorFirstTxTimestamp := timestamp creationTx in
  let accountFirstTimestamp :=
    match tx ← head creatorTxsAsc; timestamp tx with
    | Some ts => Some ts
    | None => creatorFirstTxTimestamp
    end in
  let accountAgeDays := accountAgeDaysAt (Date_now up) accountFirstTimestamp in
  let creatorAnalysis :=
    {| creatorAddress := creatorAddress;
       creatorFirstTxTimestamp :=
         match creatorFirstTxTimestamp with
         | Some ts => Some ts
         | None => accountFirstTimestamp
         end;
       accountAgeDays := accountAgeDays;
       totalTxCount := Number_of_Z (Z.of_nat (length creatorTxsDesc));
       estimatedTokensCreated := 0;
       tokenName := tokenName;
       tokenSymbol := tokenSymbol;
       canMintUnlimited := canMintUnlimited |} in
  let holderStats :=
    holderDistribution (getTokenAccountsByMint up mint 1000)
                       creatorAddress creatorTxsDesc in
  let tokenMarket := marketStats up mint in
  let otherMints := getOtherMintsFromCreatorTxs creatorTxsDesc mint 8 in
  let creatorPreviousTokens := map (previousToken up) otherMints in
  let result :=
    computeRiskScore mint creatorAnalysis creatorTxsDesc holderStats tokenMarket in
  withPreviousTokens result
    match creatorPreviousTokens with
    | [] => None
    | _ => Some creatorPreviousTokens
    end.

(** The body of the handler's outer [try]. *)
Definition analyze (up : Upstream) (mint : string) : result Response :=
  if negb (truthy (trim <$> HELIUS_API_KEY up)) then
    Ok (Json 503 "Service not configured: HELIUS_API_KEY is missing")
  else
    let meta := assetMetadata up mint in
    let tokenName := fst (fst meta) in
    let tokenSymbol := snd (fst meta) in
    canMintUnlimited ← mintAuthority up mint (snd meta);
    (* First tx on mint = creation; feePayer = creator *)
    mintTxsAsc ← getTransactionsByAddress up mint Asc 1;
    match creationOf mintTxsAsc with
    | None =>
        Ok (Json 404
              "Could not determine token creator (no transaction history for this address)")
    | Some (creationTx, creatorAddress) =>
        (* Creator history: old first (for age), then new *)
        history ← promiseAll (ascSettlesFirst up)
                    (getTransactionsByAddress up creatorAddress Asc 1)
                    (getTransactionsByAddress up creatorAddress Desc 100);
        Ok (JsonResult
              (assemble up mint tokenName tokenSymbol canMintUnlimited
                        creationTx creatorAddress (fst history) (snd history)))
    end.

(** The outer [catch]: the status chosen from the error message. *)
Definition statusOf (message : string) : Z :=
  let isInvalidKey :=
    includes message "Invalid API key" || includes message "invalid api key"
    || includes message "invalid api key provided" in
  if isInvalidKey then 401
  else if includes message "HELIUS_API_KEY" || includes message "not set"
          || includes message "rate"
  then 503 else 500.

Definition GET (up : Upstream) (request : Request) : Response :=
  let mint := nullish (trim <$> mintParam request) "" in
  if negb (truthy (Some mint)) then
    Json 400 "Missing mint parameter (token mint address)"
  else if negb (Utils.isValidSolanaAddress mint) then
    Json 400 "Invalid Solana address (expected 32–44 base58 characters)"
  else
    tryCatch (analyze up mint)
             (fun message => Json (statusOf message) message).

End Analyze.

(* ===================================================================== *)
(** * lib/helius.ts: the key and the transaction-history request *)
(* ===================================================================== *)

Module Client.
Import JS Helius.

Definition PLACEHOLDER_KEY : string := "your_helius_api_key_here".

Definition INVALID_KEY_MSG : string :=
  "Invalid Helius API key. Update HELIUS_API_KEY in .env with your key from https://dashboard.helius.dev (no quotes or spaces), then restart the server (npm run dev).".

(** [key.toLowerCase()]. *)
Definition toLowerCase (s : string) : string := JS.toLowerCase s.

(** [getApiKey], reading [process.env.HELIUS_API_KEY]. *)
Definition getApiKey (raw : option string) : result string :=
  if negb (truthy raw) then Throw "HELIUS_API_KEY is not set. Add it to .env"
  else
    let key := trim (nullish raw "") in
    if negb (truthy (Some key)) then Throw "HELIUS_API_KEY is empty in .env"
    else if String.eqb key PLACEHOLDER_KEY
            || String.eqb (toLowerCase key) (toLowerCase PLACEHOLDER_KEY)
    then Throw ".env contains the placeholder key. Replace your_helius_api_key_here with your key from https://dashboard.helius.dev"
    else Ok key.

(** What [fetch] resolved to: the status, the outcome of [res.text()]
    and the outcome of [res.json()] ([None] for a value that is not an
    array). *)
Record HttpResponse := {
  status : nat;
  text : result string;
  json : result (option (list HeliusTransaction)) }.

(** [res.ok]: the status is in the range 200-299. *)
Definition ok (res : HttpResponse) : bool :=
  (200 <=? status res)%nat && (status res <=? 299)%nat.

(** [`${n}`] for a status code. *)
Definition showNat (n : nat) : string := NilZero.string_of_uint (Nat.to_uint n).

(** [getTransactionsByAddress]. The address and the options only shape
    the URL; [exchange] is the outcome of [fetch] on that URL (a throw is
    a rejected [fetch]). *)
Definition getTransactionsByAddress (envKey : option string)
    (exchange : result HttpResponse) : result (list HeliusTransaction) :=
  apiKey ← getApiKey envKey;
  res ← exchange;
  if (status res =? 401)%nat then Throw INVALID_KEY_MSG
  else if negb (ok res) then
    text ← text res;
    Throw ("Helius API error " ++ showNat (status res) ++ ": "
           ++ slice 0 200 text)
  else
    data ← json res;
    Ok match data with
       | Some l => l
       | None => []
       end.

End Client.

(* ===================================================================== *)
(** * app/api/analyze/route.ts: the migration stage *)
(* ===================================================================== *)

Module Migration.
Import JS RiskScore.

(** [inferMigrationStatus]: the status and its label. *)
Definition inferMigrationStatus (dexIds : list string) : MigrationStatus * string :=
  let lower := map Client.toLowerCase dexIds in
  let hasPump := existsb (fun d => includes d "pump") lower in
  let hasRaydium :=
    existsb (fun d => String.eqb d "raydium" || includes d "raydium") lower in
  let hasPumpAmm :=
    existsb (fun d => includes d "pump-amm" || includes d "pump_amm") lower in
  let hasOtherAmm :=
    existsb (fun d =>
               existsb (fun x => includes d x)
                       ["orca"; "meteora"; "jupiter"; "lifinity"; "phoenix"])
            lower in
  let hasAmm := hasRaydium || hasPumpAmm || hasOtherAmm in
  if (length dexIds =? 0)%nat then (UnknownStatus, "—")
  else if hasPump && negb hasAmm then (BondingCurve, "Bonding curve (not migrated)")
  else if hasAmm && hasPump then (Migrated, "Migrated (e.g. Raydium)")
  else if hasAmm then (AmmOnly, "Trading on AMM (no bonding curve)")
  else (UnknownStatus, "—").

End Migration.

(* ===================================================================== *)
(** * Notions used to state the properties *)
(* ===================================================================== *)

(** Sum of the [impact] fields of a factor list. *)
Definition totalImpact (fs : list RiskScore.RiskFactor.t) : Z :=
  fold_right (fun f s => RiskScore.RiskFactor.impact f + s) 0 fs.

(** The ids of a factor list, in order. *)
Definition factorIds (fs : list RiskScore.RiskFactor.t) : list string :=
  map RiskScore.RiskFactor.id fs.

(** [a'] is [a] after some factors were pushed, the score having moved by
    exactly their impacts. *)
Definition pushes (a a' : RiskScore.Tally) (fs : list RiskScore.RiskFactor.t) : Prop :=
  RiskScore.t_factors a' = (RiskScore.t_factors a ++ fs)%list /\
  RiskScore.t_score a' = RiskScore.t_score a + totalImpact fs.

(** The substring fallback shared by both classifiers. *)
Definition fallback (t : string) : bool :=
  JS.includes t "MINT" || JS.includes t "CREATE" || JS.includes t "INITIALIZE".

(** The test applied to each taxonomy entry: exact tag, or entry followed
    by an underscore. *)
Definition matches (t prefix : string) : bool :=
  String.eqb t prefix || JS.startsWith t (prefix ++ "_").

(** Does transfer [from -> to] count as "the creator paid [k]"? *)
Definition paid (creator : string) (from to : option string) (k : string) : bool :=
  match from, to with
  | Some f, Some x => String.eqb f creator && JS.truthy to && String.eqb x k
  | _, _ => false
  end.

(** Does [tx] hold a native or token transfer from the creator to [k]? *)
Definition paysTo (creator k : string) (tx : Helius.HeliusTransaction) : bool :=
  existsb (fun t => paid creator (Helius.NativeTransfer.fromUserAccount t)
                         (Helius.NativeTransfer.toUserAccount t) k)
          (JS.nullish (Helius.nativeTransfers tx) [])
  || existsb (fun t => paid creator (Helius.TokenTransfer.fromUserAccount t)
                            (Helius.TokenTransfer.toUserAccount t) k)
             (JS.nullish (Helius.tokenTransfers tx) []).

(** Timestamp of the first transaction, in the order of the sample, that
    pays [k]. *)
Definition firstInSample (creator k : string)
    (txs : list Helius.HeliusTransaction) : option float :=
  match find (paysTo creator k) txs with
  | Some tx => Some (JS.nullish (Helius.timestamp tx) 0%float)
  | None => None
  end.

(** The amount of an account as the aggregation reads it. *)
Definition amountOf (a : Helius.TokenAccountHolder) : Z :=
  match JS.BigInt (Helius.amount a) with
  | JS.Ok z => z
  | JS.Throw _ => 0
  end.

(** Is some account of the list owned by the (non-empty) owner [o]? *)
Definition owns (o : string) (accounts : list Helius.TokenAccountHolder) : bool :=
  negb (String.eqb o "") &&
  existsb (fun a => String.eqb (Helius.owner a) o) accounts.

(** Exact integer sum of the amounts of the accounts owned by [o]. *)
Definition ownedTotal (o : string) (accounts : list Helius.TokenAccountHolder) : Z :=
  fold_right
    (fun a s => if String.eqb (Helius.owner a) o then amountOf a + s else s)
    0 accounts.

(** What the merged map holds for an owner after the aggregation loop ran
    over [l], when it held [x] before. *)
Definition merged (x : option Z) (o : string) (l : list Helius.TokenAccountHolder)
    : option Z :=
  if owns o l then Some (JS.nullish x 0 + ownedTotal o l) else x.

(** The request carries the well-formed mint address [mint]. *)
Definition accepted (request : Analyze.Request) (mint : string) : Prop :=
  mint = JS.nullish (JS.trim <$> Analyze.mintParam request) "" /\
  JS.truthy (Some mint) = true /\
  Utils.isValidSolanaAddress mint = true.

(** The Helius key is present in the environment. *)
Definition configured (up : Analyze.Upstream) : Prop :=
  JS.truthy (JS.trim <$> Analyze.HELIUS_API_KEY up) = true.

(** The mint-authority flag the structured asset metadata gives: present
    only when the asset call returned a record with [token_info]; active
    when [mint_authority] is a non-empty string other than "null". *)
Definition structuredAuthority (asset : JS.result (option Helius.Asset.t))
    : option bool :=
  match asset with
  | JS.Ok (Some a) =>
      match Helius.Asset.token_info a with
      | Some info =>
          match Helius.TokenInfo.mint_authority info with
          | Some ma => Some (negb (String.eqb ma "") && negb (String.eqb ma "null"))
          | None => Some false
          end
      | None => None
      end
  | _ => None
  end.

(** The flag decoded from the raw mint account: byte 10 equal to 1 means
    active, any other value revoked; no answer on an error reply, on
    missing data or on fewer than 11 bytes. *)
Definition decodedAuthority (json : Helius.AccountInfoJson) : option bool :=
  if Helius.error json then None
  else match Helius.data json with
       | Some buf =>
           match nth_error buf 10 with
           | Some b => Some (Z.eqb b 1)
           | None => None
           end
       | None => None
       end.

(** The shares of all the ranked holders, in hundredths of a percent,
    added up. *)
Definition sumBasisPoints (holders : list (string * Z)) (total : Z) : Z :=
  fold_right (fun e s => Analyze.basisPoints (snd e) total + s) 0 holders.

(** A binary64 value other than an infinity or NaN. *)
Definition isFinite (f : float) : bool :=
  match Prim2SF f with
  | S754_zero _ | S754_finite _ _ _ => true
  | _ => false
  end.

(** The rational number a finite binary64 value denotes: sign, integer
    significand and binary exponent. *)
Definition exact (f : float) : Q :=
  match Prim2SF f with
  | S754_finite s m e =>
      let magnitude :=
        if (0 <=? e)%Z then inject_Z (Zpos m * 2 ^ e)
        else Qmake (Zpos m) (Pos.pow 2 (Z.to_pos (- e))) in
      if s then Qopp magnitude else magnitude
  | _ => 0%Q
  end.

(** [p] is finite and within one part in 2^53 of [q] hundredths, as the
    correctly rounded quotient of [q] by 100 is. *)
Definition nearHundredths (q : Z) (p : float) : bool :=
  isFinite p &&
  Qle_bool (Qabs (exact p - inject_Z q / 100))
           (inject_Z q / 100 * (1 # 9007199254740992)).

(** The shares of the given holders, each computed as the handler
    computes a share: [Number(amount * 10000n / total) / 100]. *)
Definition percents (holders : list (string * Z)) (total : Z) : list float :=
  map (fun e => Analyze.percentOf (snd e) total) holders.

(** The exact sum of the numbers a list of binary64 values denotes. *)
Definition sumExact (l : list float) : Q :=
  fold_right (fun f s => (exact f + s)%Q) 0%Q l.

(** The tally before the first rule. *)
Definition start : RiskScore.Tally :=
  {| RiskScore.t_score := 50; RiskScore.t_factors := [] |}.

(** What a rule pushes when it runs on its own. *)
Definition emitted (rule : RiskScore.Tally -> RiskScore.Tally)
    : list RiskScore.RiskFactor.t :=
  RiskScore.t_factors (rule start).

(** The factors of the ten rules, each evaluated on its own, in
    evaluation order ([n] is the created count). *)
Definition perRule (ca : RiskScore.CreatorAnalysis) (n : Z)
    (hs : option RiskScore.HolderStats) (tm : option RiskScore.TokenMarketStats)
    : list (list RiskScore.RiskFactor.t) :=
  [ emitted (RiskScore.rule_emission ca);
    emitted (RiskScore.rule_creator_hold hs);
    emitted (RiskScore.rule_created n);
    emitted (RiskScore.rule_age ca);
    emitted (RiskScore.rule_activity ca);
    emitted (RiskScore.rule_holder_count hs);
    emitted (RiskScore.rule_concentration hs);
    emitted (RiskScore.rule_connected hs);
    emitted (RiskScore.rule_liquidity tm);
    emitted (RiskScore.rule_fresh tm) ].

(** The position, in evaluation order, of the rule that owns a factor id
    (0 for an id no rule emits). *)
Definition ruleIndex (id : string) : nat :=
  if existsb (String.eqb id) ["unlimited_mint"; "fixed_supply"] then 1
  else if existsb (String.eqb id) ["creator_sold"; "creator_holds"] then 2
  else if existsb (String.eqb id)
            ["serial_creator"; "multiple_tokens"; "first_or_few"] then 3
  else if existsb (String.eqb id)
            ["brand_new_account"; "new_account"; "established_account"] then 4
  else if existsb (String.eqb id) ["very_high_activity"] then 5
  else if existsb (String.eqb id)
            ["very_few_holders"; "few_holders"; "low_holder_count"] then 6
  else if existsb (String.eqb id)
            ["extreme_concentration"; "high_concentration"; "distributed_holders"]
       then 7
  else if existsb (String.eqb id) ["creator_connected_holders"] then 8
  else if existsb (String.eqb id)
            ["low_liquidity"; "moderate_liquidity"; "good_liquidity"] then 9
  else if existsb (String.eqb id) ["very_fresh_holders"] then 10
  else 0.

Definition rankOf (f : RiskScore.RiskFactor.t) : nat :=
  ruleIndex (RiskScore.RiskFactor.id f).

(** The sign of a factor's impact agrees with its severity: critical and
    warning factors lower the score by 4 to 25, positive factors raise it
    by 5 to 10, and nothing is neutral. *)
Definition signAgrees (f : RiskScore.RiskFactor.t) : bool :=
  match RiskScore.RiskFactor.severity f with
  | RiskScore.Critical | RiskScore.Warning =>
      (-25 <=? RiskScore.RiskFactor.impact f)%Z
      && (RiskScore.RiskFactor.impact f <=? -4)%Z
  | RiskScore.Positive =>
      (5 <=? RiskScore.RiskFactor.impact f)%Z
      && (RiskScore.RiskFactor.impact f <=? 10)%Z
  | RiskScore.Neutral => false
  end.

(** A rule's output: nothing, or one factor of rule [i] whose impact
    agrees with its severity. *)
Definition shaped (i : nat) (fs : list RiskScore.RiskFactor.t) : Prop :=
  fs = [] \/ exists f, fs = [f] /\ rankOf f = i /\ signAgrees f = true.

(** Consecutive rules [i], [i+1], ... produced the lists [ls]. *)
Fixpoint shapedFrom (i : nat) (ls : list (list RiskScore.RiskFactor.t)) : Prop :=
  match ls with
  | [] => True
  | fs :: rest => shaped i fs /\ shapedFrom (S i) rest
  end.

(** The factor ids that depend on the holder distribution. *)
Definition holderFactorIds : list string :=
  [ "creator_sold"; "creator_holds"; "very_few_holders"; "few_holders";
    "low_holder_count"; "extreme_concentration"; "high_concentration";
    "distributed_holders"; "creator_connected_holders" ].

(** The factor ids that depend on the market statistics. *)
Definition marketFactorIds : list string :=
  [ "low_liquidity"; "moderate_liquidity"; "good_liquidity";
    "very_fresh_holders" ].

(** The inner loop step of [getOtherMintsFromCreatorTxs], named. *)
Definition keepMint (currentMint : string) (mints : list string)
    (t : Helius.TokenTransfer.t) : list string :=
  match Helius.TokenTransfer.mint t with
  | Some raw =>
      let m := JS.trim raw in
      if JS.truthy (Some m) && negb (String.eqb m currentMint)
         && Utils.isValidSolanaAddress m
      then Analyze.setAdd mints m else mints
  | None => mints
  end.

(** The outer loop step of [getOtherMintsFromCreatorTxs], named. *)
Definition scanTx (currentMint : string) (mints : list string)
    (tx : Helius.HeliusTransaction) : list string :=
  if negb (Analyze.isCreationTx tx) then mints
  else fold_left (keepMint currentMint)
                 (JS.nullish (Helius.tokenTransfers tx) []) mints.

(** [m] is the trimmed mint of a token transfer of a transaction of the
    sample that is classified as a creation, is a well-formed address and
    is not the mint under analysis. *)
Definition siblingMint (txs : list Helius.HeliusTransaction)
    (currentMint m : string) : Prop :=
  m <> currentMint /\
  Utils.isValidSolanaAddress m = true /\
  exists tx t raw,
    In tx txs /\ Analyze.isCreationTx tx = true /\
    In t (JS.nullish (Helius.tokenTransfers tx) []) /\
    Helius.TokenTransfer.mint t = Some raw /\ JS.trim raw = m.

(** Nothing to trim at the front: no white-space character leads. *)
Definition headClean (spaces : list (list ascii)) (l : list ascii) : Prop :=
  Unicode.behead spaces l = None.

(** An ASCII letter or digit. *)
Definition alphanumeric (c : ascii) : bool :=
  let n := nat_of_ascii c in
  ((48 <=? n) && (n <=? 57) || (65 <=? n) && (n <=? 90)
   || (97 <=? n) && (n <=? 122))%nat.

(** No white-space character or line terminator occurs in [s]. *)
Definition spaceFree (s : string) : Prop :=
  forall cp, In cp Unicode.WHITE_SPACE -> JS.includes s (Unicode.utf8 cp) = false.

(** [a] ranks before [b]: its balance is at least as large. *)
Definition outranks (a b : string * Z) : Prop := snd b <= snd a.

(** The same order on the entries of [topHolders]. *)
Definition outranksTop (a b : RiskScore.TopHolder.t) : Prop :=
  RiskScore.TopHolder.amountRaw b <= RiskScore.TopHolder.amountRaw a.

(** An account with an owner whose amount [BigInt] rejects. *)
Definition malformed (a : Helius.TokenAccountHolder) : Prop :=
  Helius.owner a <> "" /\ exists message, JS.BigInt (Helius.amount a) = JS.Throw message.

(* ===================================================================== *)
(** * Concrete inputs *)
(* ===================================================================== *)

Module Samples.
Import Helius RiskScore.

(** A transaction carrying only a type tag and a timestamp. *)
Definition tagged (ty : string) (ts : float) : HeliusTransaction :=
  {| signature := "sig"; timestamp := Some ts; feePayer := Some "creator";
     type := Some ty; source := None; description := None;
     nativeTransfers := None; tokenTransfers := None |}.

(** A transaction with one native transfer [from -> to]. *)
Definition sends (from to : string) (ts : float) : HeliusTransaction :=
  {| signature := "sig"; timestamp := Some ts; feePayer := Some from;
     type := Some "TRANSFER"; source := None; description := None;
     nativeTransfers :=
       Some [NativeTransfer.mk (Some from) (Some to) (Some 1%float)];
     tokenTransfers := None |}.

Definition creatorOf (canMint : option bool) (age : option float)
    : CreatorAnalysis :=
  {| creatorAddress := "creator"; creatorFirstTxTimestamp := None;
     accountAgeDays := age; totalTxCount := 2%float;
     estimatedTokensCreated := 0%float;
     tokenName := None; tokenSymbol := None;
     canMintUnlimited := canMint |}.

Definition holders (n top10 : float) (creatorShare : option float) : HolderStats :=
  {| totalSupplyRaw := 1000; totalHolders := n; top10Percent := top10;
     topHolders := []; creatorHoldPercent := creatorShare;
     creatorConnectedHolders := None |}.

Definition market (liq : option float) : TokenMarketStats :=
  {| liquidityUsd := liq; pairs := None; txCount24h := None;
     buys24h := None; sells24h := None; uniqueTraders24h := None;
     freshHolders1dPercent := None; freshHolders7dPercent := None;
     migrationStatus := None; migrationLabel := None |}.

(** Token accounts: two of owner A, one with an empty owner and an
    amount that does not parse. *)
Definition accounts : list TokenAccountHolder :=
  [ {| owner := "A"; amount := "100" |};
    {| owner := "B"; amount := "300" |};
    {| owner := ""; amount := "n/a" |};
    {| owner := "A"; amount := "200" |};
    {| owner := "C"; amount := "1" |} ].

Definition mintA : string := "So11111111111111111111111111111111111111112".

(** A mint account whose byte 10 is [flag]. *)
Definition mintAccount (flag : Z) : AccountInfoJson :=
  {| error := false; data := Some [0; 0; 0; 0; 0; 0; 0; 0; 0; 0; flag; 0] |}.

(** A provider answering for [mintA], created by the wallet "creator":
    the parameters are the outcomes of the asset call, of the raw account
    exchange, of the mint's earliest-transaction lookup and of the two
    creator-history fetches. *)
Definition upstream
    (asset : JS.result (option Asset.t))
    (account : JS.result AccountInfoJson)
    (mintTxsAsc creatorTxsAsc creatorTxsDesc : JS.result (list HeliusTransaction))
    : Analyze.Upstream :=
  {| Analyze.HELIUS_API_KEY := Some "0123-key";
     Analyze.Date_now := 1700000000000%float;
     Analyze.getAsset := fun _ => asset;
     Analyze.getAccountInfo := fun _ => account;
     Analyze.getTransactionsByAddress := fun address order _ =>
       if String.eqb address mintA then mintTxsAsc
       else match order with
            | Analyze.Asc => creatorTxsAsc
            | Analyze.Desc => creatorTxsDesc
            end;
     Analyze.ascSettlesFirst := false;
     Analyze.getTokenAccountsByMint := fun _ _ =>
       JS.Ok {| Analyze.token_accounts := accounts; Analyze.total := 5%float |};
     Analyze.fetchDexScreenerData := fun _ =>
       Analyze.DexData.mk (Some 500%float) None None None None None None;
     Analyze.birdeyeUniqueWallet24h := None |}.

Definition request : Analyze.Request := {| Analyze.mintParam := Some mintA |}.

End Samples.

Module Fixtures.
Import Helius.

(** A second well-formed address. *)
Definition otherMint : string := "EPjFWdd5AufqSSqeM2qN1xzybapC8G4wEGGkZwyTDt1v".

(** A creation transaction moving [otherMint], written with white space
    around the address. *)
Definition minting : HeliusTransaction :=
  {| signature := "sig"; timestamp := Some 50%float; feePayer := Some "creator";
     type := Some "create"; source := None; description := None;
     nativeTransfers := None;
     tokenTransfers :=
       Some [TokenTransfer.mk (Some "creator") (Some "holder")
                              (Some (" " ++ otherMint ++ " "))] |}.

Definition fetched : Analyze.TokenAccounts :=
  {| Analyze.token_accounts := Samples.accounts; Analyze.total := 5%float |}.

End Fixtures.

(* ===================================================================== *)
(** * Properties of the scorer *)
(* ===================================================================== *)

Section Scorer.
Import JS RiskScore.

Lemma totalImpact_app fs gs :
  totalImpact (fs ++ gs)%list = totalImpact fs + totalImpact gs.
Proof. induction fs as [|f fs IH]; simpl; [|rewrite IH]; lia. Qed.

Lemma pushes_refl a : pushes a a [].
Proof. split; simpl; [now rewrite app_nil_r | lia]. Qed.

Lemma pushes_apply d f a :
  d = RiskFactor.impact f -> pushes a (apply d f a) [f].
Proof. intros ->. split; simpl; [reflexivity | lia]. Qed.

Lemma pushes_trans a b c fs gs :
  pushes a b fs -> pushes b c gs -> pushes a c (fs ++ gs)%list.
Proof.
  intros [Hf Hs] [Hf' Hs']. split.
  - now rewrite Hf', Hf, app_assoc.
  - rewrite Hs', Hs, totalImpact_app. lia.
Qed.

(** Closes a goal [exists fs, pushes a (rule a) fs] once the rule is
    unfolded: every branch is either [a] itself or one [apply]. *)
Ltac one_push :=
  repeat case_match;
  first [ eexists; apply pushes_refl
        | eexists; apply pushes_apply; reflexivity ].

Lemma rule_emission_pushes ca a : exists fs, pushes a (rule_emission ca a) fs.
Proof. unfold rule_emission. one_push. Qed.

Lemma rule_creator_hold_pushes hs a : exists fs, pushes a (rule_creator_hold hs a) fs.
Proof. unfold rule_creator_hold. one_push. Qed.

Lemma rule_created_pushes n a : exists fs, pushes a (rule_created n a) fs.
Proof. unfold rule_created. one_push. Qed.

Lemma rule_age_pushes ca a : exists fs, pushes a (rule_age ca a) fs.
Proof. unfold rule_age. one_push. Qed.

Lemma rule_activity_pushes ca a : exists fs, pushes a (rule_activity ca a) fs.
Proof. unfold rule_activity. one_push. Qed.

Lemma rule_holder_count_pushes hs a : exists fs, pushes a (rule_holder_count hs a) fs.
Proof. unfold rule_holder_count. one_push. Qed.

Lemma rule_concentration_pushes hs a : exists fs, pushes a (rule_concentration hs a) fs.
Proof. unfold rule_concentration. one_push. Qed.

Lemma rule_connected_pushes hs a : exists fs, pushes a (rule_connected hs a) fs.
Proof. unfold rule_connected. cbv zeta. one_push. Qed.

Lemma rule_liquidity_pushes tm a : exists fs, pushes a (rule_liquidity tm a) fs.
Proof. unfold rule_liquidity. one_push. Qed.

Lemma rule_fresh_pushes tm a : exists fs, pushes a (rule_fresh tm a) fs.
Proof. unfold rule_fresh. cbv zeta. one_push. Qed.

Lemma tally_pushes ca n hs tm :
  exists fs, pushes {| t_score := 50; t_factors := [] |} (tally ca n hs tm) fs.
Proof.
  unfold tally. cbv zeta.
  set (a0 := {| t_score := 50; t_factors := [] |}).
  destruct (rule_emission_pushes ca a0) as [f1 H1].
  set (a1 := rule_emission ca a0) in *.
  destruct (rule_creator_hold_pushes hs a1) as [f2 H2].
  set (a2 := rule_creator_hold hs a1) in *.
  destruct (rule_created_pushes n a2) as [f3 H3].
  set (a3 := rule_created n a2) in *.
  destruct (rule_age_pushes ca a3) as [f4 H4].
  set (a4 := rule_age ca a3) in *.
  destruct (rule_activity_pushes ca a4) as [f5 H5].
  set (a5 := rule_activity ca a4) in *.
  destruct (rule_holder_count_pushes hs a5) as [f6 H6].
  set (a6 := rule_holder_count hs a5) in *.
  destruct (rule_concentration_pushes hs a6) as [f7 H7].
  set (a7 := rule_concentration hs a6) in *.
  destruct (rule_connected_pushes hs a7) as [f8 H8].
  set (a8 := rule_connected hs a7) in *.
  destruct (rule_liquidity_pushes tm a8) as [f9 H9].
  set (a9 := rule_liquidity tm a8) in *.
  destruct (rule_fresh_pushes tm a9) as [f10 H10].
  eexists.
  repeat (eapply pushes_trans; [|eassumption]).
  apply pushes_refl.
Qed.

Lemma tally_score ca n hs tm :
  t_score (tally ca n hs tm) = 50 + totalImpact (t_factors (tally ca n hs tm)).
Proof.
  destruct (tally_pushes ca n hs tm) as [fs [Hf Hs]].
  simpl in Hf, Hs. rewrite Hs, Hf. reflexivity.
Qed.

Lemma pushes_keeps_id a a' fs i :
  pushes a a' fs -> In i (factorIds (t_factors a)) -> In i (factorIds (t_factors a')).
Proof.
  intros [Hf _] Hi. unfold factorIds in *. rewrite Hf, map_app.
  apply in_or_app. now left.
Qed.

(** Upper bounds on what each evidence-independent rule can add. *)
Ltac bound_rule :=
  repeat case_match; unfold apply; simpl; lia.

Lemma rule_created_le n a : t_score (rule_created n a) <= t_score a + 10.
Proof. unfold rule_created. bound_rule. Qed.

Lemma rule_age_le ca a : t_score (rule_age ca a) <= t_score a + 10.
Proof. unfold rule_age. bound_rule. Qed.

Lemma rule_activity_le ca a : t_score (rule_activity ca a) <= t_score a.
Proof. unfold rule_activity. cbv zeta. bound_rule. Qed.

Lemma rule_connected_le hs a : t_score (rule_connected hs a) <= t_score a.
Proof. unfold rule_connected. cbv zeta. bound_rule. Qed.

Lemma rule_fresh_le tm a : t_score (rule_fresh tm a) <= t_score a.
Proof. unfold rule_fresh. cbv zeta. bound_rule. Qed.

Lemma in_ids_apply d f a :
  In (RiskFactor.id f) (factorIds (t_factors (apply d f a))).
Proof.
  unfold factorIds, apply. simpl. rewrite map_app.
  apply in_or_app. right. now left.
Qed.

(** The tier function at and around its two thresholds. *)
Lemma tier_spec s :
  (tier s = High <-> s <= 30) /\
  (tier s = Medium <-> 31 <= s <= 60) /\
  (tier s = Low <-> 61 <= s).
Proof.
  unfold tier.
  destruct (Z.leb_spec s 30); destruct (Z.leb_spec s 60);
    repeat split; intros; try discriminate; try lia; reflexivity.
Qed.

Lemma filter_length_perm {A} (f : A -> bool) (l l' : list A) :
  Permutation l l' -> length (List.filter f l) = length (List.filter f l').
Proof.
  induction 1 as [|x l l' _ IH|x y l|l l' l'' _ IH1 _ IH2]; simpl.
  - reflexivity.
  - destruct (f x); simpl; congruence.
  - destruct (f x), (f y); reflexivity.
  - congruence.
Qed.

Lemma filter_filter_same {A} (f : A -> bool) (l : list A) :
  List.filter f (List.filter f l) = List.filter f l.
Proof.
  induction l as [|x l IH]; simpl; [reflexivity|].
  destruct (f x) eqn:E; simpl; [rewrite E, IH|]; auto.
Qed.

End Scorer.

(** C1. For every input, [computeRiskScore] returns a score in [0,100];
    the severity is "high" exactly when the score is at most 30, "medium"
    exactly when it is between 31 and 60, and "low" exactly when it is at
    least 61. The four boundary values are spelled out on [tier]. *)
Theorem C1_score_range_and_tier
    (mint : string) (ca : RiskScore.CreatorAnalysis)
    (txs : list Helius.HeliusTransaction)
    (hs : option RiskScore.HolderStats) (tm : option RiskScore.TokenMarketStats) :
  let r := RiskScore.computeRiskScore mint ca txs hs tm in
  (0 <= RiskScore.score r <= 100) /\
  (RiskScore.severity r = RiskScore.High <-> RiskScore.score r <= 30) /\
  (RiskScore.severity r = RiskScore.Medium <-> 31 <= RiskScore.score r <= 60) /\
  (RiskScore.severity r = RiskScore.Low <-> 61 <= RiskScore.score r) /\
  RiskScore.tier 30 = RiskScore.High /\ RiskScore.tier 31 = RiskScore.Medium /\
  RiskScore.tier 60 = RiskScore.Medium /\ RiskScore.tier 61 = RiskScore.Low.
Proof.
  cbv zeta. unfold RiskScore.computeRiskScore. cbv zeta.
  cbn [RiskScore.score RiskScore.severity].
  set (s := RiskScore.clamp _).
  destruct (tier_spec s) as (HH & HM & HL).
  split; [subst s; unfold RiskScore.clamp; lia|].
  split; [exact HH|]. split; [exact HM|]. split; [exact HL|].
  repeat split; reflexivity.
Qed.

(** C10. For every input, the returned score is the clamp to [0,100] of
    50 plus the sum of the impacts of the emitted factors: a rule that
    fires moves the score by its factor's impact, a rule that emits no
    factor leaves it alone. *)
Theorem C10_score_is_clamped_base_plus_impacts
    (mint : string) (ca : RiskScore.CreatorAnalysis)
    (txs : list Helius.HeliusTransaction)
    (hs : option RiskScore.HolderStats) (tm : option RiskScore.TokenMarketStats) :
  let r := RiskScore.computeRiskScore mint ca txs hs tm in
  RiskScore.score r = Z.max 0 (Z.min 100 (50 + totalImpact (RiskScore.factors r))).
Proof.
  cbv zeta. unfold RiskScore.computeRiskScore. cbv zeta. simpl.
  unfold RiskScore.clamp. now rewrite tally_score.
Qed.

(** C6. Reordering the transaction sample does not change
    [estimatedTokensCreated], and classifying the already-classified
    sample (the transactions the classifier kept) gives the same value
    again. *)
Theorem C6_created_count_order_independent_idempotent
    (mint : string) (ca : RiskScore.CreatorAnalysis)
    (txs txs' : list Helius.HeliusTransaction)
    (hs : option RiskScore.HolderStats) (tm : option RiskScore.TokenMarketStats) :
  Permutation txs txs' ->
  RiskScore.estimatedTokensCreated
    (RiskScore.creator (RiskScore.computeRiskScore mint ca txs' hs tm)) =
  RiskScore.estimatedTokensCreated
    (RiskScore.creator (RiskScore.computeRiskScore mint ca txs hs tm)) /\
  RiskScore.estimatedTokensCreated
    (RiskScore.creator
       (RiskScore.computeRiskScore mint ca
          (List.filter RiskScore.txLooksLikeTokenCreation txs) hs tm)) =
  RiskScore.estimatedTokensCreated
    (RiskScore.creator (RiskScore.computeRiskScore mint ca txs hs tm)).
Proof.
  intros Hp. unfold RiskScore.computeRiskScore. cbv zeta.
  cbn [RiskScore.creator RiskScore.estimatedTokensCreated].
  unfold RiskScore.createdCountOf. split.
  - now rewrite (filter_length_perm _ _ _ Hp).
  - now rewrite filter_filter_same.
Qed.

Lemma C6_witness :
  RiskScore.estimatedTokensCreated
    (RiskScore.creator
       (RiskScore.computeRiskScore "mint" (Samples.creatorOf None None)
          [Samples.tagged "TRANSFER" 2; Samples.tagged "CREATE" 1] None None)) =
  RiskScore.estimatedTokensCreated
    (RiskScore.creator
       (RiskScore.computeRiskScore "mint" (Samples.creatorOf None None)
          [Samples.tagged "CREATE" 1; Samples.tagged "TRANSFER" 2] None None)) /\
  RiskScore.estimatedTokensCreated
    (RiskScore.creator
       (RiskScore.computeRiskScore "mint" (Samples.creatorOf None None)
          (List.filter RiskScore.txLooksLikeTokenCreation
             [Samples.tagged "CREATE" 1; Samples.tagged "TRANSFER" 2])
          None None)) =
  RiskScore.estimatedTokensCreated
    (RiskScore.creator
       (RiskScore.computeRiskScore "mint" (Samples.creatorOf None None)
          [Samples.tagged "CREATE" 1; Samples.tagged "TRANSFER" 2] None None)).
Proof.
  apply (C6_created_count_order_independent_idempotent
           "mint" (Samples.creatorOf None None)
           [Samples.tagged "CREATE" 1; Samples.tagged "TRANSFER" 2]
           [Samples.tagged "TRANSFER" 2; Samples.tagged "CREATE" 1]
           None None).
  apply perm_swap.
Defined.

Section ScenarioA.
Import JS RiskScore.

Ltac pushed_id :=
  match goal with
  | |- In _ (factorIds (t_factors (apply ?d ?f ?a))) =>
      exact (in_ids_apply d f a)
  end.

Lemma rule_emission_active ca a :
  canMintUnlimited ca = Some true ->
  t_score (rule_emission ca a) = t_score a - 20 /\
  In "unlimited_mint" (factorIds (t_factors (rule_emission ca a))).
Proof.
  intros H. unfold rule_emission. rewrite H.
  split; [simpl; lia | pushed_id].
Qed.

Lemma rule_creator_hold_zero hs a :
  creatorHoldPercent hs = Some 0%float ->
  t_score (rule_creator_hold (Some hs) a) = t_score a - 18 /\
  In "creator_sold" (factorIds (t_factors (rule_creator_hold (Some hs) a))).
Proof.
  intros H. unfold rule_creator_hold. rewrite H.
  change (lt 0 1) with true. cbv iota.
  split; [simpl; lia | pushed_id].
Qed.

Lemma rule_holder_count_two hs a :
  totalHolders hs = 2%float ->
  t_score (rule_holder_count (Some hs) a) = t_score a - 18 /\
  In "very_few_holders" (factorIds (t_factors (rule_holder_count (Some hs) a))).
Proof.
  intros H. unfold rule_holder_count. rewrite H.
  change (gt 2 0) with true. change (le 2 2) with true. cbv iota zeta.
  split; [simpl; lia | pushed_id].
Qed.

Lemma rule_concentration_full hs a :
  top10Percent hs = 100%float ->
  t_score (rule_concentration (Some hs) a) = t_score a - 15 /\
  In "extreme_concentration"
     (factorIds (t_factors (rule_concentration (Some hs) a))).
Proof.
  intros H. unfold rule_concentration. rewrite H.
  change (ge 100 0) with true. change (ge 100 80) with true. cbv iota.
  split; [simpl; lia | pushed_id].
Qed.

Lemma rule_liquidity_500 tm a :
  liquidityUsd tm = Some 500%float ->
  t_score (rule_liquidity (Some tm) a) = t_score a - 12 /\
  In "low_liquidity" (factorIds (t_factors (rule_liquidity (Some tm) a))).
Proof.
  intros H. unfold rule_liquidity. simpl. rewrite H.
  change (ge 500 0) with true. change (lt 500 2000) with true. cbv iota.
  split; [simpl; lia | pushed_id].
Qed.

(** A factor id already pushed stays in the list through every later
    rule. *)
Ltac keeps_via L :=
  intros;
  let fs := fresh "fs" in
  let Hp := fresh "Hp" in
  destruct L as [fs Hp]; eapply pushes_keeps_id; eassumption.

Lemma rule_creator_hold_keeps hs a i :
  In i (factorIds (t_factors a)) -> In i (factorIds (t_factors (rule_creator_hold hs a))).
Proof. keeps_via (rule_creator_hold_pushes hs a). Qed.

Lemma rule_created_keeps n a i :
  In i (factorIds (t_factors a)) -> In i (factorIds (t_factors (rule_created n a))).
Proof. keeps_via (rule_created_pushes n a). Qed.

Lemma rule_age_keeps ca a i :
  In i (factorIds (t_factors a)) -> In i (factorIds (t_factors (rule_age ca a))).
Proof. keeps_via (rule_age_pushes ca a). Qed.

Lemma rule_activity_keeps ca a i :
  In i (factorIds (t_factors a)) -> In i (factorIds (t_factors (rule_activity ca a))).
Proof. keeps_via (rule_activity_pushes ca a). Qed.

Lemma rule_holder_count_keeps hs a i :
  In i (factorIds (t_factors a)) -> In i (factorIds (t_factors (rule_holder_count hs a))).
Proof. keeps_via (rule_holder_count_pushes hs a). Qed.

Lemma rule_concentration_keeps hs a i :
  In i (factorIds (t_factors a)) -> In i (factorIds (t_factors (rule_concentration hs a))).
Proof. keeps_via (rule_concentration_pushes hs a). Qed.

Lemma rule_connected_keeps hs a i :
  In i (factorIds (t_factors a)) -> In i (factorIds (t_factors (rule_connected hs a))).
Proof. keeps_via (rule_connected_pushes hs a). Qed.

Lemma rule_liquidity_keeps tm a i :
  In i (factorIds (t_factors a)) -> In i (factorIds (t_factors (rule_liquidity tm a))).
Proof. keeps_via (rule_liquidity_pushes tm a). Qed.

Lemma rule_fresh_keeps tm a i :
  In i (factorIds (t_factors a)) -> In i (factorIds (t_factors (rule_fresh tm a))).
Proof. keeps_via (rule_fresh_pushes tm a). Qed.

(** Scenario A on the tally: the five factors are present and the
    unclamped score is at most -13. *)
Lemma tally_scenario_A ca n hs tm :
  canMintUnlimited ca = Some true ->
  creatorHoldPercent hs = Some 0%float ->
  totalHolders hs = 2%float ->
  top10Percent hs = 100%float ->
  liquidityUsd tm = Some 500%float ->
  let a := tally ca n (Some hs) (Some tm) in
  t_score a <= -13 /\
  Forall (fun i => In i (factorIds (t_factors a)))
    ["unlimited_mint"; "creator_sold"; "very_few_holders";
     "extreme_concentration"; "low_liquidity"].
Proof.
  intros Hm Hc Hn Ht Hl. unfold tally. cbv zeta.
  set (a0 := {| t_score := 50; t_factors := [] |}).
  destruct (rule_emission_active ca a0 Hm) as [S1 I1].
  set (a1 := rule_emission ca a0) in *.
  destruct (rule_creator_hold_zero hs a1 Hc) as [S2 I2].
  set (a2 := rule_creator_hold (Some hs) a1) in *.
  pose proof (rule_created_le n a2) as S3.
  set (a3 := rule_created n a2) in *.
  pose proof (rule_age_le ca a3) as S4.
  set (a4 := rule_age ca a3) in *.
  pose proof (rule_activity_le ca a4) as S5.
  set (a5 := rule_activity ca a4) in *.
  destruct (rule_holder_count_two hs a5 Hn) as [S6 I6].
  set (a6 := rule_holder_count (Some hs) a5) in *.
  destruct (rule_concentration_full hs a6 Ht) as [S7 I7].
  set (a7 := rule_concentration (Some hs) a6) in *.
  pose proof (rule_connected_le (Some hs) a7) as S8.
  set (a8 := rule_connected (Some hs) a7) in *.
  destruct (rule_liquidity_500 tm a8 Hl) as [S9 I9].
  set (a9 := rule_liquidity (Some tm) a8) in *.
  pose proof (rule_fresh_le (Some tm) a9) as S10.
  split; [simpl in S1; lia|].
  repeat constructor.
  - apply rule_fresh_keeps, rule_liquidity_keeps, rule_connected_keeps,
      rule_concentration_keeps, rule_holder_count_keeps, rule_activity_keeps,
      rule_age_keeps, rule_created_keeps, rule_creator_hold_keeps, I1.
  - apply rule_fresh_keeps, rule_liquidity_keeps, rule_connected_keeps,
      rule_concentration_keeps, rule_holder_count_keeps, rule_activity_keeps,
      rule_age_keeps, rule_created_keeps, I2.
  - apply rule_fresh_keeps, rule_liquidity_keeps, rule_connected_keeps,
      rule_concentration_keeps, I6.
  - apply rule_fresh_keeps, rule_liquidity_keeps, rule_connected_keeps, I7.
  - apply rule_fresh_keeps, I9.
Qed.

End ScenarioA.

(** C8 (scenario A). With mint authority active, a creator share of 0,
    2 holders, a top-10 share of 100 and 500 USD of liquidity, the score
    is at most 10 (it is 0), the severity is "high", and the factors
    include [unlimited_mint], [creator_sold], [very_few_holders],
    [extreme_concentration] and [low_liquidity], whatever the transaction
    sample, the account age and the other fields are. *)
Theorem C8_scenario_A
    (mint : string) (ca : RiskScore.CreatorAnalysis)
    (txs : list Helius.HeliusTransaction)
    (hs : RiskScore.HolderStats) (tm : RiskScore.TokenMarketStats) :
  RiskScore.canMintUnlimited ca = Some true ->
  RiskScore.creatorHoldPercent hs = Some 0%float ->
  RiskScore.totalHolders hs = 2%float ->
  RiskScore.top10Percent hs = 100%float ->
  RiskScore.liquidityUsd tm = Some 500%float ->
  let r := RiskScore.computeRiskScore mint ca txs (Some hs) (Some tm) in
  RiskScore.score r <= 10 /\
  RiskScore.score r = 0 /\
  RiskScore.severity r = RiskScore.High /\
  Forall (fun i => In i (factorIds (RiskScore.factors r)))
    ["unlimited_mint"; "creator_sold"; "very_few_holders";
     "extreme_concentration"; "low_liquidity"].
Proof.
  intros Hm Hc Hn Ht Hl. cbv zeta.
  unfold RiskScore.computeRiskScore. cbv zeta.
  cbn [RiskScore.score RiskScore.severity RiskScore.factors].
  match goal with
  | |- context [RiskScore.tally ?c ?n _ _] =>
      destruct (tally_scenario_A c n hs tm Hm Hc Hn Ht Hl) as [Hs Hf];
      set (a := RiskScore.tally c n (Some hs) (Some tm)) in *
  end.
  assert (Hz : RiskScore.clamp (RiskScore.t_score a) = 0)
    by (unfold RiskScore.clamp; lia).
  rewrite Hz. repeat split; [lia | exact Hf].
Qed.

Lemma C8_witness :
  let r := RiskScore.computeRiskScore "mint"
             (Samples.creatorOf (Some true) (Some 200%float))
             [Samples.tagged "TRANSFER" 1]
             (Some (Samples.holders 2 100 (Some 0%float)))
             (Some (Samples.market (Some 500%float))) in
  RiskScore.score r <= 10 /\
  RiskScore.score r = 0 /\
  RiskScore.severity r = RiskScore.High /\
  Forall (fun i => In i (factorIds (RiskScore.factors r)))
    ["unlimited_mint"; "creator_sold"; "very_few_holders";
     "extreme_concentration"; "low_liquidity"].
Proof.
  apply (C8_scenario_A "mint"
           (Samples.creatorOf (Some true) (Some 200%float))
           [Samples.tagged "TRANSFER" 1]
           (Samples.holders 2 100 (Some 0%float))
           (Samples.market (Some 500%float))); reflexivity.
Defined.

(* ===================================================================== *)
(** * The two creation-event classifiers *)
(* ===================================================================== *)

Section Classifier.
Import JS.

Lemma startsWith_refl t : startsWith t t = true.
Proof.
  induction t as [|c t IH]; simpl; [reflexivity|].
  now rewrite Ascii.eqb_refl.
Qed.

Lemma startsWith_app_l t p q : startsWith t (p ++ q) = true -> startsWith t p = true.
Proof.
  revert t. induction p as [|a p IH]; intros t H; simpl in *; [reflexivity|].
  destruct t as [|b t]; [discriminate|].
  apply andb_true_iff in H as [Hab H]. rewrite Hab. simpl. now apply IH.
Qed.

Lemma startsWith_trans t p n :
  startsWith t p = true -> startsWith p n = true -> startsWith t n = true.
Proof.
  revert t p. induction n as [|c n IH]; intros t p Htp Hpn; simpl in *.
  - reflexivity.
  - destruct p as [|b p]; [discriminate|].
    destruct t as [|a t]; [discriminate|]. simpl in Htp.
    apply andb_true_iff in Htp as [Hba Htp].
    apply andb_true_iff in Hpn as [Hcb Hpn].
    apply Ascii.eqb_eq in Hba, Hcb. subst.
    rewrite Ascii.eqb_refl. simpl. eapply IH; eassumption.
Qed.

Lemma includes_cons c t n : includes t n = true -> includes (String c t) n = true.
Proof. intros H. simpl. rewrite H. apply orb_true_r. Qed.

(** A string that starts with [p] includes whatever [p] includes. *)
Lemma startsWith_includes t p n :
  startsWith t p = true -> includes p n = true -> includes t n = true.
Proof.
  revert t. induction p as [|b p IH]; intros t Htp Hpn.
  - simpl in Hpn. rewrite orb_false_r in Hpn.
    destruct n; [|discriminate]. destruct t; reflexivity.
  - destruct t as [|a t]; [discriminate|].
    simpl in Htp. apply andb_true_iff in Htp as [Hba Htp].
    apply Ascii.eqb_eq in Hba. subst a.
    cbn [includes] in Hpn. apply orb_true_iff in Hpn as [Hpn|Hpn].
    + cbn [includes]. apply orb_true_iff. left.
      apply (startsWith_trans _ (String b p)); [|exact Hpn].
      simpl. now rewrite Ascii.eqb_refl.
    + apply includes_cons. now apply IH.
Qed.

Lemma matches_startsWith t p : matches t p = true -> startsWith t p = true.
Proof.
  unfold matches. intros H. apply orb_true_iff in H as [H|H].
  - apply String.eqb_eq in H. subst. apply startsWith_refl.
  - eapply startsWith_app_l, H.
Qed.

Lemma fallback_of_prefix t p :
  startsWith t p = true -> fallback p = true -> fallback t = true.
Proof.
  unfold fallback. intros Htp H.
  apply orb_true_iff in H as [H|H]; [apply orb_true_iff in H as [H|H]|].
  - now rewrite (startsWith_includes _ _ _ Htp H).
  - rewrite (startsWith_includes _ _ _ Htp H). now rewrite orb_true_r.
  - rewrite (startsWith_includes _ _ _ Htp H). now rewrite orb_true_r.
Qed.

(** Whenever every entry of a taxonomy contains one of the three
    fallback words, a taxonomy match implies the fallback. *)
Lemma taxonomy_implies_fallback (types : list string) t :
  forallb fallback types = true ->
  existsb (matches t) types = true -> fallback t = true.
Proof.
  intros Hall Hex. apply existsb_exists in Hex as (p & Hin & Hm).
  rewrite forallb_forall in Hall.
  eapply fallback_of_prefix; [apply matches_startsWith, Hm | now apply Hall].
Qed.

Lemma txLooksLikeTokenCreation_fallback tx :
  RiskScore.txLooksLikeTokenCreation tx =
  fallback (toUpperCase (nullish (Helius.type tx) "")).
Proof.
  unfold RiskScore.txLooksLikeTokenCreation. cbv zeta.
  set (t := toUpperCase _).
  fold (matches t). fold (fallback t).
  destruct (existsb (matches t) RiskScore.TOKEN_CREATION_TYPES) eqn:E.
  - symmetry. eapply taxonomy_implies_fallback; [|exact E]. reflexivity.
  - now destruct (fallback t).
Qed.

Lemma isCreationTx_fallback tx :
  Analyze.isCreationTx tx =
  fallback (toUpperCase (nullish (Helius.type tx) "")).
Proof.
  unfold Analyze.isCreationTx. cbv zeta.
  set (t := toUpperCase _).
  fold (matches t). fold (fallback t).
  destruct (existsb (matches t) Analyze.CREATION_TYPES) eqn:E.
  - symmetry. eapply taxonomy_implies_fallback; [|exact E]. reflexivity.
  - reflexivity.
Qed.

End Classifier.

(** C5. The scorer's classifier [txLooksLikeTokenCreation] and the
    collector's [isCreationTx] return the same boolean on every
    transaction, whatever its type tag is and also when it has none; the
    extra taxonomy entry CREATE_MASTER_EDITION of the scorer changes
    nothing, and the two agree on that tag in particular. *)
Theorem C5_classifiers_agree (tx : Helius.HeliusTransaction) :
  RiskScore.txLooksLikeTokenCreation tx = Analyze.isCreationTx tx.
Proof.
  now rewrite txLooksLikeTokenCreation_fallback, isCreationTx_fallback.
Qed.

(* ===================================================================== *)
(** * Wallets that received from the creator *)
(* ===================================================================== *)

Section ReceivedFromCreator.
Import JS Helius.

Variable creator : string.

(** Reading a key after one loop step: an entry already there wins. *)
Lemma record_lookup ts from to (m : gmap string float) k :
  record creator ts from to m !! k =
  match m !! k with
  | Some v => Some v
  | None => if paid creator from to k then Some ts else None
  end.
Proof.
  unfold record, paid.
  destruct from as [f|], to as [x|]; try (now destruct (m !! k)).
  destruct (String.eqb f creator && truthy (Some x)) eqn:E; simpl;
    [|now destruct (m !! k)].
  destruct (String.eqb x k) eqn:Exk.
  - apply String.eqb_eq in Exk. subst x.
    destruct (m !! k) eqn:Ek; [exact Ek|]. now rewrite lookup_insert_eq.
  - apply String.eqb_neq in Exk.
    destruct (m !! x) eqn:Ex; [now destruct (m !! k)|].
    rewrite lookup_insert_ne by exact Exk. now destruct (m !! k).
Qed.

Lemma fold_record_lookup {T} (fr to : T -> option string) ts
    (l : list T) (m : gmap string float) k :
  fold_left (fun m t => record creator ts (fr t) (to t) m) l m !! k =
  match m !! k with
  | Some v => Some v
  | None => if existsb (fun t => paid creator (fr t) (to t) k) l
            then Some ts else None
  end.
Proof.
  revert m. induction l as [|t l IH]; intros m; simpl.
  - now destruct (m !! k).
  - rewrite IH, record_lookup.
    destruct (m !! k); [reflexivity|].
    destruct (paid creator (fr t) (to t) k); reflexivity.
Qed.

Lemma visit_lookup (m : gmap string float) tx k :
  visit creator m tx !! k =
  match m !! k with
  | Some v => Some v
  | None => if paysTo creator k tx
            then Some (nullish (timestamp tx) 0%float) else None
  end.
Proof.
  unfold visit, paysTo. cbv zeta.
  destruct (nativeTransfers tx) as [nl|], (tokenTransfers tx) as [tl|]; simpl;
    rewrite ?fold_record_lookup; destruct (m !! k); try reflexivity;
    rewrite ?orb_false_r;
    repeat match goal with |- context [existsb ?f ?l] =>
             destruct (existsb f l); simpl end;
    reflexivity.
Qed.

Lemma fold_visit_lookup txs (m : gmap string float) k :
  fold_left (visit creator) txs m !! k =
  match m !! k with
  | Some v => Some v
  | None => firstInSample creator k txs
  end.
Proof.
  revert m. induction txs as [|tx txs IH]; intros m; simpl.
  - now destruct (m !! k).
  - rewrite IH, visit_lookup. unfold firstInSample. simpl.
    destruct (m !! k); [reflexivity|].
    destruct (paysTo creator k tx); reflexivity.
Qed.

(** What the function records for a recipient: the timestamp of the
    first transaction of the sample, in sample order, that pays it. *)
Lemma getWalletsReceivedFromCreator_lookup txs k :
  getWalletsReceivedFromCreator txs creator !! k = firstInSample creator k txs.
Proof.
  unfold getWalletsReceivedFromCreator.
  now rewrite fold_visit_lookup, lookup_empty.
Qed.

End ReceivedFromCreator.

(** C4. The claim asks for the earliest transfer's timestamp. On a
    newest-first sample in which the creator paid the same wallet at
    times 200 and 100, the function records 200, the first one met in
    sample order, and not the minimum 100. *)
Theorem C4_newest_first_sample_records_latest :
  let txs := [Samples.sends "creator" "holder" 200;
              Samples.sends "creator" "holder" 100] in
  Helius.getWalletsReceivedFromCreator txs "creator" !! "holder" = Some 200%float /\
  Helius.getWalletsReceivedFromCreator txs "creator" !! "holder" <> Some 100%float.
Proof.
  cbv zeta. rewrite getWalletsReceivedFromCreator_lookup.
  split; [reflexivity|discriminate].
Qed.

(* ===================================================================== *)
(** * Holder aggregation *)
(* ===================================================================== *)

Section HolderAggregation.
Import JS Helius Analyze.

Lemma mapGet_mapSet_eq m k v : mapGet (mapSet m k v) k = Some v.
Proof.
  induction m as [|[k' v'] m IH]; simpl.
  - now rewrite String.eqb_refl.
  - destruct (String.eqb k' k) eqn:E; simpl.
    + now rewrite String.eqb_refl.
    + now rewrite E.
Qed.

Lemma mapGet_mapSet_ne m k v k' : k <> k' -> mapGet (mapSet m k v) k' = mapGet m k'.
Proof.
  intros Hne. induction m as [|[k0 v0] m IH]; simpl.
  - apply String.eqb_neq in Hne. now rewrite Hne.
  - destruct (String.eqb k0 k) eqn:E; simpl.
    + apply String.eqb_eq in E. subst k0.
      apply String.eqb_neq in Hne. now rewrite Hne.
    + now rewrite IH.
Qed.

Lemma mapSet_keys_in m k v x :
  In x (map fst (mapSet m k v)) <-> x = k \/ In x (map fst m).
Proof.
  induction m as [|[k0 v0] m IH]; simpl.
  - intuition.
  - destruct (String.eqb k0 k) eqn:E; simpl.
    + apply String.eqb_eq in E. subst k0. intuition.
    + rewrite IH. intuition.
Qed.

Lemma mapSet_NoDup m k v : List.NoDup (map fst m) -> List.NoDup (map fst (mapSet m k v)).
Proof.
  induction m as [|[k0 v0] m IH]; simpl; intros Hnd.
  - constructor; [intros []|constructor].
  - inversion Hnd as [|? ? Hnin Hnd']; subst.
    destruct (String.eqb k0 k) eqn:E; simpl.
    + apply String.eqb_eq in E. subst k0. now constructor.
    + constructor; [|now apply IH].
      rewrite mapSet_keys_in. intros [->|Hin]; [|contradiction].
      now rewrite String.eqb_refl in E.
Qed.

(** With distinct keys, membership of a pair is a lookup. *)
Lemma mapGet_In m k v : List.NoDup (map fst m) -> (In (k, v) m <-> mapGet m k = Some v).
Proof.
  induction m as [|[k0 v0] m IH]; simpl; intros Hnd.
  - split; [intros []|discriminate].
  - inversion Hnd as [|? ? Hnin Hnd']; subst.
    destruct (String.eqb k0 k) eqn:E.
    + apply String.eqb_eq in E. subst k0. split.
      * intros [H|H]; [congruence|].
        exfalso. apply Hnin. change k with (fst (k, v)). now apply in_map.
      * intros H. left. congruence.
    + apply String.eqb_neq in E. rewrite <- (IH Hnd'). split.
      * intros [H|H]; [congruence|exact H].
      * intros H. now right.
Qed.

Lemma owns_false_total o l : o <> "" -> owns o l = false -> ownedTotal o l = 0.
Proof.
  intros Hne. unfold owns. apply String.eqb_neq in Hne. rewrite Hne. simpl.
  induction l as [|a l IH]; simpl; [reflexivity|].
  destruct (String.eqb (owner a) o); simpl; [discriminate|exact IH].
Qed.

Lemma mergeByOwner_spec l : forall m m',
  mergeByOwner l m = Ok m' ->
  List.NoDup (map fst m) ->
  List.NoDup (map fst m') /\ forall o, mapGet m' o = merged (mapGet m o) o l.
Proof.
  induction l as [|a l IH]; intros m m' Hrun Hnd.
  - simpl in Hrun. injection Hrun as <-. split; [exact Hnd|].
    intros o. unfold merged, owns. simpl. now rewrite andb_false_r.
  - simpl in Hrun. unfold addAccount in Hrun.
    destruct (owner a) as [|c o'] eqn:Eo.
    + (* empty owner: skipped *)
      simpl in Hrun. destruct (IH _ _ Hrun Hnd) as [Hnd' Hget].
      split; [exact Hnd'|]. intros o. rewrite Hget.
      unfold merged, owns. simpl. rewrite Eo.
      destruct o as [|c0 o0]; simpl; reflexivity.
    + set (k := String c o') in *.
      destruct (BigInt (amount a)) as [amt|msg] eqn:Eamt; [|discriminate].
      simpl in Hrun.
      destruct (IH _ _ Hrun (mapSet_NoDup _ _ _ Hnd)) as [Hnd' Hget].
      split; [exact Hnd'|]. intros o. rewrite Hget.
      assert (Hamt : amountOf a = amt) by (unfold amountOf; now rewrite Eamt).
      destruct (String.eqb k o) eqn:Eko.
      * apply String.eqb_eq in Eko. subst o.
        rewrite mapGet_mapSet_eq.
        assert (Hk : k <> "") by (subst k; discriminate).
        unfold merged. simpl.
        assert (Ho : owns k (a :: l) = true).
        { unfold owns. simpl. rewrite Eo, String.eqb_refl. reflexivity. }
        rewrite Ho. rewrite Eo, String.eqb_refl, Hamt.
        destruct (owns k l) eqn:El; simpl.
        -- f_equal. lia.
        -- rewrite (owns_false_total _ _ Hk El). f_equal. lia.
      * pose proof Eko as Hne. apply String.eqb_neq in Hne.
        rewrite (mapGet_mapSet_ne _ _ _ _ Hne).
        unfold merged, owns. simpl. rewrite Eo. fold k. rewrite Eko. simpl.
        reflexivity.
Qed.

Lemma insertDesc_perm x l : Permutation (insertDesc x l) (x :: l).
Proof.
  induction l as [|y l IH]; simpl; [reflexivity|].
  destruct (snd x <? snd y)%Z; [|reflexivity].
  rewrite IH. apply perm_swap.
Qed.

Lemma sortDesc_perm l : Permutation (sortDesc l) l.
Proof.
  induction l as [|x l IH]; simpl; [reflexivity|].
  rewrite insertDesc_perm. now constructor.
Qed.

Lemma filter_keys_NoDup (f : string * Z -> bool) l :
  List.NoDup (map fst l) -> List.NoDup (map fst (List.filter f l)).
Proof.
  induction l as [|x l IH]; simpl; intros Hnd; [constructor|].
  inversion Hnd as [|? ? Hnin Hnd']; subst.
  destruct (f x); simpl; [|now apply IH].
  constructor; [|now apply IH].
  intros Hin. apply Hnin. apply in_map_iff in Hin as (e & He & Hin).
  apply filter_In in Hin as [Hin _]. apply in_map_iff. eauto.
Qed.

Lemma rankHolders_In byOwner o v :
  In (o, v) (rankHolders byOwner) <-> In (o, v) byOwner /\ 0 < v.
Proof.
  unfold rankHolders. split.
  - intros H. apply (Permutation_in _ (sortDesc_perm _)) in H.
    apply filter_In in H as [H Hv]. simpl in Hv. split; [exact H|lia].
  - intros [H Hv]. apply (Permutation_in _ (Permutation_sym (sortDesc_perm _))).
    apply filter_In. split; [exact H|]. simpl. apply Z.ltb_lt. exact Hv.
Qed.

Lemma rankHolders_NoDup byOwner :
  List.NoDup (map fst byOwner) -> List.NoDup (map fst (rankHolders byOwner)).
Proof.
  intros Hnd. unfold rankHolders.
  eapply Permutation_NoDup.
  - apply Permutation_map, Permutation_sym, sortDesc_perm.
  - now apply filter_keys_NoDup.
Qed.

Lemma rankHolders_positive byOwner :
  Forall (fun e => 0 < snd e) (rankHolders byOwner).
Proof.
  apply List.Forall_forall. intros [o v] H.
  apply rankHolders_In in H. simpl. tauto.
Qed.

Lemma fold_left_amounts l acc :
  fold_left (fun s (e : string * Z) => s + snd e) l acc =
  acc + fold_right (fun e s => snd e + s) 0 l.
Proof.
  revert acc. induction l as [|x l IH]; intros acc; simpl; [lia|].
  rewrite IH. lia.
Qed.

Lemma sumAmounts_fold_right l :
  sumAmounts l = fold_right (fun e s => snd e + s) 0 l.
Proof. unfold sumAmounts. now rewrite fold_left_amounts. Qed.

(** Truncation loses less than one hundredth of a percent. *)
Lemma basisPoints_bounds v total :
  0 <= v -> 0 < total ->
  basisPoints v total * total <= v * 10000 < (basisPoints v total + 1) * total.
Proof.
  intros Hv Ht. unfold basisPoints.
  rewrite Z.quot_div_nonneg by lia.
  pose proof (Z.mul_div_le (v * 10000) total Ht).
  pose proof (Z.mul_succ_div_gt (v * 10000) total Ht).
  lia.
Qed.

Lemma sumBasisPoints_bounds l total :
  Forall (fun e => 0 < snd e) l -> 0 < total ->
  sumBasisPoints l total * total <= 10000 * sumAmounts l /\
  10000 * sumAmounts l <=
    sumBasisPoints l total * total + Z.of_nat (length l) * (total - 1).
Proof.
  intros Hpos Ht. rewrite sumAmounts_fold_right.
  induction Hpos as [|[o v] l Hv _ IH]; simpl fold_right; simpl sumBasisPoints.
  - simpl. lia.
  - simpl in Hv.
    pose proof (basisPoints_bounds v total ltac:(lia) Ht) as Hb. simpl snd.
    rewrite length_cons, Nat2Z.inj_succ.
    set (q := basisPoints v total) in *.
    set (b := sumBasisPoints l total) in *.
    set (S := fold_right _ 0 l) in *.
    nia.
Qed.

Lemma element_le_sum (l : list (string * Z)) e :
  Forall (fun x => 0 < snd x) l -> In e l -> snd e <= sumAmounts l.
Proof.
  intros Hpos Hin. rewrite sumAmounts_fold_right.
  induction Hpos as [|x l Hx Hl IH]; [contradiction|]. simpl.
  assert (0 <= fold_right (fun (y : string * Z) s => snd y + s) 0 l).
  { clear -Hl. induction Hl as [|y l Hy _ IH']; simpl; lia. }
  destruct Hin as [->|Hin]; [lia|]. specialize (IH Hin). lia.
Qed.

Lemma basisPoints_range v total :
  0 <= v <= total -> 0 < total -> 0 <= basisPoints v total <= 10000.
Proof.
  intros Hv Ht. unfold basisPoints. rewrite Z.quot_div_nonneg by lia.
  split; [apply Z.div_pos; lia|].
  apply Z.div_le_upper_bound; lia.
Qed.

(** Every quotient [Number(q) / 100] for [q] from 0 to 10000, evaluated:
    it is finite and off [q] hundredths by at most one part in 2^53. *)
Lemma percent_near q :
  0 <= q <= 10000 ->
  nearHundredths q (PrimFloat.div (Number_of_Z q) 100) = true.
Proof.
  intros Hq.
  assert (Hall : forallb (fun k => nearHundredths (Z.of_nat k)
                            (PrimFloat.div (Number_of_Z (Z.of_nat k)) 100))
                         (seq 0 (Z.to_nat 10001)) = true)
    by (vm_compute; reflexivity).
  rewrite forallb_forall in Hall. specialize (Hall (Z.to_nat q)).
  rewrite Z2Nat.id in Hall by lia. apply Hall. apply in_seq. lia.
Qed.

Lemma near_bounds q p :
  nearHundredths q p = true ->
  isFinite p = true /\
  (Qabs (exact p - inject_Z q / 100)
     <= inject_Z q / 100 * (1 # 9007199254740992))%Q /\
  (inject_Z q / 100 * (1 - (1 # 9007199254740992)) <= exact p
   /\ exact p <= inject_Z q / 100 * (1 + (1 # 9007199254740992)))%Q.
Proof.
  unfold nearHundredths. intros H. apply andb_true_iff in H as [Hf H].
  split; [exact Hf|]. apply Qle_bool_iff in H. split; [exact H|].
  apply Qabs_Qle_condition in H. destruct H as [H1 H2].
  split; lra.
Qed.

Lemma percentOf_near v total :
  0 <= v <= total -> 0 < total ->
  nearHundredths (basisPoints v total) (percentOf v total) = true.
Proof.
  intros Hv Ht. unfold percentOf. apply percent_near.
  now apply basisPoints_range.
Qed.

Lemma sumExact_bounds l total :
  Forall (fun e => 0 < snd e <= total) l -> 0 < total ->
  (inject_Z (sumBasisPoints l total) / 100 * (1 - (1 # 9007199254740992))
     <= sumExact (percents l total)
   /\ sumExact (percents l total)
     <= inject_Z (sumBasisPoints l total) / 100 * (1 + (1 # 9007199254740992)))%Q.
Proof.
  intros Hall Ht. induction Hall as [|[o v] l Hv _ IH].
  - change (sumBasisPoints [] total) with 0.
    change (sumExact (percents [] total)) with 0%Q.
    change (inject_Z 0) with 0%Q.
    unfold Qdiv. change (/ 100)%Q with (1 # 100)%Q. split; lra.
  - simpl in Hv.
    change (sumBasisPoints ((o, v) :: l) total)
      with (basisPoints v total + sumBasisPoints l total).
    change (sumExact (percents ((o, v) :: l) total))
      with (exact (percentOf v total) + sumExact (percents l total))%Q.
    pose proof (inject_Z_plus (basisPoints v total) (sumBasisPoints l total))
      as Hplus.
    destruct (near_bounds _ _ (percentOf_near v total ltac:(lia) Ht))
      as (_ & _ & H1 & H2).
    destruct IH as [IH1 IH2].
    rewrite Hplus. unfold Qdiv in *. change (/ 100)%Q with (1 # 100)%Q in *.
    split; lra.
Qed.

(** The shares of all the holders add up to 100 within one hundredth
    per holder: the hundredths add up to an integer above
    [10000 - n], which leaves room for the rounding of the divisions. *)
Lemma percents_total sorted :
  Forall (fun e => 0 < snd e) sorted -> 0 < sumAmounts sorted ->
  let total := sumAmounts sorted in
  let n := Z.of_nat (length sorted) in
  (100 - inject_Z n / 100 < sumExact (percents sorted total)
   /\ sumExact (percents sorted total) < 100 + inject_Z n / 100)%Q.
Proof.
  intros Hpos Ht. cbv zeta.
  set (total := sumAmounts sorted) in *. set (n := Z.of_nat (length sorted)).
  assert (Hn : 1 <= n).
  { unfold n. destruct sorted; [|simpl length; lia].
    unfold total, sumAmounts in Ht. simpl in Ht. lia. }
  assert (Hle : Forall (fun e => 0 < snd e <= total) sorted).
  { apply List.Forall_forall. intros e He. split.
    - rewrite List.Forall_forall in Hpos. now apply Hpos.
    - now apply element_le_sum. }
  destruct (sumExact_bounds sorted total Hle Ht) as [H1 H2].
  destruct (sumBasisPoints_bounds sorted total Hpos Ht) as [Hb1 Hb2].
  fold total in Hb1, Hb2. fold n in Hb2.
  set (S := sumBasisPoints sorted total) in *.
  assert (HS : 10000 - n + 1 <= S <= 10000) by nia.
  assert (HS1 : (inject_Z 10001 <= inject_Z (S + n))%Q)
    by (rewrite <- Zle_Qle; lia).
  assert (HS2 : (inject_Z S <= inject_Z 10000)%Q) by (rewrite <- Zle_Qle; lia).
  assert (Hn1 : (inject_Z 1 <= inject_Z n)%Q) by (rewrite <- Zle_Qle; lia).
  rewrite inject_Z_plus in HS1.
  change (inject_Z 10001) with 10001%Q in *.
  change (inject_Z 10000) with 10000%Q in *. change (inject_Z 1) with 1%Q in *.
  unfold Qdiv in *. change (/ 100)%Q with (1 # 100)%Q in *.
  split; lra.
Qed.

(** The loop throws exactly when it meets a malformed account. *)
Lemma mergeByOwner_throws l : forall m,
  (exists message, mergeByOwner l m = Throw message) <->
  exists a, In a l /\ malformed a.
Proof.
  induction l as [|a l IH]; intros m; simpl.
  - split; [intros [msg H]; discriminate|intros (a & [] & _)].
  - unfold addAccount, malformed. destruct (owner a) as [|c o] eqn:Eo.
    + simpl. rewrite IH. split.
      * intros (b & Hb & Hm). exists b. split; [now right|exact Hm].
      * intros (b & [<-|Hb] & Hne & Hm).
        -- rewrite Eo in Hne. now contradiction Hne.
        -- exists b. split; [exact Hb|]. split; assumption.
    + destruct (BigInt (amount a)) as [amt|msg] eqn:Ea; simpl.
      * rewrite IH. split.
        -- intros (b & Hb & Hm). exists b. split; [now right|exact Hm].
        -- intros (b & [<-|Hb] & Hne & msg & Hm).
           ++ rewrite Ea in Hm. discriminate.
           ++ exists b. split; [exact Hb|]. split; [exact Hne|eauto].
      * split; [|intros _; eauto].
        intros _. exists a. split; [now left|].
        split; [rewrite Eo; discriminate|eauto].
Qed.

(** With a positive ranked total the handler returns a distribution:
    the total as the exact integer sum and the first ten ranked holders,
    each with its share. *)
Lemma holderDistribution_returns fetched creatorAddress creatorTxsDesc byOwner :
  mergeByOwner (token_accounts fetched) [] = Ok byOwner ->
  0 < sumAmounts (rankHolders byOwner) ->
  exists hs,
    holderDistribution (Ok fetched) creatorAddress creatorTxsDesc = Some hs /\
    RiskScore.totalSupplyRaw hs = sumAmounts (rankHolders byOwner) /\
    RiskScore.topHolders hs
      = map (fun e => RiskScore.TopHolder.mk (fst e) (snd e)
                        (percentOf (snd e) (sumAmounts (rankHolders byOwner))))
            (take 10 (rankHolders byOwner)).
Proof.
  intros Hrun Ht.
  unfold holderDistribution, tryCatch, mbind, result_bind.
  rewrite Hrun. cbv zeta.
  assert (Hlen : (0 <? length (rankHolders byOwner))%nat = true).
  { apply Nat.ltb_lt. destruct (rankHolders byOwner); [|simpl; lia].
    unfold sumAmounts in Ht. simpl in Ht. lia. }
  apply Z.ltb_lt in Ht. rewrite Ht, Hlen. simpl.
  eexists. split; [reflexivity|]. split; reflexivity.
Qed.

(** What a returned distribution is made of: the merged map, ranked. *)
Lemma holderDistribution_Some fetched creatorAddress creatorTxsDesc hs :
  holderDistribution (Ok fetched) creatorAddress creatorTxsDesc = Some hs ->
  exists byOwner,
    mergeByOwner (token_accounts fetched) [] = Ok byOwner /\
    let sorted := rankHolders byOwner in
    0 < sumAmounts sorted /\
    RiskScore.totalSupplyRaw hs = sumAmounts sorted /\
    RiskScore.totalHolders hs = Number_of_Z (Z.of_nat (length sorted)) /\
    RiskScore.top10Percent hs
      = percentOf (sumAmounts (take 10 sorted)) (sumAmounts sorted) /\
    RiskScore.topHolders hs
      = map (fun e => RiskScore.TopHolder.mk (fst e) (snd e)
                        (percentOf (snd e) (sumAmounts sorted)))
            (take 10 sorted).
Proof.
  unfold holderDistribution, tryCatch, mbind, result_bind.
  destruct (mergeByOwner (token_accounts fetched) []) as [byOwner|msg];
    [|discriminate].
  cbv zeta.
  destruct (0 <? sumAmounts (rankHolders byOwner))%Z eqn:Et; [|discriminate].
  destruct (0 <? length (rankHolders byOwner))%nat; [|discriminate].
  simpl. intros H. injection H as <-.
  exists byOwner. split; [reflexivity|]. cbv zeta. simpl.
  apply Z.ltb_lt in Et. repeat split; try reflexivity. exact Et.
Qed.

End HolderAggregation.

Section HolderShares.
Import JS Helius Analyze.

(** The ranking in terms of the accounts: one entry per owner with a
    positive merged balance. *)
Lemma ranked_iff accounts byOwner :
  mergeByOwner accounts [] = Ok byOwner ->
  forall o v, In (o, v) (rankHolders byOwner) <->
              owns o accounts = true /\ v = ownedTotal o accounts /\ 0 < v.
Proof.
  intros Hrun o v.
  destruct (mergeByOwner_spec _ [] byOwner Hrun (List.NoDup_nil _))
    as [Hnd Hget].
  rewrite rankHolders_In, (mapGet_In _ _ _ Hnd), Hget. unfold merged. simpl.
  destruct (owns o accounts); split.
  - intros [H Hv]. injection H as <-.
    split; [reflexivity|split; [lia|exact Hv]].
  - intros (_ & -> & Hv). split; [f_equal; lia|exact Hv].
  - intros [H _]. discriminate.
  - intros (H & _). discriminate.
Qed.

(** The loop completes when no owned account carries an amount that
    [BigInt] rejects. *)
Lemma mergeByOwner_completes accounts :
  (forall a, In a accounts -> ~ malformed a) ->
  exists byOwner, mergeByOwner accounts [] = Ok byOwner.
Proof.
  intros Hok. destruct (mergeByOwner accounts []) as [byOwner|msg] eqn:Hrun;
    [eauto|].
  exfalso. assert (Hbad : exists a, In a accounts /\ malformed a)
    by (apply (mergeByOwner_throws accounts []); eauto).
  destruct Hbad as (a & Hin & Hm). exact (Hok a Hin Hm).
Qed.

End HolderShares.

(** C7. For every list of fetched token accounts in which every owned
    account carries an amount that parses and some owner has a positive
    balance: the aggregation loop completes; the ranking has one entry
    per owner (accounts of one owner are merged first) carrying the exact
    integer sum of the amounts of its accounts; the total is positive and
    the handler returns a distribution with that total, whose top holders
    are the first ten of the ranking, each with its share (all the
    holders when there are at most ten). The share of a holder,
    [Number(amount * 10000n / total) / 100], is the binary64 value of the
    truncated hundredths [q = floor(amount * 10000 / total)] divided by
    100: finite, within one part in 2^53 of [q / 100], and [q / 100]
    falls short of the exact share by less than one hundredth. The shares
    of all the holders, summed exactly, differ from 100 by less than 0.01
    per holder. *)
Theorem C7_holder_aggregation
    (fetched : Analyze.TokenAccounts) (creatorAddress : string)
    (creatorTxsDesc : list Helius.HeliusTransaction) :
  let accounts := Analyze.token_accounts fetched in
  (forall a, In a accounts -> ~ malformed a) ->
  (exists o, owns o accounts = true /\ 0 < ownedTotal o accounts) ->
  exists byOwner,
    Analyze.mergeByOwner accounts [] = JS.Ok byOwner /\
    let sorted := Analyze.rankHolders byOwner in
    let total := Analyze.sumAmounts sorted in
    let n := Z.of_nat (length sorted) in
    List.NoDup (map fst sorted) /\
    (forall o v, In (o, v) sorted <->
                 owns o accounts = true /\ v = ownedTotal o accounts /\ 0 < v) /\
    0 < total /\
    (exists hs,
       Analyze.holderDistribution (JS.Ok fetched) creatorAddress creatorTxsDesc
         = Some hs /\
       RiskScore.totalSupplyRaw hs = total /\
       RiskScore.topHolders hs
         = map (fun e => RiskScore.TopHolder.mk (fst e) (snd e)
                           (Analyze.percentOf (snd e) total))
               (take 10 sorted) /\
       ((length sorted <= 10)%nat ->
        map RiskScore.TopHolder.percent (RiskScore.topHolders hs)
          = percents sorted total)) /\
    (forall o v, In (o, v) sorted ->
       let q := Analyze.basisPoints v total in
       q * total <= v * 10000 < (q + 1) * total /\
       isFinite (Analyze.percentOf v total) = true /\
       (Qabs (exact (Analyze.percentOf v total) - inject_Z q / 100)
          <= inject_Z q / 100 * (1 # 9007199254740992))%Q) /\
    (100 - inject_Z n / 100 < sumExact (percents sorted total)
     /\ sumExact (percents sorted total) < 100 + inject_Z n / 100)%Q.
Proof.
  cbv zeta. intros Hok (o0 & Hown & Hpos0).
  destruct (mergeByOwner_completes _ Hok) as [byOwner Hrun].
  exists byOwner. split; [exact Hrun|].
  destruct (mergeByOwner_spec _ [] byOwner Hrun (List.NoDup_nil _))
    as [Hnd _].
  pose proof (ranked_iff _ _ Hrun) as Hiff.
  set (accounts := Analyze.token_accounts fetched) in *.
  set (sorted := Analyze.rankHolders byOwner) in *.
  set (total := Analyze.sumAmounts sorted) in *.
  assert (Htotal : 0 < total).
  { assert (Hin : In (o0, ownedTotal o0 accounts) sorted)
      by (apply Hiff; repeat split; assumption).
    pose proof (element_le_sum sorted _ (rankHolders_positive byOwner) Hin) as Hle.
    simpl in Hle. fold total in Hle. lia. }
  split; [now apply rankHolders_NoDup|]. split; [exact Hiff|].
  split; [exact Htotal|]. split; [|split].
  - destruct (holderDistribution_returns fetched creatorAddress creatorTxsDesc
                byOwner Hrun Htotal) as (hs & Hhs & Htot & Htop).
    exists hs. split; [exact Hhs|]. split; [exact Htot|]. split; [exact Htop|].
    intros Hshort. rewrite Htop. fold sorted. fold total.
    rewrite firstn_all2 by exact Hshort. unfold percents.
    rewrite map_map. reflexivity.
  - intros o v Hin.
    pose proof (element_le_sum sorted (o, v) (rankHolders_positive byOwner) Hin)
      as Hle. simpl in Hle. fold total in Hle.
    apply rankHolders_In in Hin as [_ Hv].
    split; [apply basisPoints_bounds; [lia|exact Htotal]|].
    destruct (near_bounds _ _ (percentOf_near v total ltac:(lia) Htotal))
      as (Hf & Hq & _).
    split; [exact Hf|exact Hq].
  - exact (percents_total sorted (rankHolders_positive byOwner) Htotal).
Qed.

(* ===================================================================== *)
(** * The analyze route *)
(* ===================================================================== *)

Section Route.
Import JS Helius RiskScore Analyze.

Lemma GET_accepted up request mint :
  accepted request mint ->
  GET up request =
  tryCatch (analyze up mint) (fun message => Json (statusOf message) message).
Proof.
  intros (Hm & Ht & Hv). unfold GET. cbv zeta. rewrite <- Hm, Ht, Hv.
  reflexivity.
Qed.

(** The request succeeds once the mint-authority step, the creator
    resolution and both creator-history fetches return. *)
Lemma GET_result up request mint c txs creationTx creatorAddress asc desc :
  accepted request mint -> configured up ->
  mintAuthority up mint (snd (assetMetadata up mint)) = Ok c ->
  getTransactionsByAddress up mint Asc 1 = Ok txs ->
  creationOf txs = Some (creationTx, creatorAddress) ->
  getTransactionsByAddress up creatorAddress Asc 1 = Ok asc ->
  getTransactionsByAddress up creatorAddress Desc 100 = Ok desc ->
  GET up request =
  JsonResult
    (assemble up mint (fst (fst (assetMetadata up mint)))
       (snd (fst (assetMetadata up mint))) c creationTx creatorAddress asc desc).
Proof.
  intros Ha Hc Hma Htx Hcr Hasc Hdesc.
  rewrite (GET_accepted up request mint Ha).
  unfold analyze, configured in *. rewrite Hc. cbv zeta. simpl negb. cbv iota.
  rewrite Hma. simpl. rewrite Htx. simpl. rewrite Hcr.
  unfold promiseAll. rewrite Hasc, Hdesc. reflexivity.
Qed.

(** A throw of either creator-history fetch reaches the outer [catch]. *)
Lemma GET_history_throws up request mint c txs creationTx creatorAddress message :
  accepted request mint -> configured up ->
  mintAuthority up mint (snd (assetMetadata up mint)) = Ok c ->
  getTransactionsByAddress up mint Asc 1 = Ok txs ->
  creationOf txs = Some (creationTx, creatorAddress) ->
  promiseAll (ascSettlesFirst up)
             (getTransactionsByAddress up creatorAddress Asc 1)
             (getTransactionsByAddress up creatorAddress Desc 100)
    = Throw message ->
  GET up request = Json (statusOf message) message.
Proof.
  intros Ha Hc Hma Htx Hcr Hall.
  rewrite (GET_accepted up request mint Ha).
  unfold analyze, configured in *. rewrite Hc. cbv zeta. simpl negb. cbv iota.
  rewrite Hma. simpl. rewrite Htx. simpl. rewrite Hcr, Hall. reflexivity.
Qed.

Lemma GET_not_found up request mint c txs :
  accepted request mint -> configured up ->
  mintAuthority up mint (snd (assetMetadata up mint)) = Ok c ->
  getTransactionsByAddress up mint Asc 1 = Ok txs ->
  creationOf txs = None ->
  GET up request =
  Json 404 "Could not determine token creator (no transaction history for this address)".
Proof.
  intros Ha Hc Hma Htx Hcr.
  rewrite (GET_accepted up request mint Ha).
  unfold analyze, configured in *. rewrite Hc. cbv zeta. simpl negb. cbv iota.
  rewrite Hma. simpl. rewrite Htx. simpl. rewrite Hcr. reflexivity.
Qed.

(** Without a creation transaction no result is ever returned, on any
    path through the handler. *)
Lemma GET_no_result_without_creator up request txs :
  getTransactionsByAddress up
    (nullish (trim <$> mintParam request) "") Asc 1 = Ok txs ->
  creationOf txs = None ->
  forall r, GET up request <> JsonResult r.
Proof.
  intros Htx Hcr r. unfold GET. cbv zeta.
  set (mint := nullish (trim <$> mintParam request) "") in *.
  destruct (truthy (Some mint)); simpl; [|discriminate].
  destruct (Utils.isValidSolanaAddress mint); simpl; [|discriminate].
  unfold analyze.
  destruct (truthy (trim <$> HELIUS_API_KEY up)); simpl; [|discriminate].
  destruct (mintAuthority up mint (snd (assetMetadata up mint))); simpl;
    [|discriminate].
  rewrite Htx. simpl. rewrite Hcr. simpl. discriminate.
Qed.

Lemma creationOf_None txs :
  creationOf txs = None <->
  txs = [] \/ exists tx rest, txs = tx :: rest /\ truthy (feePayer tx) = false.
Proof.
  unfold creationOf. destruct txs as [|tx rest].
  - split; [now left|reflexivity].
  - destruct (feePayer tx) as [[|c p]|] eqn:E; simpl; split;
      try discriminate; try reflexivity.
    + intros _. right. exists tx, rest. now rewrite E.
    + intros [H|(tx' & rest' & H & Hf)]; [discriminate|].
      injection H as <- <-. rewrite E in Hf. discriminate.
    + intros _. right. exists tx, rest. now rewrite E.
Qed.

End Route.

Section MintAuthority.
Import JS Helius RiskScore Analyze.

Lemma assetMetadata_authority up mint :
  snd (assetMetadata up mint) = structuredAuthority (getAsset up mint).
Proof.
  unfold assetMetadata, structuredAuthority.
  destruct (getAsset up mint) as [[a|]|msg]; simpl; try reflexivity.
  destruct (Asset.token_info a) as [info|]; simpl; [|reflexivity].
  destruct (TokenInfo.mint_authority info); reflexivity.
Qed.

Lemma getMintAuthoritySet_decodes json :
  getMintAuthoritySet (Ok json) = Ok (decodedAuthority json).
Proof.
  unfold getMintAuthoritySet, decodedAuthority, mbind, result_bind.
  destruct (error json); [reflexivity|].
  destruct (data json) as [buf|]; [|reflexivity].
  change (MINT_AUTHORITY_OPTION_OFFSET + 1)%nat with 11%nat.
  change MINT_AUTHORITY_OPTION_OFFSET with 10%nat.
  destruct (Nat.ltb_spec (length buf) 11) as [Hlt|Hge].
  - assert (H : nth_error buf 10 = None) by (apply nth_error_None; lia).
    now rewrite H.
  - rewrite (nth_error_nth' buf 0) by lia. reflexivity.
Qed.

(** What the handler ends up with for [canMintUnlimited], when the raw
    account exchange (if it is needed) returns. *)
Lemma mintAuthority_sources up mint :
  (structuredAuthority (getAsset up mint) = None ->
   exists json, getAccountInfo up mint = Ok json) ->
  mintAuthority up mint (snd (assetMetadata up mint)) =
  Ok match structuredAuthority (getAsset up mint) with
     | Some active => Some active
     | None =>
         match getAccountInfo up mint with
         | Ok json => decodedAuthority json
         | Throw _ => None
         end
     end.
Proof.
  intros Hraw. rewrite assetMetadata_authority. unfold mintAuthority.
  destruct (structuredAuthority (getAsset up mint)) as [b|]; [reflexivity|].
  destruct (Hraw eq_refl) as [json Hjson]. rewrite Hjson.
  apply getMintAuthoritySet_decodes.
Qed.

End MintAuthority.

(** C9. When the mint's earliest-transaction lookup returns an empty list,
    or a first transaction without fee payer, the handler answers 404 with
    the "could not determine token creator" error, and no [RiskResult].
    The first three hypotheses say that the execution gets to the lookup:
    a well-formed mint, a configured key, and a mint-authority step that
    did not throw. *)
Theorem C9_no_history_is_not_found
    (up : Analyze.Upstream) (request : Analyze.Request) (mint : string)
    (txs : list Helius.HeliusTransaction) :
  accepted request mint ->
  configured up ->
  (exists c, Analyze.mintAuthority up mint (snd (Analyze.assetMetadata up mint))
             = JS.Ok c) ->
  Analyze.getTransactionsByAddress up mint Analyze.Asc 1 = JS.Ok txs ->
  (txs = [] \/
   exists tx rest, txs = tx :: rest /\ JS.truthy (Helius.feePayer tx) = false) ->
  Analyze.GET up request =
    Analyze.Json 404
      "Could not determine token creator (no transaction history for this address)"
  /\ forall r, Analyze.GET up request <> Analyze.JsonResult r.
Proof.
  intros Ha Hc [c Hma] Htx Hnone.
  apply creationOf_None in Hnone.
  rewrite (GET_not_found up request mint c txs Ha Hc Hma Htx Hnone).
  split; [reflexivity|discriminate].
Qed.

Lemma C9_witness :
  let up := Samples.upstream (JS.Ok None) (JS.Ok (Samples.mintAccount 0))
              (JS.Ok []) (JS.Ok []) (JS.Ok []) in
  Analyze.GET up Samples.request =
    Analyze.Json 404
      "Could not determine token creator (no transaction history for this address)"
  /\ forall r, Analyze.GET up Samples.request <> Analyze.JsonResult r.
Proof.
  apply (C9_no_history_is_not_found
           (Samples.upstream (JS.Ok None) (JS.Ok (Samples.mintAccount 0))
              (JS.Ok []) (JS.Ok []) (JS.Ok []))
           Samples.request Samples.mintA []).
  - repeat split; reflexivity.
  - reflexivity.
  - eexists. reflexivity.
  - reflexivity.
  - left. reflexivity.
Defined.

(** C2, as stated, fails: the creator is resolved, the recent-sample
    fetch of the creator's history throws, and the request is answered
    with the error. *)
Lemma C2_history_failure_fails_request :
  let up := Samples.upstream (JS.Ok None) (JS.Ok (Samples.mintAccount 0))
              (JS.Ok [Samples.tagged "CREATE" 1690000000])
              (JS.Ok [Samples.tagged "TRANSFER" 1600000000])
              (JS.Throw "Helius API error 500: upstream failure") in
  Analyze.creationOf [Samples.tagged "CREATE" 1690000000]
    = Some (Samples.tagged "CREATE" 1690000000, "creator") /\
  Analyze.GET up Samples.request =
    Analyze.Json 500 "Helius API error 500: upstream failure" /\
  forall r, Analyze.GET up Samples.request <> Analyze.JsonResult r.
Proof.
  cbv zeta. split; [reflexivity|].
  assert (H : Analyze.GET
                (Samples.upstream (JS.Ok None) (JS.Ok (Samples.mintAccount 0))
                   (JS.Ok [Samples.tagged "CREATE" 1690000000])
                   (JS.Ok [Samples.tagged "TRANSFER" 1600000000])
                   (JS.Throw "Helius API error 500: upstream failure"))
                Samples.request
              = Analyze.Json 500 "Helius API error 500: upstream failure")
    by (vm_compute; reflexivity).
  rewrite H. split; [reflexivity|discriminate].
Qed.

(** C2, amended. Once the creator is resolved, the two creator-history
    fetches decide. If either throws, the request is answered with an
    error (status 401, 503 or 500 from the message): the error of the one
    that throws, and when both throw, of the one that settles first. If
    both return, a result is returned whatever the asset, holder, market
    and sibling lookups do; its sample count is the length of the recent
    sample (0 when empty); its age is [(now / 1000 - ts) / 86400] where
    [ts] is the timestamp of the earliest transaction or, without one,
    that of the creation transaction, and it is absent exactly when both
    are missing. *)
Theorem C2_creator_history_fetches
    (up : Analyze.Upstream) (request : Analyze.Request) (mint : string)
    (c : option bool) (txs : list Helius.HeliusTransaction)
    (creationTx : Helius.HeliusTransaction) (creatorAddress : string) :
  accepted request mint ->
  configured up ->
  Analyze.mintAuthority up mint (snd (Analyze.assetMetadata up mint)) = JS.Ok c ->
  Analyze.getTransactionsByAddress up mint Analyze.Asc 1 = JS.Ok txs ->
  Analyze.creationOf txs = Some (creationTx, creatorAddress) ->
  match Analyze.getTransactionsByAddress up creatorAddress Analyze.Asc 1,
        Analyze.getTransactionsByAddress up creatorAddress Analyze.Desc 100 with
  | JS.Ok asc, JS.Ok desc =>
      exists r,
        Analyze.GET up request = Analyze.JsonResult r /\
        RiskScore.totalTxCount (RiskScore.creator r)
          = JS.Number_of_Z (Z.of_nat (length desc)) /\
        match tx ← head asc; Helius.timestamp tx, Helius.timestamp creationTx with
        | Some ts, _ | None, Some ts =>
            RiskScore.accountAgeDays (RiskScore.creator r)
              = Some (PrimFloat.div
                        (PrimFloat.sub (PrimFloat.div (Analyze.Date_now up) 1000) ts)
                        86400)
        | None, None => RiskScore.accountAgeDays (RiskScore.creator r) = None
        end
  | JS.Throw message, JS.Ok _ | JS.Ok _, JS.Throw message =>
      Analyze.GET up request = Analyze.Json (Analyze.statusOf message) message
  | JS.Throw fromAsc, JS.Throw fromDesc =>
      let message := if Analyze.ascSettlesFirst up then fromAsc else fromDesc in
      Analyze.GET up request = Analyze.Json (Analyze.statusOf message) message
  end.
Proof.
  intros Ha Hc Hma Htx Hcr.
  destruct (Analyze.getTransactionsByAddress up creatorAddress Analyze.Asc 1)
    as [asc|m1] eqn:Hasc;
  destruct (Analyze.getTransactionsByAddress up creatorAddress Analyze.Desc 100)
    as [desc|m2] eqn:Hdesc.
  - eexists. split; [eapply GET_result; eassumption|].
    split; [reflexivity|].
    unfold Analyze.assemble. cbv zeta.
    cbn [RiskScore.creator RiskScore.accountAgeDays Analyze.withPreviousTokens
         RiskScore.computeRiskScore].
    destruct (tx ← head asc; Helius.timestamp tx) as [ts|];
      [reflexivity|].
    destruct (Helius.timestamp creationTx); reflexivity.
  - eapply GET_history_throws; try eassumption.
    now rewrite Hasc, Hdesc.
  - eapply GET_history_throws; try eassumption.
    now rewrite Hasc, Hdesc.
  - cbv zeta. eapply GET_history_throws; try eassumption.
    now rewrite Hasc, Hdesc.
Qed.

Lemma C2_witness :
  let up := Samples.upstream (JS.Throw "Helius getAsset error: Unknown")
              (JS.Ok (Samples.mintAccount 0))
              (JS.Ok [Samples.tagged "CREATE" 1690000000])
              (JS.Ok []) (JS.Ok []) in
  exists r,
    Analyze.GET up Samples.request = Analyze.JsonResult r /\
    RiskScore.totalTxCount (RiskScore.creator r) = JS.Number_of_Z 0 /\
    RiskScore.accountAgeDays (RiskScore.creator r)
      = Some (PrimFloat.div
                (PrimFloat.sub (PrimFloat.div 1700000000000 1000) 1690000000)
                86400).
Proof.
  apply (C2_creator_history_fetches
           (Samples.upstream (JS.Throw "Helius getAsset error: Unknown")
              (JS.Ok (Samples.mintAccount 0))
              (JS.Ok [Samples.tagged "CREATE" 1690000000])
              (JS.Ok []) (JS.Ok []))
           Samples.request Samples.mintA (Some false)
           [Samples.tagged "CREATE" 1690000000]
           (Samples.tagged "CREATE" 1690000000) "creator").
  - repeat split; reflexivity.
  - reflexivity.
  - reflexivity.
  - reflexivity.
  - reflexivity.
Defined.

(** C3, as stated, fails: the structured source fails (the asset call
    throws) and the result does not carry the state "unknown": the raw
    account decides, here "active". *)
Lemma C3_failed_metadata_falls_back :
  let up := Samples.upstream (JS.Throw "Helius getAsset error: Unknown")
              (JS.Ok (Samples.mintAccount 1))
              (JS.Ok [Samples.tagged "CREATE" 1690000000])
              (JS.Ok []) (JS.Ok []) in
  exists r,
    Analyze.GET up Samples.request = Analyze.JsonResult r /\
    RiskScore.canMintUnlimited (RiskScore.creator r) = Some true.
Proof.
  cbv zeta. eexists. split; [vm_compute; reflexivity|reflexivity].
Qed.

(** C3, amended. The structured asset metadata is preferred: with a
    [token_info] the state is active when [mint_authority] is a non-empty
    string other than "null", revoked otherwise. When the asset call
    throws or gives no [token_info], the raw mint account decides when its
    exchange returns: byte 10 equal to 1 is active, any other value is
    revoked, and an error reply, missing data or fewer than 11 bytes leave
    the state unknown ([canMintUnlimited] undefined). In each of these
    cases the request still returns a result, given the creator and its
    history. *)
Theorem C3_mint_authority_sources
    (up : Analyze.Upstream) (request : Analyze.Request) (mint : string)
    (txs : list Helius.HeliusTransaction)
    (creationTx : Helius.HeliusTransaction) (creatorAddress : string)
    (asc desc : list Helius.HeliusTransaction) :
  accepted request mint ->
  configured up ->
  Analyze.getTransactionsByAddress up mint Analyze.Asc 1 = JS.Ok txs ->
  Analyze.creationOf txs = Some (creationTx, creatorAddress) ->
  Analyze.getTransactionsByAddress up creatorAddress Analyze.Asc 1 = JS.Ok asc ->
  Analyze.getTransactionsByAddress up creatorAddress Analyze.Desc 100 = JS.Ok desc ->
  (structuredAuthority (Analyze.getAsset up mint) = None ->
   exists json, Analyze.getAccountInfo up mint = JS.Ok json) ->
  exists r,
    Analyze.GET up request = Analyze.JsonResult r /\
    RiskScore.canMintUnlimited (RiskScore.creator r) =
      match structuredAuthority (Analyze.getAsset up mint) with
      | Some active => Some active
      | None =>
          match Analyze.getAccountInfo up mint with
          | JS.Ok json => decodedAuthority json
          | JS.Throw _ => None
          end
      end.
Proof.
  intros Ha Hc Htx Hcr Hasc Hdesc Hraw.
  pose proof (mintAuthority_sources up mint Hraw) as Hma.
  eexists. split.
  - eapply GET_result; eassumption.
  - reflexivity.
Qed.

Lemma C3_witness :
  let up := Samples.upstream (JS.Throw "Helius getAsset error: Unknown")
              (JS.Ok {| Helius.error := false; Helius.data := Some [0; 0; 0] |})
              (JS.Ok [Samples.tagged "CREATE" 1690000000])
              (JS.Ok []) (JS.Ok []) in
  exists r,
    Analyze.GET up Samples.request = Analyze.JsonResult r /\
    RiskScore.canMintUnlimited (RiskScore.creator r) = None.
Proof.
  apply (C3_mint_authority_sources
           (Samples.upstream (JS.Throw "Helius getAsset error: Unknown")
              (JS.Ok {| Helius.error := false; Helius.data := Some [0; 0; 0] |})
              (JS.Ok [Samples.tagged "CREATE" 1690000000])
              (JS.Ok []) (JS.Ok []))
           Samples.request Samples.mintA
           [Samples.tagged "CREATE" 1690000000]
           (Samples.tagged "CREATE" 1690000000) "creator" [] []).
  - repeat split; reflexivity.
  - reflexivity.
  - reflexivity.
  - reflexivity.
  - reflexivity.
  - reflexivity.
  - intros _. eexists. reflexivity.
Defined.

Lemma C7_witness :
  exists byOwner,
    Analyze.mergeByOwner Samples.accounts [] = JS.Ok byOwner /\
    let sorted := Analyze.rankHolders byOwner in
    let total := Analyze.sumAmounts sorted in
    let n := Z.of_nat (length sorted) in
    List.NoDup (map fst sorted) /\
    (forall o v, In (o, v) sorted <->
                 owns o Samples.accounts = true /\
                 v = ownedTotal o Samples.accounts /\ 0 < v) /\
    0 < total /\
    (exists hs,
       Analyze.holderDistribution (JS.Ok Fixtures.fetched) "creator" [] = Some hs /\
       RiskScore.totalSupplyRaw hs = total /\
       RiskScore.topHolders hs
         = map (fun e => RiskScore.TopHolder.mk (fst e) (snd e)
                           (Analyze.percentOf (snd e) total))
               (take 10 sorted) /\
       ((length sorted <= 10)%nat ->
        map RiskScore.TopHolder.percent (RiskScore.topHolders hs)
          = percents sorted total)) /\
    (forall o v, In (o, v) sorted ->
       let q := Analyze.basisPoints v total in
       q * total <= v * 10000 < (q + 1) * total /\
       isFinite (Analyze.percentOf v total) = true /\
       (Qabs (exact (Analyze.percentOf v total) - inject_Z q / 100)
          <= inject_Z q / 100 * (1 # 9007199254740992))%Q) /\
    (100 - inject_Z n / 100 < sumExact (percents sorted total)
     /\ sumExact (percents sorted total) < 100 + inject_Z n / 100)%Q.
Proof.
  apply (C7_holder_aggregation Fixtures.fetched "creator" []).
  - intros a Hin [Hne [message Hm]]. simpl in Hin.
    repeat (destruct Hin as [<-|Hin]; [first [discriminate Hm|now apply Hne]|]).
    exact Hin.
  - exists "A". split; [reflexivity|]. vm_compute. reflexivity.
Defined.


(* ===================================================================== *)
(** * Further properties of the scorer *)
(* ===================================================================== *)

Section ScorerStructure.
Import JS RiskScore.

(** A rule decides from the evidence alone: on any tally it pushes what
    it pushes on its own. *)
Ltac uniform_rule :=
  unfold emitted, start; repeat case_match; split; simpl;
  rewrite ?app_nil_r; first [reflexivity | lia].

Lemma rule_emission_uniform ca a :
  pushes a (rule_emission ca a) (emitted (rule_emission ca)).
Proof. unfold rule_emission. uniform_rule. Qed.

Lemma rule_creator_hold_uniform hs a :
  pushes a (rule_creator_hold hs a) (emitted (rule_creator_hold hs)).
Proof. unfold rule_creator_hold. uniform_rule. Qed.

Lemma rule_created_uniform n a :
  pushes a (rule_created n a) (emitted (rule_created n)).
Proof. unfold rule_created. uniform_rule. Qed.

Lemma rule_age_uniform ca a :
  pushes a (rule_age ca a) (emitted (rule_age ca)).
Proof. unfold rule_age. uniform_rule. Qed.

Lemma rule_activity_uniform ca a :
  pushes a (rule_activity ca a) (emitted (rule_activity ca)).
Proof. unfold rule_activity. cbv zeta. uniform_rule. Qed.

Lemma rule_holder_count_uniform hs a :
  pushes a (rule_holder_count hs a) (emitted (rule_holder_count hs)).
Proof. unfold rule_holder_count. uniform_rule. Qed.

Lemma rule_concentration_uniform hs a :
  pushes a (rule_concentration hs a) (emitted (rule_concentration hs)).
Proof. unfold rule_concentration. uniform_rule. Qed.

Lemma rule_connected_uniform hs a :
  pushes a (rule_connected hs a) (emitted (rule_connected hs)).
Proof. unfold rule_connected. cbv zeta. uniform_rule. Qed.

Lemma rule_liquidity_uniform tm a :
  pushes a (rule_liquidity tm a) (emitted (rule_liquidity tm)).
Proof. unfold rule_liquidity. uniform_rule. Qed.

Lemma rule_fresh_uniform tm a :
  pushes a (rule_fresh tm a) (emitted (rule_fresh tm)).
Proof. unfold rule_fresh. cbv zeta. uniform_rule. Qed.

Lemma tally_perRule ca n hs tm :
  pushes start (tally ca n hs tm) (concat (perRule ca n hs tm)).
Proof.
  unfold tally, perRule. cbv zeta. fold start. simpl concat.
  rewrite app_nil_r.
  repeat (eapply pushes_trans;
          [first [ apply rule_emission_uniform | apply rule_creator_hold_uniform
                 | apply rule_created_uniform | apply rule_age_uniform
                 | apply rule_activity_uniform | apply rule_holder_count_uniform
                 | apply rule_concentration_uniform | apply rule_connected_uniform
                 | apply rule_liquidity_uniform ] |]).
  apply rule_fresh_uniform.
Qed.

Ltac shape_rule :=
  unfold shaped, emitted, start; repeat case_match; simpl;
  first [ left; reflexivity
        | right; eexists; split; [reflexivity | split; reflexivity] ].

Lemma rule_emission_shaped ca : shaped 1 (emitted (rule_emission ca)).
Proof. unfold rule_emission. shape_rule. Qed.

Lemma rule_creator_hold_shaped hs : shaped 2 (emitted (rule_creator_hold hs)).
Proof. unfold rule_creator_hold. shape_rule. Qed.

Lemma rule_created_shaped n : shaped 3 (emitted (rule_created n)).
Proof. unfold rule_created. shape_rule. Qed.

Lemma rule_age_shaped ca : shaped 4 (emitted (rule_age ca)).
Proof. unfold rule_age. shape_rule. Qed.

Lemma rule_activity_shaped ca : shaped 5 (emitted (rule_activity ca)).
Proof. unfold rule_activity. cbv zeta. shape_rule. Qed.

Lemma rule_holder_count_shaped hs : shaped 6 (emitted (rule_holder_count hs)).
Proof. unfold rule_holder_count. shape_rule. Qed.

Lemma rule_concentration_shaped hs : shaped 7 (emitted (rule_concentration hs)).
Proof. unfold rule_concentration. shape_rule. Qed.

Lemma rule_connected_shaped hs : shaped 8 (emitted (rule_connected hs)).
Proof. unfold rule_connected. cbv zeta. shape_rule. Qed.

Lemma rule_liquidity_shaped tm : shaped 9 (emitted (rule_liquidity tm)).
Proof. unfold rule_liquidity. shape_rule. Qed.

Lemma rule_fresh_shaped tm : shaped 10 (emitted (rule_fresh tm)).
Proof. unfold rule_fresh. cbv zeta. shape_rule. Qed.

Lemma perRule_shaped ca n hs tm : shapedFrom 1 (perRule ca n hs tm).
Proof.
  unfold perRule. simpl.
  repeat split;
    auto using rule_emission_shaped, rule_creator_hold_shaped,
      rule_created_shaped, rule_age_shaped, rule_activity_shaped,
      rule_holder_count_shaped, rule_concentration_shaped,
      rule_connected_shaped, rule_liquidity_shaped, rule_fresh_shaped.
Qed.

(** Lists produced by consecutive rules concatenate to a list whose rule
    indices increase strictly, with at most one factor per rule. *)
Lemma shapedFrom_concat ls : forall i,
  shapedFrom i ls ->
  StronglySorted Nat.lt (map rankOf (concat ls)) /\
  Forall (fun k => (i <= k < i + length ls)%nat) (map rankOf (concat ls)) /\
  (length (concat ls) <= length ls)%nat /\
  Forall (fun f => signAgrees f = true) (concat ls).
Proof.
  induction ls as [|fs rest IH]; intros i Hs; simpl.
  - repeat split; constructor.
  - destruct Hs as [Hfs Hrest].
    destruct (IH (S i) Hrest) as (Hsorted & Hrange & Hlen & Hsign).
    destruct Hfs as [->|(f & -> & Hrank & Hf)]; simpl.
    + repeat split; auto.
      eapply List.Forall_impl; [|exact Hrange]. simpl. intros k Hk. lia.
    + repeat split.
      * constructor; [exact Hsorted|].
        eapply List.Forall_impl; [|exact Hrange]. simpl. intros k Hk.
        rewrite Hrank. unfold Nat.lt. lia.
      * constructor; [rewrite Hrank; lia|].
        eapply List.Forall_impl; [|exact Hrange]. simpl. intros k Hk. lia.
      * lia.
      * constructor; assumption.
Qed.

Lemma StronglySorted_lt_NoDup (l : list nat) :
  StronglySorted Nat.lt l -> List.NoDup l.
Proof.
  induction 1 as [|x l _ IH Hall]; constructor; [|exact IH].
  intros Hin. rewrite List.Forall_forall in Hall.
  specialize (Hall x Hin). unfold Nat.lt in Hall. lia.
Qed.

Lemma NoDup_of_map {A B} (g : A -> B) (l : list A) :
  List.NoDup (map g l) -> List.NoDup l.
Proof.
  induction l as [|x l IH]; simpl; intros H; [constructor|].
  inversion H as [|? ? Hnin Hnd]; subst. constructor; [|now apply IH].
  intros Hin. apply Hnin. now apply in_map.
Qed.

(** The factor list of the result is the rule-by-rule concatenation. *)
Lemma computeRiskScore_factors mint ca txs hs tm :
  factors (computeRiskScore mint ca txs hs tm)
  = concat (perRule ca (createdCountOf txs) hs tm).
Proof.
  unfold computeRiskScore. cbv zeta. cbn [factors].
  match goal with
  | |- t_factors (tally ?c ?n hs tm) = _ =>
      destruct (tally_perRule c n hs tm) as [Hf _]; rewrite Hf
  end.
  reflexivity.
Qed.

Lemma computeRiskScore_score mint ca txs hs tm :
  score (computeRiskScore mint ca txs hs tm)
  = Z.max 0 (Z.min 100
      (50 + totalImpact (factors (computeRiskScore mint ca txs hs tm)))).
Proof.
  unfold computeRiskScore. cbv zeta. cbn [score factors].
  unfold clamp. now rewrite tally_score.
Qed.

(** Bounds on what a rule can add to and take from the score. *)
Ltac impact_rule :=
  unfold emitted, start; repeat case_match; simpl; lia.

Lemma rule_emission_impact ca :
  -20 <= totalImpact (emitted (rule_emission ca)) <= 10.
Proof. unfold rule_emission. impact_rule. Qed.

Lemma rule_creator_hold_impact hs :
  -18 <= totalImpact (emitted (rule_creator_hold hs)) <= 8.
Proof. unfold rule_creator_hold. impact_rule. Qed.

Lemma rule_created_impact n :
  -25 <= totalImpact (emitted (rule_created n)) <= 10.
Proof. unfold rule_created. impact_rule. Qed.

Lemma rule_age_impact ca :
  -20 <= totalImpact (emitted (rule_age ca)) <= 10.
Proof. unfold rule_age. impact_rule. Qed.

Lemma rule_activity_impact ca :
  -5 <= totalImpact (emitted (rule_activity ca)) <= 0.
Proof. unfold rule_activity. cbv zeta. impact_rule. Qed.

Lemma rule_holder_count_impact hs :
  -18 <= totalImpact (emitted (rule_holder_count hs)) <= 0.
Proof. unfold rule_holder_count. impact_rule. Qed.

Lemma rule_concentration_impact hs :
  -15 <= totalImpact (emitted (rule_concentration hs)) <= 5.
Proof. unfold rule_concentration. impact_rule. Qed.

Lemma rule_connected_impact hs :
  -14 <= totalImpact (emitted (rule_connected hs)) <= 0.
Proof. unfold rule_connected. cbv zeta. impact_rule. Qed.

Lemma rule_liquidity_impact tm :
  -12 <= totalImpact (emitted (rule_liquidity tm)) <= 5.
Proof. unfold rule_liquidity. impact_rule. Qed.

Lemma rule_fresh_impact tm :
  -5 <= totalImpact (emitted (rule_fresh tm)) <= 0.
Proof. unfold rule_fresh. cbv zeta. impact_rule. Qed.

Lemma perRule_impact ca n hs tm :
  -152 <= totalImpact (concat (perRule ca n hs tm)) <= 48.
Proof.
  unfold perRule. simpl concat. rewrite !totalImpact_app. simpl totalImpact.
  pose proof (rule_emission_impact ca). pose proof (rule_creator_hold_impact hs).
  pose proof (rule_created_impact n). pose proof (rule_age_impact ca).
  pose proof (rule_activity_impact ca). pose proof (rule_holder_count_impact hs).
  pose proof (rule_concentration_impact hs). pose proof (rule_connected_impact hs).
  pose proof (rule_liquidity_impact tm). pose proof (rule_fresh_impact tm).
  lia.
Qed.

End ScorerStructure.

(** X1. The factor list is the concatenation, in evaluation order, of
    what each of the ten rules emits when evaluated on its own evidence:
    no rule's outcome depends on another's. *)
Theorem X1_rules_are_independent
    (mint : string) (ca : RiskScore.CreatorAnalysis)
    (txs : list Helius.HeliusTransaction)
    (hs : option RiskScore.HolderStats) (tm : option RiskScore.TokenMarketStats) :
  RiskScore.factors (RiskScore.computeRiskScore mint ca txs hs tm) =
    (emitted (RiskScore.rule_emission ca)
     ++ emitted (RiskScore.rule_creator_hold hs)
     ++ emitted (RiskScore.rule_created (RiskScore.createdCountOf txs))
     ++ emitted (RiskScore.rule_age ca)
     ++ emitted (RiskScore.rule_activity ca)
     ++ emitted (RiskScore.rule_holder_count hs)
     ++ emitted (RiskScore.rule_concentration hs)
     ++ emitted (RiskScore.rule_connected hs)
     ++ emitted (RiskScore.rule_liquidity tm)
     ++ emitted (RiskScore.rule_fresh tm))%list.
Proof.
  rewrite computeRiskScore_factors. unfold perRule. simpl concat.
  now rewrite app_nil_r.
Qed.

(** X2. The factors come in rule order with at most one factor per rule:
    the rule indices of the factor ids increase strictly, so the ids are
    pairwise distinct and there are at most ten of them. *)
Theorem X2_factors_follow_rule_order
    (mint : string) (ca : RiskScore.CreatorAnalysis)
    (txs : list Helius.HeliusTransaction)
    (hs : option RiskScore.HolderStats) (tm : option RiskScore.TokenMarketStats) :
  let ids := factorIds (RiskScore.factors
                          (RiskScore.computeRiskScore mint ca txs hs tm)) in
  StronglySorted Nat.lt (map ruleIndex ids) /\
  Forall (fun k => (1 <= k <= 10)%nat) (map ruleIndex ids) /\
  List.NoDup ids /\
  (length ids <= 10)%nat.
Proof.
  cbv zeta. rewrite computeRiskScore_factors.
  destruct (shapedFrom_concat _ 1 (perRule_shaped ca (RiskScore.createdCountOf txs) hs tm))
    as (Hsorted & Hrange & Hlen & _).
  unfold factorIds. rewrite map_map. fold rankOf.
  change (map (fun x => ruleIndex (RiskScore.RiskFactor.id x))) with (map rankOf).
  split; [exact Hsorted|]. split; [|split].
  - eapply List.Forall_impl; [|exact Hrange]. simpl. intros k Hk. lia.
  - apply (NoDup_of_map ruleIndex). rewrite map_map.
    change (map (fun x => ruleIndex (RiskScore.RiskFactor.id x))) with (map rankOf).
    now apply StronglySorted_lt_NoDup.
  - rewrite length_map. simpl in Hlen. exact Hlen.
Qed.

(** X3. Every emitted factor has an impact whose sign agrees with its
    severity: critical and warning factors carry an impact between -25
    and -4, positive factors one between 5 and 10, and no factor is
    neutral. *)
Theorem X3_impact_sign_agrees_with_severity
    (mint : string) (ca : RiskScore.CreatorAnalysis)
    (txs : list Helius.HeliusTransaction)
    (hs : option RiskScore.HolderStats) (tm : option RiskScore.TokenMarketStats) :
  Forall (fun f => signAgrees f = true)
         (RiskScore.factors (RiskScore.computeRiskScore mint ca txs hs tm)).
Proof.
  rewrite computeRiskScore_factors.
  now destruct (shapedFrom_concat _ 1
                  (perRule_shaped ca (RiskScore.createdCountOf txs) hs tm))
    as (_ & _ & _ & Hsign).
Qed.

(** X4. Before clamping the score lies between -102 and 98, so the upper
    clamp never applies: the score is at most 98 and equals the larger of
    0 and 50 plus the impacts. *)
Theorem X4_score_never_exceeds_98
    (mint : string) (ca : RiskScore.CreatorAnalysis)
    (txs : list Helius.HeliusTransaction)
    (hs : option RiskScore.HolderStats) (tm : option RiskScore.TokenMarketStats) :
  let r := RiskScore.computeRiskScore mint ca txs hs tm in
  -102 <= 50 + totalImpact (RiskScore.factors r) <= 98 /\
  RiskScore.score r <= 98 /\
  RiskScore.score r = Z.max 0 (50 + totalImpact (RiskScore.factors r)).
Proof.
  cbv zeta. rewrite computeRiskScore_score, computeRiskScore_factors.
  pose proof (perRule_impact ca (RiskScore.createdCountOf txs) hs tm). lia.
Qed.

Section ScorerFlags.
Import JS RiskScore.

Lemma shaped_id_rank k fs i :
  shaped k fs -> In i (factorIds fs) -> ruleIndex i = k.
Proof.
  intros [->|(f & -> & Hrank & _)] Hin; simpl in Hin; [contradiction|].
  destruct Hin as [<-|[]]. exact Hrank.
Qed.

(** A factor id found in the output of consecutive rules was emitted by
    the rule that owns it. *)
Lemma shapedFrom_owner ls : forall j i,
  shapedFrom j ls ->
  In i (factorIds (concat ls)) ->
  (j <= ruleIndex i)%nat /\ In i (factorIds (nth (ruleIndex i - j) ls [])).
Proof.
  induction ls as [|fs rest IH]; intros j i Hs Hin; simpl in *; [contradiction|].
  destruct Hs as [Hfs Hrest].
  unfold factorIds in Hin. rewrite map_app in Hin.
  apply in_app_or in Hin as [Hin|Hin].
  - rewrite (shaped_id_rank j fs i Hfs Hin). rewrite Nat.sub_diag.
    split; [lia|exact Hin].
  - destruct (IH (S j) i Hrest Hin) as [Hle Hnth]. split; [lia|].
    replace (ruleIndex i - j)%nat with (S (ruleIndex i - S j)) by lia.
    exact Hnth.
Qed.

Lemma in_perRule_concat ca n hs tm k i :
  In i (factorIds (nth k (perRule ca n hs tm) [])) ->
  In i (factorIds (concat (perRule ca n hs tm))).
Proof.
  intros Hin. unfold factorIds in *. apply in_map_iff in Hin as (f & Hf & Hin).
  apply in_map_iff. exists f. split; [exact Hf|].
  apply in_concat. exists (nth k (perRule ca n hs tm) []). split; [|exact Hin].
  destruct (Nat.lt_ge_cases k (length (perRule ca n hs tm))) as [Hlt|Hge].
  - now apply nth_In.
  - rewrite nth_overflow in Hin by exact Hge. contradiction.
Qed.

(** An id is among the factors exactly when its own rule emitted it. *)
Lemma factor_id_owner mint ca txs hs tm i :
  In i (factorIds (factors (computeRiskScore mint ca txs hs tm))) <->
  In i (factorIds
          (nth (ruleIndex i - 1) (perRule ca (createdCountOf txs) hs tm) [])).
Proof.
  rewrite computeRiskScore_factors. split.
  - intros Hin.
    now destruct (shapedFrom_owner _ 1 i (perRule_shaped _ _ _ _) Hin).
  - apply in_perRule_concat.
Qed.

Lemma liquidity_ids tm :
  Forall (fun f => In (RiskFactor.id f) marketFactorIds)
         (emitted (rule_liquidity tm)).
Proof.
  unfold rule_liquidity, emitted, start, marketFactorIds.
  repeat case_match; simpl; repeat constructor; simpl; tauto.
Qed.

Lemma fresh_ids tm :
  Forall (fun f => In (RiskFactor.id f) marketFactorIds)
         (emitted (rule_fresh tm)).
Proof.
  unfold rule_fresh, emitted, start, marketFactorIds. cbv zeta.
  repeat case_match; simpl; repeat constructor; simpl; tauto.
Qed.

End ScorerFlags.

(** X5. The emission flag and the emission factors follow the tri-state
    of [canMintUnlimited]: "unlimited" and the factor [unlimited_mint]
    exactly when it is true, the factor [fixed_supply] exactly when it is
    false; when it is undefined the status still reads "fixed" although
    neither factor is emitted. *)
Theorem X5_emission_status_and_factors
    (mint : string) (ca : RiskScore.CreatorAnalysis)
    (txs : list Helius.HeliusTransaction)
    (hs : option RiskScore.HolderStats) (tm : option RiskScore.TokenMarketStats) :
  let r := RiskScore.computeRiskScore mint ca txs hs tm in
  let ids := factorIds (RiskScore.factors r) in
  (In "unlimited_mint" ids <-> RiskScore.canMintUnlimited ca = Some true) /\
  (In "fixed_supply" ids <-> RiskScore.canMintUnlimited ca = Some false) /\
  (RiskScore.emissionStatus r = Some RiskScore.Unlimited
     <-> RiskScore.canMintUnlimited ca = Some true) /\
  (RiskScore.emissionStatus r = Some RiskScore.Fixed
     <-> RiskScore.canMintUnlimited ca <> Some true).
Proof.
  cbv zeta. rewrite !factor_id_owner.
  change (ruleIndex "unlimited_mint" - 1)%nat with 0%nat.
  change (ruleIndex "fixed_supply" - 1)%nat with 0%nat.
  unfold perRule. cbn [nth].
  unfold RiskScore.computeRiskScore. cbv zeta. cbn [RiskScore.emissionStatus].
  unfold emitted, RiskScore.rule_emission.
  destruct (RiskScore.canMintUnlimited ca) as [[|]|]; simpl;
    repeat split; intros; try congruence; try tauto;
    repeat match goal with H : _ \/ _ |- _ => destruct H end;
    try discriminate; try contradiction; auto.
Qed.

(** X6. [creatorSold] is true exactly when the factor [creator_sold] is
    emitted, that is when a holder distribution is present and gives the
    creator less than 1 percent; without a distribution it is false. *)
Theorem X6_creator_sold_flag_matches_factor
    (mint : string) (ca : RiskScore.CreatorAnalysis)
    (txs : list Helius.HeliusTransaction)
    (hs : option RiskScore.HolderStats) (tm : option RiskScore.TokenMarketStats) :
  let r := RiskScore.computeRiskScore mint ca txs hs tm in
  (RiskScore.creatorSold r = Some true <->
   In "creator_sold" (factorIds (RiskScore.factors r))) /\
  (RiskScore.creatorSold r = Some true <->
   exists h p, hs = Some h /\ RiskScore.creatorHoldPercent h = Some p /\
               JS.lt p 1 = true).
Proof.
  cbv zeta. rewrite factor_id_owner.
  change (ruleIndex "creator_sold" - 1)%nat with 1%nat.
  unfold perRule. cbn [nth].
  unfold RiskScore.computeRiskScore. cbv zeta. cbn [RiskScore.creatorSold].
  unfold emitted, RiskScore.rule_creator_hold.
  destruct hs as [h|]; simpl.
  - destruct (RiskScore.creatorHoldPercent h) as [p|] eqn:Ep; simpl.
    + destruct (JS.lt p 1) eqn:Elt; simpl.
      * split; split; intros; auto. exists h, p. auto.
      * split; split; intros H; try discriminate.
        -- destruct (JS.ge p 10); simpl in H; [destruct H as [H|[]]|destruct H].
           discriminate.
        -- destruct H as (h' & p' & Hh & Hp & Hlt).
           injection Hh as <-. rewrite Ep in Hp. injection Hp as <-.
           congruence.
    + split; split; intros H; try discriminate; try contradiction.
      destruct H as (h' & p' & Hh & Hp & _). injection Hh as <-. congruence.
  - split; split; intros H; try discriminate; try contradiction.
    destruct H as (h' & p' & Hh & _). discriminate.
Qed.

(** X7. Without a holder distribution the result carries none of the
    nine holder-dependent factors, the distribution is echoed as absent
    and [creatorSold] is false. *)
Theorem X7_no_distribution_no_holder_factors
    (mint : string) (ca : RiskScore.CreatorAnalysis)
    (txs : list Helius.HeliusTransaction) (tm : option RiskScore.TokenMarketStats) :
  let r := RiskScore.computeRiskScore mint ca txs None tm in
  RiskScore.holderStats r = None /\
  RiskScore.creatorSold r = Some false /\
  Forall (fun i => ~ In i (factorIds (RiskScore.factors r))) holderFactorIds.
Proof.
  cbv zeta. split; [reflexivity|]. split; [reflexivity|].
  unfold holderFactorIds.
  repeat (constructor;
          [rewrite factor_id_owner; unfold perRule; simpl; tauto|]).
  constructor.
Qed.

(** X8. Market statistics only append: the factors computed with market
    statistics are those computed without them followed by market
    factors, and without market statistics no market factor is emitted. *)
Theorem X8_market_stats_only_append
    (mint : string) (ca : RiskScore.CreatorAnalysis)
    (txs : list Helius.HeliusTransaction)
    (hs : option RiskScore.HolderStats) (tm : RiskScore.TokenMarketStats) :
  let without := RiskScore.factors (RiskScore.computeRiskScore mint ca txs hs None) in
  let with_ := RiskScore.factors (RiskScore.computeRiskScore mint ca txs hs (Some tm)) in
  (exists extra,
     with_ = (without ++ extra)%list /\
     Forall (fun f => In (RiskScore.RiskFactor.id f) marketFactorIds) extra) /\
  Forall (fun i => ~ In i (factorIds without)) marketFactorIds.
Proof.
  cbv zeta. split.
  - exists (emitted (RiskScore.rule_liquidity (Some tm))
            ++ emitted (RiskScore.rule_fresh (Some tm)))%list.
    split.
    + rewrite !computeRiskScore_factors. unfold perRule. simpl concat.
      change (emitted (RiskScore.rule_liquidity None)) with (@nil RiskScore.RiskFactor.t).
      change (emitted (RiskScore.rule_fresh None)) with (@nil RiskScore.RiskFactor.t).
      rewrite !app_nil_r, !app_assoc. reflexivity.
    + apply Forall_app. split; [apply liquidity_ids|apply fresh_ids].
  - unfold marketFactorIds.
    repeat (constructor;
            [rewrite factor_id_owner; unfold perRule; simpl; tauto|]).
    constructor.
Qed.

(** X9. The whole result, not only the created count, is independent of
    the order of the transaction sample. *)
Theorem X9_result_independent_of_sample_order
    (mint : string) (ca : RiskScore.CreatorAnalysis)
    (txs txs' : list Helius.HeliusTransaction)
    (hs : option RiskScore.HolderStats) (tm : option RiskScore.TokenMarketStats) :
  Permutation txs txs' ->
  RiskScore.computeRiskScore mint ca txs' hs tm
  = RiskScore.computeRiskScore mint ca txs hs tm.
Proof.
  intros Hp. unfold RiskScore.computeRiskScore, RiskScore.createdCountOf.
  now rewrite (filter_length_perm _ _ _ Hp).
Qed.

Lemma X9_witness :
  RiskScore.computeRiskScore "mint" (Samples.creatorOf (Some false) None)
    [Samples.tagged "SWAP" 3; Samples.tagged "NFT_MINT" 2; Samples.tagged "CREATE" 1]
    None None
  = RiskScore.computeRiskScore "mint" (Samples.creatorOf (Some false) None)
      [Samples.tagged "CREATE" 1; Samples.tagged "NFT_MINT" 2; Samples.tagged "SWAP" 3]
      None None.
Proof.
  apply (X9_result_independent_of_sample_order "mint"
           (Samples.creatorOf (Some false) None)
           [Samples.tagged "CREATE" 1; Samples.tagged "NFT_MINT" 2; Samples.tagged "SWAP" 3]
           [Samples.tagged "SWAP" 3; Samples.tagged "NFT_MINT" 2; Samples.tagged "CREATE" 1]
           None None).
  apply Permutation_rev.
Defined.

(* ===================================================================== *)
(** * Further properties of the collector's helpers *)
(* ===================================================================== *)

Section Recipients.
Import JS Helius.

Lemma firstInSample_Some creator k txs :
  is_Some (firstInSample creator k txs) <->
  exists tx, In tx txs /\ paysTo creator k tx = true.
Proof.
  unfold firstInSample. destruct (find (paysTo creator k) txs) as [tx|] eqn:E.
  - split; [|intros _; eexists; reflexivity].
    intros _. apply find_some in E. exists tx. exact E.
  - split; [intros [x Hx]; discriminate|].
    intros (tx & Hin & Hp). now rewrite (find_none _ _ E tx Hin) in Hp.
Qed.

Lemma paid_empty creator from to : paid creator from to "" = false.
Proof.
  unfold paid. destruct from as [f|], to as [[|c x]|]; simpl;
    rewrite ?andb_false_r; reflexivity.
Qed.

Lemma paysTo_empty creator tx : paysTo creator "" tx = false.
Proof.
  unfold paysTo. apply orb_false_iff. split.
  - induction (nullish (nativeTransfers tx) []) as [|t l IH]; simpl;
      [reflexivity|]. now rewrite paid_empty.
  - induction (nullish (tokenTransfers tx) []) as [|t l IH]; simpl;
      [reflexivity|]. now rewrite paid_empty.
Qed.

End Recipients.

(** X10. For every sample and recipient, the map returned by
    [getWalletsReceivedFromCreator] holds the timestamp (0 when missing)
    of the first transaction, in the order of the sample, that carries a
    native or token transfer from the creator to that recipient; an
    address is a key exactly when some transaction of the sample pays it,
    and the empty address is never a key. *)
Theorem X10_received_map_characterised
    (creatorTxs : list Helius.HeliusTransaction) (creatorAddress k : string) :
  let receivedBy := Helius.getWalletsReceivedFromCreator creatorTxs creatorAddress in
  receivedBy !! k = firstInSample creatorAddress k creatorTxs /\
  (is_Some (receivedBy !! k) <->
   exists tx, In tx creatorTxs /\ paysTo creatorAddress k tx = true) /\
  receivedBy !! "" = None.
Proof.
  cbv zeta. rewrite !getWalletsReceivedFromCreator_lookup.
  split; [reflexivity|]. split; [apply firstInSample_Some|].
  destruct (firstInSample creatorAddress "" creatorTxs) eqn:E; [|reflexivity].
  assert (H : is_Some (firstInSample creatorAddress "" creatorTxs))
    by (rewrite E; eexists; reflexivity).
  apply firstInSample_Some in H as (tx & _ & Hp).
  now rewrite paysTo_empty in Hp.
Qed.

(** X11. The set of recipients does not depend on the order of the
    sample (only the recorded timestamps do). *)
Theorem X11_recipient_set_order_independent
    (txs txs' : list Helius.HeliusTransaction) (creatorAddress k : string) :
  Permutation txs txs' ->
  (is_Some (Helius.getWalletsReceivedFromCreator txs creatorAddress !! k) <->
   is_Some (Helius.getWalletsReceivedFromCreator txs' creatorAddress !! k)).
Proof.
  intros Hp. rewrite !getWalletsReceivedFromCreator_lookup, !firstInSample_Some.
  split; intros (tx & Hin & Hpay); exists tx; split; try exact Hpay.
  - eapply Permutation_in; eassumption.
  - eapply Permutation_in; [apply Permutation_sym|]; eassumption.
Qed.

Lemma X11_witness :
  is_Some (Helius.getWalletsReceivedFromCreator
             [Samples.sends "creator" "holder" 200;
              Samples.sends "creator" "other" 100] "creator" !! "other") <->
  is_Some (Helius.getWalletsReceivedFromCreator
             [Samples.sends "creator" "other" 100;
              Samples.sends "creator" "holder" 200] "creator" !! "other").
Proof.
  apply (X11_recipient_set_order_independent
           [Samples.sends "creator" "holder" 200;
            Samples.sends "creator" "other" 100]
           [Samples.sends "creator" "other" 100;
            Samples.sends "creator" "holder" 200] "creator" "other").
  apply perm_swap.
Defined.


Section OtherMints.
Import JS Helius Analyze.

Lemma getOtherMints_unfold txs currentMint limit :
  getOtherMintsFromCreatorTxs txs currentMint limit
  = take limit (fold_left (scanTx currentMint) txs []).
Proof. reflexivity. Qed.

Lemma setAdd_In mints m x : In x (setAdd mints m) <-> In x mints \/ x = m.
Proof.
  unfold setAdd. destruct (existsb (String.eqb m) mints) eqn:E.
  - split; [now left|]. intros [H| ->]; [exact H|].
    apply existsb_exists in E as (y & Hy & Hm).
    apply String.eqb_eq in Hm. now subst.
  - rewrite in_app_iff. simpl. intuition.
Qed.

Lemma setAdd_NoDup mints m : List.NoDup mints -> List.NoDup (setAdd mints m).
Proof.
  intros Hnd. unfold setAdd. destruct (existsb (String.eqb m) mints) eqn:E;
    [exact Hnd|].
  apply List.NoDup_app; [exact Hnd|repeat constructor; intros []|].
  intros x Hx [Heq|[]]. subst x.
  assert (existsb (String.eqb m) mints = true)
    by (apply existsb_exists; exists m; split; [exact Hx|apply String.eqb_refl]).
  congruence.
Qed.

(** The inner loop keeps what it has, keeps it duplicate-free and adds
    exactly the qualifying mints of the transfers. *)
Lemma keepMint_fold currentMint ts : forall mints,
  let out := fold_left (keepMint currentMint) ts mints in
  (List.NoDup mints -> List.NoDup out) /\
  (forall x, In x out <->
     In x mints \/
     (x <> currentMint /\ Utils.isValidSolanaAddress x = true /\
      exists t raw, In t ts /\ TokenTransfer.mint t = Some raw /\ trim raw = x)).
Proof.
  induction ts as [|t ts IH]; intros mints; cbv zeta; simpl.
  - split; [auto|]. intros x. split; [now left|].
    intros [H|(_ & _ & t & raw & [] & _)]. exact H.
  - destruct (IH (keepMint currentMint mints t)) as [Hnd Hin].
    split.
    + intros H. apply Hnd. unfold keepMint.
      destruct (TokenTransfer.mint t) as [raw|]; [|exact H]. cbv zeta.
      destruct (_ && _); [now apply setAdd_NoDup|exact H].
    + intros x. rewrite Hin. unfold keepMint at 1.
      destruct (TokenTransfer.mint t) as [raw|] eqn:Em; cbv zeta.
      * destruct (truthy (Some (trim raw)) && negb (String.eqb (trim raw) currentMint)
                  && Utils.isValidSolanaAddress (trim raw)) eqn:Eq.
        -- rewrite setAdd_In.
           apply andb_true_iff in Eq as [Eq Hv].
           apply andb_true_iff in Eq as [_ Hne].
           apply negb_true_iff, String.eqb_neq in Hne.
           split.
           ++ intros [[H| ->]|(Hx & Hvx & t' & raw' & Ht' & Hm' & Hr')].
              ** now left.
              ** right. repeat split; auto. exists t, raw. auto.
              ** right. repeat split; auto. exists t', raw'. auto.
           ++ intros [H|(Hx & Hvx & t' & raw' & [<-|Ht'] & Hm' & Hr')].
              ** left. now left.
              ** left. right. rewrite Em in Hm'. injection Hm' as <-. now subst.
              ** right. repeat split; auto. exists t', raw'. auto.
        -- split.
           ++ intros [H|(Hx & Hvx & t' & raw' & Ht' & Hm' & Hr')]; [now left|].
              right. repeat split; auto. exists t', raw'. auto.
           ++ intros [H|(Hx & Hvx & t' & raw' & [<-|Ht'] & Hm' & Hr')];
                [now left| |].
              ** exfalso. rewrite Em in Hm'. injection Hm' as <-. subst x.
                 apply String.eqb_neq in Hx. rewrite Hx, Hvx in Eq. simpl in Eq.
                 rewrite andb_true_r in Eq.
                 unfold Utils.isValidSolanaAddress in Hvx.
                 destruct (trim raw); [discriminate|discriminate].
              ** right. repeat split; auto. exists t', raw'. auto.
      * split.
        -- intros [H|(Hx & Hvx & t' & raw' & Ht' & Hm' & Hr')]; [now left|].
           right. repeat split; auto. exists t', raw'. auto.
        -- intros [H|(Hx & Hvx & t' & raw' & [<-|Ht'] & Hm' & Hr')];
             [now left|congruence|].
           right. repeat split; auto. exists t', raw'. auto.
Qed.

Lemma scanTx_fold currentMint txs : forall mints,
  let out := fold_left (scanTx currentMint) txs mints in
  (List.NoDup mints -> List.NoDup out) /\
  (forall x, In x out <-> In x mints \/ siblingMint txs currentMint x).
Proof.
  induction txs as [|tx txs IH]; intros mints; cbv zeta; simpl.
  - split; [auto|]. intros x. split; [now left|].
    intros [H|(_ & _ & tx & t & raw & [] & _)]. exact H.
  - destruct (IH (scanTx currentMint mints tx)) as [Hnd Hin].
    destruct (keepMint_fold currentMint
                (nullish (tokenTransfers tx) []) mints) as [Hnd1 Hin1].
    cbv zeta in Hnd1, Hin1.
    split.
    + intros H. apply Hnd. unfold scanTx.
      destruct (negb (isCreationTx tx)); [exact H|now apply Hnd1].
    + intros x. rewrite Hin. unfold scanTx at 1. unfold siblingMint.
      destruct (isCreationTx tx) eqn:Ec; simpl.
      * rewrite Hin1. split.
        -- intros [[H|(Hx & Hv & t & raw & Ht & Hm & Hr)]
                  |(Hx & Hv & tx' & t & raw & Htx & Hc & Ht & Hm & Hr)].
           ++ now left.
           ++ right. repeat split; auto. exists tx, t, raw. auto.
           ++ right. repeat split; auto. exists tx', t, raw. auto.
        -- intros [H|(Hx & Hv & tx' & t & raw & [<-|Htx] & Hc & Ht & Hm & Hr)].
           ++ left. now left.
           ++ left. right. repeat split; auto. exists t, raw. auto.
           ++ right. repeat split; auto. exists tx', t, raw. auto.
      * split.
        -- intros [H|(Hx & Hv & tx' & t & raw & Htx & Hc & Ht & Hm & Hr)];
             [now left|].
           right. repeat split; auto. exists tx', t, raw. auto.
        -- intros [H|(Hx & Hv & tx' & t & raw & [<-|Htx] & Hc & Ht & Hm & Hr)];
             [now left|congruence|].
           right. repeat split; auto. exists tx', t, raw. auto.
Qed.

Lemma take_NoDup {A} n (l : list A) : List.NoDup l -> List.NoDup (take n l).
Proof.
  revert n. induction l as [|x l IH]; intros [|n] H; simpl; try constructor.
  - inversion H as [|? ? Hnin Hnd]; subst.
    intros Hin. apply Hnin. revert Hin. clear.
    revert n. induction l as [|y l IH]; intros [|n]; simpl; try tauto.
    intros [H|H]; [now left|right; eauto].
  - inversion H; subst. now apply IH.
Qed.

Lemma take_In {A} n (l : list A) x : In x (take n l) -> In x l.
Proof.
  revert n. induction l as [|y l IH]; intros [|n]; simpl; try tauto.
  intros [H|H]; [now left|right; eauto].
Qed.

Lemma In_take_or_full {A} n (l : list A) x :
  In x l -> In x (take n l) \/ length (take n l) = n.
Proof.
  revert n. induction l as [|y l IH]; intros n Hin; [contradiction|].
  destruct n as [|n]; simpl; [now right|].
  destruct Hin as [->|Hin]; [left; now left|].
  destruct (IH n Hin) as [H|H]; [left; now right|right; now rewrite H].
Qed.

End OtherMints.

(** X12. The sibling mints returned by [getOtherMintsFromCreatorTxs] are
    at most [limit], pairwise distinct, and each is a well-formed address
    other than the mint under analysis that appears (trimmed) as the
    mint of a token transfer in a transaction classified as a creation. *)
Theorem X12_other_mints_sound
    (txs : list Helius.HeliusTransaction) (currentMint : string) (limit : nat) :
  let mints := Analyze.getOtherMintsFromCreatorTxs txs currentMint limit in
  (length mints <= limit)%nat /\
  List.NoDup mints /\
  forall m, In m mints -> siblingMint txs currentMint m.
Proof.
  cbv zeta. rewrite getOtherMints_unfold.
  destruct (scanTx_fold currentMint txs []) as [Hnd Hin]. cbv zeta in Hnd, Hin.
  split; [|split].
  - rewrite length_take. lia.
  - apply take_NoDup, Hnd. constructor.
  - intros m Hm. apply take_In in Hm. apply Hin in Hm as [[]|H]. exact H.
Qed.

(** X13. A qualifying sibling mint is left out only when the cap is
    reached: it is in the returned list, or the list has [limit]
    entries. *)
Theorem X13_other_mints_complete_up_to_cap
    (txs : list Helius.HeliusTransaction) (currentMint m : string) (limit : nat) :
  siblingMint txs currentMint m ->
  let mints := Analyze.getOtherMintsFromCreatorTxs txs currentMint limit in
  In m mints \/ length mints = limit.
Proof.
  intros Hm. cbv zeta. rewrite getOtherMints_unfold.
  apply In_take_or_full.
  destruct (scanTx_fold currentMint txs []) as [_ Hin]. apply Hin. now right.
Qed.


(* ===================================================================== *)
(** * Further properties of the holder distribution *)
(* ===================================================================== *)

Section Ranking.
Import JS Helius Analyze.

Lemma insertDesc_sorted x l :
  StronglySorted outranks l -> StronglySorted outranks (insertDesc x l).
Proof.
  induction 1 as [|y l Hs IH Hall]; simpl.
  - constructor; constructor.
  - destruct (Z.ltb_spec (snd x) (snd y)) as [Hlt|Hge].
    + constructor; [exact IH|].
      apply (Permutation_Forall (Permutation_sym (insertDesc_perm x l))).
      constructor; [unfold outranks; lia|exact Hall].
    + constructor; [constructor; assumption|].
      constructor; [unfold outranks; lia|].
      eapply List.Forall_impl; [|exact Hall].
      unfold outranks. intros z Hz. lia.
Qed.

Lemma sortDesc_sorted l : StronglySorted outranks (sortDesc l).
Proof.
  induction l as [|x l IH]; simpl; [constructor|].
  now apply insertDesc_sorted.
Qed.

Lemma sorted_take_drop {A} (R : A -> A -> Prop) n (l : list A) :
  StronglySorted R l ->
  forall x y, In x (take n l) -> In y (drop n l) -> R x y.
Proof.
  intros Hs. revert n. induction Hs as [|z l Hs IH Hall]; intros n x y Hx Hy.
  - destruct n; simpl in Hx; contradiction.
  - destruct n as [|n]; simpl in Hx, Hy; [contradiction|].
    destruct Hx as [<-|Hx].
    + rewrite List.Forall_forall in Hall. apply Hall.
      revert Hy. clear. revert n.
      induction l as [|w l IH]; intros [|n]; simpl; try tauto.
      intros H. right. eauto.
    + eapply IH; eassumption.
Qed.

Lemma sorted_take {A} (R : A -> A -> Prop) n (l : list A) :
  StronglySorted R l -> StronglySorted R (take n l).
Proof.
  intros Hs. revert n. induction Hs as [|z l Hs IH Hall]; intros [|n]; simpl;
    try constructor; auto.
  rewrite List.Forall_forall in *. intros x Hx. apply Hall.
  eapply take_In, Hx.
Qed.

Lemma mergeByOwner_length l : forall m m',
  mergeByOwner l m = Ok m' -> (length m' <= length m + length l)%nat.
Proof.
  induction l as [|a l IH]; intros m m' H; simpl in *.
  - injection H as <-. lia.
  - unfold addAccount in H. destruct (owner a) as [|c o].
    + simpl in H. apply IH in H. lia.
    + destruct (BigInt (amount a)) as [amt|msg]; [|discriminate]. simpl in H.
      apply IH in H.
      assert (Hset : forall (m0 : list (string * Z)) k v,
                 (length (mapSet m0 k v) <= S (length m0))%nat).
      { clear. induction m0 as [|[k0 v0] m0 IHm]; intros k v; simpl; [lia|].
        destruct (String.eqb k0 k); simpl; [lia|].
        specialize (IHm k v). lia. }
      specialize (Hset m (String c o) (nullish (mapGet m (String c o)) 0 + amt)).
      lia.
Qed.

Lemma rankHolders_length byOwner :
  (length (rankHolders byOwner) <= length byOwner)%nat.
Proof.
  unfold rankHolders. rewrite (Permutation_length (sortDesc_perm _)).
  apply List.filter_length_le.
Qed.

Lemma sumAmounts_positive l :
  Forall (fun e => 0 < snd e) l -> l <> [] -> 0 < sumAmounts l.
Proof.
  intros Hpos Hne. rewrite sumAmounts_fold_right.
  destruct Hpos as [|x l Hx Hl]; [contradiction|]. simpl.
  assert (0 <= fold_right (fun (e : string * Z) s => snd e + s) 0 l).
  { clear -Hl. induction Hl as [|y l Hy _ IH]; simpl; lia. }
  lia.
Qed.

End Ranking.

(** X14. Ranking keeps exactly the owners with a positive merged
    balance, orders them by non-increasing balance, and the first ten
    outrank every holder left out of the top ten. *)
Theorem X14_ranking_is_descending
    (byOwner : list (string * Z)) :
  let sorted := Analyze.rankHolders byOwner in
  Permutation sorted (List.filter (fun e => (0 <? snd e)%Z) byOwner) /\
  StronglySorted outranks sorted /\
  forall top rest, In top (take 10 sorted) -> In rest (drop 10 sorted) ->
                   snd rest <= snd top.
Proof.
  cbv zeta. split; [apply sortDesc_perm|].
  assert (Hs : StronglySorted outranks (Analyze.rankHolders byOwner))
    by apply sortDesc_sorted.
  split; [exact Hs|].
  intros top rest Ht Hr. exact (sorted_take_drop outranks 10 _ Hs top rest Ht Hr).
Qed.

Section Distribution.
Import JS Helius Analyze.

(** Every field of a returned distribution, in terms of the merged map. *)
Lemma holderDistribution_fields fetched creatorAddress creatorTxsDesc hs :
  holderDistribution (Ok fetched) creatorAddress creatorTxsDesc = Some hs ->
  exists byOwner,
    mergeByOwner (token_accounts fetched) [] = Ok byOwner /\
    let sorted := rankHolders byOwner in
    let total := sumAmounts sorted in
    let received := getWalletsReceivedFromCreator creatorTxsDesc creatorAddress in
    let connected :=
      map (fun h => RiskScore.CreatorConnectedHolder.mk
                      (RiskScore.TopHolder.owner h) (RiskScore.TopHolder.percent h)
                      (received !! RiskScore.TopHolder.owner h))
          (List.filter (fun h => defined (received !! RiskScore.TopHolder.owner h))
                       (RiskScore.topHolders hs)) in
    0 < total /\
    RiskScore.totalSupplyRaw hs = total /\
    RiskScore.topHolders hs
      = map (fun e => RiskScore.TopHolder.mk (fst e) (snd e) (percentOf (snd e) total))
            (take 10 sorted) /\
    RiskScore.top10Percent hs = percentOf (sumAmounts (take 10 sorted)) total /\
    RiskScore.creatorHoldPercent hs
      = Some (percentOf (nullish (mapGet byOwner creatorAddress) 0) total) /\
    RiskScore.creatorConnectedHolders hs
      = match connected with [] => None | _ => Some connected end.
Proof.
  unfold holderDistribution, tryCatch, mbind, result_bind.
  destruct (mergeByOwner (token_accounts fetched) []) as [byOwner|msg];
    [|discriminate].
  cbv zeta.
  destruct (0 <? sumAmounts (rankHolders byOwner))%Z eqn:Et; [|discriminate].
  destruct (0 <? length (rankHolders byOwner))%nat; [|discriminate].
  simpl. intros H. injection H as <-.
  exists byOwner. split; [reflexivity|]. cbv zeta. simpl.
  apply Z.ltb_lt in Et. repeat split; try reflexivity. exact Et.
Qed.

Lemma StronglySorted_map {A B} (g : A -> B) (R : B -> B -> Prop) (l : list A) :
  StronglySorted (fun x y => R (g x) (g y)) l -> StronglySorted R (map g l).
Proof.
  induction 1 as [|x l _ IH Hall]; simpl; constructor; [exact IH|].
  apply List.Forall_map. exact Hall.
Qed.

Lemma ranked_owner_nonempty accounts byOwner o v :
  mergeByOwner accounts [] = Ok byOwner ->
  In (o, v) (rankHolders byOwner) -> owns o accounts = true.
Proof.
  intros Hrun Hin.
  destruct (mergeByOwner_spec accounts [] byOwner Hrun (List.NoDup_nil _))
    as [Hnd Hget].
  apply rankHolders_In in Hin as [Hin _].
  apply (mapGet_In _ _ _ Hnd) in Hin. rewrite Hget in Hin.
  unfold merged in Hin. simpl in Hin.
  destruct (owns o accounts); [reflexivity|discriminate].
Qed.

End Distribution.

(** X15. A returned holder distribution is never zero-filled: its total
    supply is positive, it lists between one and ten top holders with
    pairwise distinct non-empty owners, each with a positive balance not
    above the total and the share computed from that balance, in
    non-increasing order of balance. *)
Theorem X15_distribution_top_holders
    (fetched : Analyze.TokenAccounts) (creatorAddress : string)
    (creatorTxsDesc : list Helius.HeliusTransaction) (hs : RiskScore.HolderStats) :
  Analyze.holderDistribution (JS.Ok fetched) creatorAddress creatorTxsDesc = Some hs ->
  0 < RiskScore.totalSupplyRaw hs /\
  (1 <= length (RiskScore.topHolders hs) <= 10)%nat /\
  List.NoDup (map RiskScore.TopHolder.owner (RiskScore.topHolders hs)) /\
  Forall (fun h =>
            RiskScore.TopHolder.owner h <> "" /\
            0 < RiskScore.TopHolder.amountRaw h <= RiskScore.totalSupplyRaw hs /\
            RiskScore.TopHolder.percent h
              = Analyze.percentOf (RiskScore.TopHolder.amountRaw h)
                                  (RiskScore.totalSupplyRaw hs))
         (RiskScore.topHolders hs) /\
  StronglySorted outranksTop (RiskScore.topHolders hs).
Proof.
  intros H.
  destruct (holderDistribution_fields _ _ _ _ H)
    as (byOwner & Hrun & Hpos & Htot & Htop & _).
  cbv zeta in *.
  set (sorted := Analyze.rankHolders byOwner) in *.
  destruct (mergeByOwner_spec _ [] byOwner Hrun (List.NoDup_nil _)) as [Hnd _].
  rewrite Htot, Htop. split; [exact Hpos|]. split; [|split; [|split]].
  - rewrite length_map, length_take.
    destruct sorted as [|e sorted'] eqn:Es.
    + unfold Analyze.sumAmounts in Hpos. simpl in Hpos. lia.
    + simpl length. lia.
  - rewrite map_map. simpl.
    change (map (fun x : string * Z => fst x) (take 10 sorted))
      with (map fst (take 10 sorted)).
    rewrite <- firstn_map. apply take_NoDup.
    now apply rankHolders_NoDup.
  - apply List.Forall_map, List.Forall_forall. intros [o v] Hin. simpl.
    apply take_In in Hin.
    pose proof (ranked_owner_nonempty _ _ _ _ Hrun Hin) as Hown.
    pose proof (element_le_sum sorted (o, v) (rankHolders_positive byOwner) Hin)
      as Hle.
    apply rankHolders_In in Hin as [_ Hv]. simpl in Hle.
    repeat split; try lia.
    intros ->. unfold owns in Hown. simpl in Hown. discriminate.
  - apply StronglySorted_map. apply sorted_take.
    eapply StronglySorted_ind with (P := StronglySorted
      (fun x y : string * Z =>
         outranksTop
           (RiskScore.TopHolder.mk (fst x) (snd x)
              (Analyze.percentOf (snd x) (Analyze.sumAmounts sorted)))
           (RiskScore.TopHolder.mk (fst y) (snd y)
              (Analyze.percentOf (snd y) (Analyze.sumAmounts sorted)))));
      [constructor| |apply sortDesc_sorted].
    intros a l _ IH Hall. constructor; [exact IH|exact Hall].
Qed.

(** X16. The creator-connected holders of a returned distribution are
    exactly the top holders that some transaction of the creator's sample
    pays: each carries the owner and share of its top holder and the
    timestamp recorded for that owner, and the field is undefined, never
    an empty list, when no top holder is connected. *)
Theorem X16_connected_holders_are_paid_top_holders
    (fetched : Analyze.TokenAccounts) (creatorAddress : string)
    (creatorTxsDesc : list Helius.HeliusTransaction) (hs : RiskScore.HolderStats) :
  Analyze.holderDistribution (JS.Ok fetched) creatorAddress creatorTxsDesc = Some hs ->
  let connected := JS.nullish (RiskScore.creatorConnectedHolders hs) [] in
  RiskScore.creatorConnectedHolders hs <> Some [] /\
  (forall c, In c connected ->
     (exists h, In h (RiskScore.topHolders hs) /\
                RiskScore.CreatorConnectedHolder.owner c = RiskScore.TopHolder.owner h /\
                RiskScore.CreatorConnectedHolder.percent c = RiskScore.TopHolder.percent h) /\
     is_Some (RiskScore.CreatorConnectedHolder.firstReceivedAt c) /\
     RiskScore.CreatorConnectedHolder.firstReceivedAt c
       = firstInSample creatorAddress (RiskScore.CreatorConnectedHolder.owner c)
                       creatorTxsDesc) /\
  (forall h, In h (RiskScore.topHolders hs) ->
     (exists tx, In tx creatorTxsDesc /\
                 paysTo creatorAddress (RiskScore.TopHolder.owner h) tx = true) ->
     exists c, In c connected /\
               RiskScore.CreatorConnectedHolder.owner c = RiskScore.TopHolder.owner h).
Proof.
  intros H.
  destruct (holderDistribution_fields _ _ _ _ H)
    as (byOwner & _ & _ & _ & _ & _ & _ & Hconn).
  cbv zeta in *.
  set (received := Helius.getWalletsReceivedFromCreator creatorTxsDesc creatorAddress) in *.
  set (l := map _ (List.filter _ (RiskScore.topHolders hs))) in Hconn.
  assert (Hnull : JS.nullish (RiskScore.creatorConnectedHolders hs) [] = l)
    by (rewrite Hconn; now destruct l).
  rewrite Hnull. split; [rewrite Hconn; destruct l; discriminate|]. split.
  - intros c Hc. subst l. apply in_map_iff in Hc as (h & <- & Hh).
    apply filter_In in Hh as [Hh Hdef]. simpl.
    split; [exists h; auto|].
    split.
    + destruct (received !! RiskScore.TopHolder.owner h);
        [eexists; reflexivity|discriminate].
    + unfold received. apply getWalletsReceivedFromCreator_lookup.
  - intros h Hh Hpaid.
    exists (RiskScore.CreatorConnectedHolder.mk (RiskScore.TopHolder.owner h)
              (RiskScore.TopHolder.percent h)
              (received !! RiskScore.TopHolder.owner h)).
    split; [|reflexivity]. subst l. apply in_map_iff. exists h.
    split; [reflexivity|]. apply filter_In. split; [exact Hh|].
    apply firstInSample_Some in Hpaid.
    unfold received. rewrite getWalletsReceivedFromCreator_lookup.
    destruct Hpaid as [x ->]. reflexivity.
Qed.

(** X17. When the provider returns at most ten token accounts, a
    returned distribution has a top-10 share of exactly 100, and the
    scorer therefore always emits [extreme_concentration] for it. *)
Theorem X17_few_accounts_mean_full_concentration
    (fetched : Analyze.TokenAccounts) (creatorAddress : string)
    (creatorTxsDesc : list Helius.HeliusTransaction) (hs : RiskScore.HolderStats)
    (mint : string) (ca : RiskScore.CreatorAnalysis)
    (txs : list Helius.HeliusTransaction) (tm : option RiskScore.TokenMarketStats) :
  Analyze.holderDistribution (JS.Ok fetched) creatorAddress creatorTxsDesc = Some hs ->
  (length (Analyze.token_accounts fetched) <= 10)%nat ->
  RiskScore.top10Percent hs = 100%float /\
  In "extreme_concentration"
     (factorIds (RiskScore.factors
                   (RiskScore.computeRiskScore mint ca txs (Some hs) tm))).
Proof.
  intros H Hlen.
  destruct (holderDistribution_fields _ _ _ _ H)
    as (byOwner & Hrun & Hpos & _ & _ & Htop & _).
  cbv zeta in *.
  assert (Hshort : (length (Analyze.rankHolders byOwner) <= 10)%nat).
  { pose proof (rankHolders_length byOwner).
    pose proof (mergeByOwner_length _ _ _ Hrun). simpl in *. lia. }
  assert (H100 : RiskScore.top10Percent hs = 100%float).
  { rewrite Htop, firstn_all2 by exact Hshort.
    unfold Analyze.percentOf, Analyze.basisPoints.
    rewrite Z.mul_comm, Z.quot_mul by lia. reflexivity. }
  split; [exact H100|].
  apply factor_id_owner.
  change (ruleIndex "extreme_concentration" - 1)%nat with 6%nat.
  unfold perRule. cbn [nth]. unfold emitted, RiskScore.rule_concentration.
  rewrite H100. simpl. now left.
Qed.

(** X18. When no token account is owned by the creator, a returned
    distribution gives the creator a share of exactly 0, and the scorer
    therefore reports the creator as having sold: the flag
    [creatorSold] is true and [creator_sold] is among the factors. *)
Theorem X18_absent_creator_is_reported_sold
    (fetched : Analyze.TokenAccounts) (creatorAddress : string)
    (creatorTxsDesc : list Helius.HeliusTransaction) (hs : RiskScore.HolderStats)
    (mint : string) (ca : RiskScore.CreatorAnalysis)
    (txs : list Helius.HeliusTransaction) (tm : option RiskScore.TokenMarketStats) :
  Analyze.holderDistribution (JS.Ok fetched) creatorAddress creatorTxsDesc = Some hs ->
  owns creatorAddress (Analyze.token_accounts fetched) = false ->
  let r := RiskScore.computeRiskScore mint ca txs (Some hs) tm in
  RiskScore.creatorHoldPercent hs = Some 0%float /\
  RiskScore.creatorSold r = Some true /\
  In "creator_sold" (factorIds (RiskScore.factors r)).
Proof.
  intros H Hown. cbv zeta.
  destruct (holderDistribution_fields _ _ _ _ H)
    as (byOwner & Hrun & _ & _ & _ & _ & Hhold & _).
  cbv zeta in *.
  destruct (mergeByOwner_spec _ [] byOwner Hrun (List.NoDup_nil _)) as [_ Hget].
  assert (H0 : RiskScore.creatorHoldPercent hs = Some 0%float).
  { rewrite Hhold, Hget. unfold merged. rewrite Hown. simpl.
    unfold Analyze.percentOf, Analyze.basisPoints. simpl. reflexivity. }
  split; [exact H0|]. split.
  - unfold RiskScore.computeRiskScore. cbv zeta. cbn [RiskScore.creatorSold].
    simpl. rewrite H0. reflexivity.
  - apply factor_id_owner.
    change (ruleIndex "creator_sold" - 1)%nat with 1%nat.
    unfold perRule. cbn [nth]. unfold emitted, RiskScore.rule_creator_hold.
    rewrite H0. simpl. now left.
Qed.

(** X19. The distribution is absent exactly in two cases: some account
    with an owner carries an amount that [BigInt] rejects (amounts of
    ownerless accounts are never read), or no owner has a positive merged
    balance. *)
Theorem X19_distribution_absent_iff
    (fetched : Analyze.TokenAccounts) (creatorAddress : string)
    (creatorTxsDesc : list Helius.HeliusTransaction) :
  Analyze.holderDistribution (JS.Ok fetched) creatorAddress creatorTxsDesc = None <->
  (exists a, In a (Analyze.token_accounts fetched) /\ malformed a) \/
  (forall o, owns o (Analyze.token_accounts fetched) = true ->
             ownedTotal o (Analyze.token_accounts fetched) <= 0).
Proof.
  set (accounts := Analyze.token_accounts fetched).
  destruct (Analyze.mergeByOwner accounts []) as [byOwner|msg] eqn:Hrun.
  - destruct (mergeByOwner_spec _ [] byOwner Hrun (List.NoDup_nil _)) as [Hnd Hget].
    assert (Hno : ~ exists a, In a accounts /\ malformed a).
    { intros Hbad. apply (mergeByOwner_throws accounts []) in Hbad as [m Hm].
      congruence. }
    assert (Hin : forall o v, In (o, v) (Analyze.rankHolders byOwner) <->
                               owns o accounts = true /\ v = ownedTotal o accounts /\ 0 < v).
    { intros o v. rewrite rankHolders_In, (mapGet_In _ _ _ Hnd), Hget.
      unfold merged. simpl. destruct (owns o accounts); split.
      - intros [E Hv]. injection E as <-. split; [reflexivity|split; [lia|exact Hv]].
      - intros (_ & -> & Hv). split; [f_equal; lia|exact Hv].
      - intros [E _]. discriminate.
      - intros (E & _). discriminate. }
    unfold Analyze.holderDistribution, JS.tryCatch, mbind, JS.result_bind.
    fold accounts. rewrite Hrun. cbv zeta.
    destruct (Analyze.rankHolders byOwner) as [|[o v] rest] eqn:Es.
    + simpl. split; [|reflexivity]. intros _. right. intros o Ho.
      destruct (Z.le_gt_cases (ownedTotal o accounts) 0) as [Hle|Hgt]; [exact Hle|].
      exfalso. assert (Hx : In (o, ownedTotal o accounts) (@nil (string * Z)))
        by (apply Hin; repeat split; [exact Ho|lia]).
      exact Hx.
    + assert (Hpos : 0 < Analyze.sumAmounts ((o, v) :: rest)).
      { apply sumAmounts_positive; [|discriminate].
        rewrite <- Es. apply rankHolders_positive. }
      apply Z.ltb_lt in Hpos. rewrite Hpos. simpl. split; [discriminate|].
      intros [Hbad|Hall]; [contradiction|].
      assert (Hov : In (o, v) ((o, v) :: rest)) by now left.
      apply Hin in Hov as (Ho & -> & Hv). specialize (Hall o Ho). lia.
  - unfold Analyze.holderDistribution, JS.tryCatch, mbind, JS.result_bind.
    fold accounts. rewrite Hrun. split; [|reflexivity].
    intros _. left. apply (mergeByOwner_throws accounts []). eauto.
Qed.


Lemma X13_witness :
  let mints := Analyze.getOtherMintsFromCreatorTxs
                 [Fixtures.minting] Samples.mintA 8 in
  In Fixtures.otherMint mints \/ length mints = 8%nat.
Proof.
  apply (X13_other_mints_complete_up_to_cap
           [Fixtures.minting] Samples.mintA Fixtures.otherMint 8).
  split; [discriminate|]. split; [reflexivity|].
  exists Fixtures.minting. eexists. eexists.
  split; [now left|]. split; [reflexivity|].
  split; [now left|]. split; reflexivity.
Defined.

Lemma X15_witness :
  exists hs,
    Analyze.holderDistribution (JS.Ok Fixtures.fetched) "creator" [] = Some hs /\
    (0 < RiskScore.totalSupplyRaw hs /\
     (1 <= length (RiskScore.topHolders hs) <= 10)%nat /\
     List.NoDup (map RiskScore.TopHolder.owner (RiskScore.topHolders hs)) /\
     Forall (fun h =>
               RiskScore.TopHolder.owner h <> "" /\
               0 < RiskScore.TopHolder.amountRaw h <= RiskScore.totalSupplyRaw hs /\
               RiskScore.TopHolder.percent h
                 = Analyze.percentOf (RiskScore.TopHolder.amountRaw h)
                                     (RiskScore.totalSupplyRaw hs))
            (RiskScore.topHolders hs) /\
     StronglySorted outranksTop (RiskScore.topHolders hs)).
Proof.
  eexists. split; [reflexivity|].
  apply (X15_distribution_top_holders Fixtures.fetched "creator" []).
  reflexivity.
Defined.

Lemma X16_witness :
  exists hs,
    Analyze.holderDistribution (JS.Ok Fixtures.fetched) "creator"
      [Samples.sends "creator" "A" 200] = Some hs /\
    RiskScore.creatorConnectedHolders hs <> Some [] /\
    exists c, In c (JS.nullish (RiskScore.creatorConnectedHolders hs) []) /\
              RiskScore.CreatorConnectedHolder.owner c = "A".
Proof.
  eexists. split; [reflexivity|].
  destruct (X16_connected_holders_are_paid_top_holders
              Fixtures.fetched "creator" [Samples.sends "creator" "A" 200] _ eq_refl)
    as (Hne & _ & Hall).
  split; [exact Hne|].
  apply (Hall (RiskScore.TopHolder.mk "A" 300 (Analyze.percentOf 300 601))).
  - now left.
  - exists (Samples.sends "creator" "A" 200). split; [now left|reflexivity].
Defined.

Lemma X17_witness :
  exists hs,
    Analyze.holderDistribution (JS.Ok Fixtures.fetched) "creator" [] = Some hs /\
    RiskScore.top10Percent hs = 100%float /\
    In "extreme_concentration"
       (factorIds (RiskScore.factors
                     (RiskScore.computeRiskScore "mint"
                        (Samples.creatorOf None None) [] (Some hs) None))).
Proof.
  eexists. split; [reflexivity|].
  apply (X17_few_accounts_mean_full_concentration
           Fixtures.fetched "creator" [] _ "mint" (Samples.creatorOf None None) [] None).
  - reflexivity.
  - simpl. lia.
Defined.

Lemma X18_witness :
  exists hs,
    Analyze.holderDistribution (JS.Ok Fixtures.fetched) "creator" [] = Some hs /\
    RiskScore.creatorHoldPercent hs = Some 0%float /\
    RiskScore.creatorSold
      (RiskScore.computeRiskScore "mint" (Samples.creatorOf None None) []
                                  (Some hs) None) = Some true /\
    In "creator_sold"
       (factorIds (RiskScore.factors
                     (RiskScore.computeRiskScore "mint"
                        (Samples.creatorOf None None) [] (Some hs) None))).
Proof.
  eexists. split; [reflexivity|].
  apply (X18_absent_creator_is_reported_sold
           Fixtures.fetched "creator" [] _ "mint" (Samples.creatorOf None None) [] None).
  - reflexivity.
  - reflexivity.
Defined.

(* ===================================================================== *)
(** * Further properties of the analyze route *)
(* ===================================================================== *)

Section RouteResults.
Import JS Helius RiskScore Analyze.

(** A result comes from one path only: mint accepted, key configured,
    mint-authority step, creator resolution and both history fetches
    returned. *)
Lemma GET_result_inv up request r :
  GET up request = JsonResult r ->
  exists mint c txs creationTx creatorAddress asc desc,
    accepted request mint /\ configured up /\
    mintAuthority up mint (snd (assetMetadata up mint)) = Ok c /\
    getTransactionsByAddress up mint Asc 1 = Ok txs /\
    creationOf txs = Some (creationTx, creatorAddress) /\
    getTransactionsByAddress up creatorAddress Asc 1 = Ok asc /\
    getTransactionsByAddress up creatorAddress Desc 100 = Ok desc /\
    r = assemble up mint (fst (fst (assetMetadata up mint)))
          (snd (fst (assetMetadata up mint))) c creationTx creatorAddress asc desc.
Proof.
  unfold GET. cbv zeta.
  set (mint := nullish (trim <$> mintParam request) "").
  destruct (truthy (Some mint)) eqn:Et; simpl; [|discriminate].
  destruct (Utils.isValidSolanaAddress mint) eqn:Ev; simpl; [|discriminate].
  unfold analyze.
  destruct (truthy (trim <$> HELIUS_API_KEY up)) eqn:Ek; simpl; [|discriminate].
  destruct (mintAuthority up mint (snd (assetMetadata up mint))) as [c|m] eqn:Ema;
    simpl; [|discriminate].
  destruct (getTransactionsByAddress up mint Asc 1) as [txs|m] eqn:Etx;
    simpl; [|discriminate].
  destruct (creationOf txs) as [[creationTx creatorAddress]|] eqn:Ecr;
    [|discriminate].
  unfold promiseAll.
  destruct (getTransactionsByAddress up creatorAddress Asc 1) as [asc|m] eqn:Ea;
  destruct (getTransactionsByAddress up creatorAddress Desc 100) as [desc|m'] eqn:Ed;
    simpl; try discriminate.
  intros H. injection H as <-.
  exists mint, c, txs, creationTx, creatorAddress, asc, desc.
  repeat split; auto.
Qed.

Lemma creationOf_Some txs creationTx creatorAddress :
  creationOf txs = Some (creationTx, creatorAddress) ->
  (exists rest, txs = creationTx :: rest) /\
  feePayer creationTx = Some creatorAddress /\ creatorAddress <> "".
Proof.
  unfold creationOf. destruct txs as [|tx rest]; [discriminate|].
  destruct (feePayer tx) as [[|ch p]|] eqn:E; try discriminate.
  intros H. injection H as <- <-.
  split; [eauto|]. split; [exact E|discriminate].
Qed.

Lemma statusOf_range message :
  statusOf message = 401 \/ statusOf message = 503 \/ statusOf message = 500.
Proof.
  unfold statusOf. cbv zeta.
  destruct (_ || _ || _); [now left|].
  destruct (_ || _ || _); [right; now left|right; now right].
Qed.

Lemma valid_is_truthy mint :
  Utils.isValidSolanaAddress mint = true -> truthy (Some mint) = true.
Proof. destruct mint; [discriminate|reflexivity]. Qed.

End RouteResults.

(** X20. The handler answers 400 exactly when the trimmed [mint]
    parameter (the empty string when the parameter is missing) is not a
    well-formed address, whatever the provider would return; every error
    status is one of 400, 401, 404, 500 and 503. *)
Theorem X20_status_codes
    (up : Analyze.Upstream) (request : Analyze.Request) :
  let mint := JS.nullish (JS.trim <$> Analyze.mintParam request) "" in
  ((exists message, Analyze.GET up request = Analyze.Json 400 message) <->
   Utils.isValidSolanaAddress mint = false) /\
  forall status message,
    Analyze.GET up request = Analyze.Json status message ->
    In status [400; 401; 404; 500; 503].
Proof.
  cbv zeta. unfold Analyze.GET. cbv zeta.
  set (mint := JS.nullish (JS.trim <$> Analyze.mintParam request) "").
  destruct (Utils.isValidSolanaAddress mint) eqn:Ev.
  - rewrite (valid_is_truthy mint Ev). simpl.
    assert (Hall : forall status message,
               JS.tryCatch (Analyze.analyze up mint)
                 (fun m => Analyze.Json (Analyze.statusOf m) m)
               = Analyze.Json status message ->
               In status [401; 404; 500; 503]).
    { intros status message. unfold Analyze.analyze.
      destruct (JS.truthy (JS.trim <$> Analyze.HELIUS_API_KEY up)); simpl.
      - destruct (Analyze.mintAuthority up mint _) as [c|m]; simpl.
        + destruct (Analyze.getTransactionsByAddress up mint Analyze.Asc 1)
            as [txs|m]; simpl.
          * destruct (Analyze.creationOf txs) as [[creationTx creatorAddress]|].
            -- unfold Analyze.promiseAll.
               destruct (Analyze.getTransactionsByAddress up creatorAddress Analyze.Asc 1)
                 as [asc|m];
               destruct (Analyze.getTransactionsByAddress up creatorAddress Analyze.Desc 100)
                 as [desc|m']; simpl; try discriminate.
               ++ intros H. injection H as <- _.
                  destruct (statusOf_range m') as [Hs|[Hs|Hs]]; rewrite Hs; simpl; tauto.
               ++ intros H. injection H as <- _.
                  destruct (statusOf_range m) as [Hs|[Hs|Hs]]; rewrite Hs; simpl; tauto.
               ++ intros H. injection H as <- _.
                  destruct (statusOf_range (if Analyze.ascSettlesFirst up then m else m'))
                    as [Hs|[Hs|Hs]]; rewrite Hs; simpl; tauto.
            -- simpl. intros H. injection H as <- _. simpl. tauto.
          * intros H. injection H as <- _.
            destruct (statusOf_range m) as [Hs|[Hs|Hs]]; rewrite Hs; simpl; tauto.
        + intros H. injection H as <- _.
          destruct (statusOf_range m) as [Hs|[Hs|Hs]]; rewrite Hs; simpl; tauto.
      - intros H. injection H as <- _. simpl. tauto. }
    split.
    + split; [|discriminate]. intros [message H].
      apply Hall in H. simpl in H. exfalso. intuition discriminate.
    + intros status message H. apply Hall in H. simpl in *. tauto.
  - split.
    + split; [reflexivity|]. intros _.
      destruct (JS.truthy (Some mint)); simpl; eauto.
    + intros status message.
      destruct (JS.truthy (Some mint)); simpl; intros H; injection H as <- _;
        now left.
Qed.

(** X21. Whenever a result is returned, it was computed for the trimmed
    well-formed mint of the request with the key configured; its creator
    is the non-empty fee payer of the first transaction returned for the
    mint, and its evidence is what the provider returned: the sample
    count is the length of the recent sample, the holder distribution and
    the market statistics are those collected for this mint. *)
Theorem X21_result_provenance
    (up : Analyze.Upstream) (request : Analyze.Request) (r : RiskScore.RiskResult) :
  Analyze.GET up request = Analyze.JsonResult r ->
  let mint := RiskScore.mint r in
  let creatorAddress := RiskScore.creatorAddress (RiskScore.creator r) in
  accepted request mint /\
  configured up /\
  creatorAddress <> "" /\
  (exists creationTx rest,
     Analyze.getTransactionsByAddress up mint Analyze.Asc 1
       = JS.Ok (creationTx :: rest) /\
     Helius.feePayer creationTx = Some creatorAddress) /\
  (exists desc,
     Analyze.getTransactionsByAddress up creatorAddress Analyze.Desc 100 = JS.Ok desc /\
     RiskScore.totalTxCount (RiskScore.creator r)
       = JS.Number_of_Z (Z.of_nat (length desc)) /\
     RiskScore.holderStats r
       = Analyze.holderDistribution
           (Analyze.getTokenAccountsByMint up mint 1000) creatorAddress desc) /\
  RiskScore.tokenMarket r = Analyze.marketStats up mint.
Proof.
  intros H. cbv zeta.
  destruct (GET_result_inv up request r H)
    as (mint & c & txs & creationTx & creatorAddress & asc & desc
        & Ha & Hc & _ & Htx & Hcr & _ & Hdesc & ->).
  destruct (creationOf_Some _ _ _ Hcr) as [[rest Hrest] [Hfee Hne]]. subst txs.
  simpl. repeat split; try apply Ha; auto.
  - exists creationTx, rest. split; assumption.
  - exists desc. repeat split; auto.
Qed.

(** X22. When the token-account lookup throws, the request still
    succeeds (given the creator and its history): the result has no
    holder distribution, none of the holder-dependent factors, and
    [creatorSold] false. *)
Theorem X22_holder_lookup_failure_is_absorbed
    (up : Analyze.Upstream) (request : Analyze.Request) (mint : string)
    (c : option bool) (txs : list Helius.HeliusTransaction)
    (creationTx : Helius.HeliusTransaction) (creatorAddress : string)
    (asc desc : list Helius.HeliusTransaction) (message : string) :
  accepted request mint ->
  configured up ->
  Analyze.mintAuthority up mint (snd (Analyze.assetMetadata up mint)) = JS.Ok c ->
  Analyze.getTransactionsByAddress up mint Analyze.Asc 1 = JS.Ok txs ->
  Analyze.creationOf txs = Some (creationTx, creatorAddress) ->
  Analyze.getTransactionsByAddress up creatorAddress Analyze.Asc 1 = JS.Ok asc ->
  Analyze.getTransactionsByAddress up creatorAddress Analyze.Desc 100 = JS.Ok desc ->
  Analyze.getTokenAccountsByMint up mint 1000 = JS.Throw message ->
  exists r,
    Analyze.GET up request = Analyze.JsonResult r /\
    RiskScore.holderStats r = None /\
    RiskScore.creatorSold r = Some false /\
    Forall (fun i => ~ In i (factorIds (RiskScore.factors r))) holderFactorIds.
Proof.
  intros Ha Hc Hma Htx Hcr Hasc Hdesc Hthrow.
  eexists. split; [eapply GET_result; eassumption|].
  unfold Analyze.assemble. cbv zeta. rewrite Hthrow.
  change (Analyze.holderDistribution (JS.Throw message) creatorAddress desc)
    with (@None RiskScore.HolderStats).
  unfold Analyze.withPreviousTokens.
  cbn [RiskScore.holderStats RiskScore.creatorSold RiskScore.factors].
  split; [reflexivity|]. split; [reflexivity|].
  unfold holderFactorIds.
  repeat (constructor;
          [rewrite factor_id_owner; unfold perRule; simpl; tauto|]).
  constructor.
Qed.

Lemma X22_witness :
  let up :=
    {| Analyze.HELIUS_API_KEY := Some "0123-key";
       Analyze.Date_now := 1700000000000%float;
       Analyze.getAsset := fun _ => JS.Ok None;
       Analyze.getAccountInfo := fun _ => JS.Ok (Samples.mintAccount 0);
       Analyze.getTransactionsByAddress := fun address _ _ =>
         if String.eqb address Samples.mintA
         then JS.Ok [Samples.tagged "CREATE" 1690000000] else JS.Ok [];
       Analyze.ascSettlesFirst := true;
       Analyze.getTokenAccountsByMint := fun _ _ =>
         JS.Throw "Helius getTokenAccounts error 500: down";
       Analyze.fetchDexScreenerData := fun _ =>
         Analyze.DexData.mk None None None None None None None;
       Analyze.birdeyeUniqueWallet24h := None |} in
  exists r,
    Analyze.GET up Samples.request = Analyze.JsonResult r /\
    RiskScore.holderStats r = None /\
    RiskScore.creatorSold r = Some false /\
    Forall (fun i => ~ In i (factorIds (RiskScore.factors r))) holderFactorIds.
Proof.
  cbv zeta.
  eapply (X22_holder_lookup_failure_is_absorbed _ Samples.request Samples.mintA
            (Some false) [Samples.tagged "CREATE" 1690000000]
            (Samples.tagged "CREATE" 1690000000) "creator" [] []
            "Helius getTokenAccounts error 500: down").
  - repeat split; reflexivity.
  - reflexivity.
  - reflexivity.
  - reflexivity.
  - reflexivity.
  - reflexivity.
  - reflexivity.
  - reflexivity.
Defined.

Lemma X21_witness :
  exists r,
    Analyze.GET
      (Samples.upstream (JS.Ok None) (JS.Ok (Samples.mintAccount 0))
         (JS.Ok [Samples.tagged "CREATE" 1690000000]) (JS.Ok []) (JS.Ok []))
      Samples.request = Analyze.JsonResult r /\
    accepted Samples.request (RiskScore.mint r) /\
    RiskScore.creatorAddress (RiskScore.creator r) <> "".
Proof.
  assert (H : exists r,
             Analyze.GET
               (Samples.upstream (JS.Ok None) (JS.Ok (Samples.mintAccount 0))
                  (JS.Ok [Samples.tagged "CREATE" 1690000000]) (JS.Ok []) (JS.Ok []))
               Samples.request = Analyze.JsonResult r)
    by (eexists; vm_compute; reflexivity).
  destruct H as [r H]. exists r. split; [exact H|].
  destruct (X21_result_provenance
              (Samples.upstream (JS.Ok None) (JS.Ok (Samples.mintAccount 0))
                 (JS.Ok [Samples.tagged "CREATE" 1690000000]) (JS.Ok []) (JS.Ok []))
              Samples.request r H) as (Ha & _ & Hne & _).
  split; [exact Ha|exact Hne].
Defined.

Section RouteSiblings.
Import JS Helius RiskScore Analyze.

Lemma classifiers_pointwise tx : txLooksLikeTokenCreation tx = isCreationTx tx.
Proof. now rewrite txLooksLikeTokenCreation_fallback, isCreationTx_fallback. Qed.

Lemma assemble_previous up mint n s c creationTx creatorAddress asc desc :
  creatorPreviousTokens
    (assemble up mint n s c creationTx creatorAddress asc desc)
  = match map (previousToken up) (getOtherMintsFromCreatorTxs desc mint 8) with
    | [] => None
    | l => Some l
    end.
Proof. unfold assemble. cbv zeta. simpl. now destruct (map _ _). Qed.

Lemma previousToken_mint up l :
  map CreatorPreviousToken.mint (map (previousToken up) l) = l.
Proof. induction l as [|m l IH]; simpl; [reflexivity|]. now rewrite IH. Qed.

End RouteSiblings.

(** X23. The creator's previous tokens of a result are the sibling mints
    of the recent sample: the field is undefined exactly when no mint
    qualifies, and otherwise lists between one and eight tokens with
    pairwise distinct mints, each a qualifying sibling mint (so never the
    analysed mint itself) with the liquidity DexScreener reports for it,
    0 when it reports none. *)
Theorem X23_previous_tokens
    (up : Analyze.Upstream) (request : Analyze.Request) (r : RiskScore.RiskResult) :
  Analyze.GET up request = Analyze.JsonResult r ->
  exists desc,
    Analyze.getTransactionsByAddress up
      (RiskScore.creatorAddress (RiskScore.creator r)) Analyze.Desc 100 = JS.Ok desc /\
    (RiskScore.creatorPreviousTokens r = None <->
     forall m, ~ siblingMint desc (RiskScore.mint r) m) /\
    forall l, RiskScore.creatorPreviousTokens r = Some l ->
      (1 <= length l <= 8)%nat /\
      List.NoDup (map RiskScore.CreatorPreviousToken.mint l) /\
      Forall (fun t =>
                siblingMint desc (RiskScore.mint r)
                            (RiskScore.CreatorPreviousToken.mint t) /\
                RiskScore.CreatorPreviousToken.liquidityUsd t
                  = JS.nullish
                      (Analyze.DexData.liquidityUsd
                         (Analyze.fetchDexScreenerData up
                            (RiskScore.CreatorPreviousToken.mint t)))
                      0%float)
             l.
Proof.
  intros H.
  destruct (GET_result_inv up request r H)
    as (mint & c & txs & creationTx & creatorAddress & asc & desc
        & _ & _ & _ & _ & _ & _ & Hdesc & ->).
  exists desc. split; [exact Hdesc|].
  rewrite assemble_previous.
  change (RiskScore.mint (Analyze.assemble up mint
            (fst (fst (Analyze.assetMetadata up mint)))
            (snd (fst (Analyze.assetMetadata up mint)))
            c creationTx creatorAddress asc desc)) with mint.
  pose proof (Hfold := fun m =>
    proj2 (scanTx_fold mint desc []) m).
  set (mints := Analyze.getOtherMintsFromCreatorTxs desc mint 8).
  assert (Hlen : (length mints <= 8)%nat).
  { unfold mints. rewrite getOtherMints_unfold, length_take. lia. }
  assert (Hnd : List.NoDup mints).
  { unfold mints. rewrite getOtherMints_unfold. apply take_NoDup.
    apply (proj1 (scanTx_fold mint desc [])). constructor. }
  assert (Hsound : forall m, In m mints -> siblingMint desc mint m).
  { intros m Hm. unfold mints in Hm. rewrite getOtherMints_unfold in Hm.
    apply take_In in Hm. apply Hfold in Hm as [[]|Hm]. exact Hm. }
  assert (Hcomplete : forall m, siblingMint desc mint m -> mints <> []).
  { intros m Hm Hnil.
    assert (Hin : In m (fold_left (scanTx mint) desc []))
      by (apply Hfold; now right).
    destruct (In_take_or_full 8 _ m Hin) as [Hi|Hfull].
    - unfold mints in Hnil. rewrite getOtherMints_unfold in Hnil.
      rewrite Hnil in Hi. exact Hi.
    - unfold mints in Hnil. rewrite getOtherMints_unfold in Hnil.
      rewrite Hnil in Hfull. discriminate. }
  split.
  - destruct mints as [|m0 rest] eqn:Em; simpl.
    + split; [|reflexivity]. intros _ m Hm. now apply (Hcomplete m).
    + split; [discriminate|]. intros Hno. exfalso.
      apply (Hno m0), Hsound. now left.
  - intros l Hl.
    assert (El : l = map (Analyze.previousToken up) mints /\ mints <> []).
    { destruct mints as [|m0 rest]; simpl in Hl; [discriminate|].
      injection Hl as <-. split; [reflexivity|discriminate]. }
    destruct El as [-> Hne].
    rewrite length_map, previousToken_mint.
    split; [|split; [exact Hnd|]].
    + destruct mints; [contradiction|]. simpl in *. lia.
    + apply List.Forall_map, List.Forall_forall. intros m Hm. simpl.
      split; [now apply Hsound|reflexivity].
Qed.

(** X24. The created count shown in a result is the number of
    transactions of the recent sample that the collector's own classifier
    accepts, with a floor of 1; when it accepts none, no previous token is
    listed and the scorer emits [first_or_few]. *)
Theorem X24_created_count_uses_collector_classifier
    (up : Analyze.Upstream) (request : Analyze.Request) (r : RiskScore.RiskResult) :
  Analyze.GET up request = Analyze.JsonResult r ->
  exists desc,
    Analyze.getTransactionsByAddress up
      (RiskScore.creatorAddress (RiskScore.creator r)) Analyze.Desc 100 = JS.Ok desc /\
    RiskScore.estimatedTokensCreated (RiskScore.creator r)
      = JS.Number_of_Z
          (Z.max (Z.of_nat (length (List.filter Analyze.isCreationTx desc))) 1) /\
    ((forall tx, In tx desc -> Analyze.isCreationTx tx = false) ->
     RiskScore.creatorPreviousTokens r = None /\
     In "first_or_few" (factorIds (RiskScore.factors r))).
Proof.
  intros H.
  destruct (GET_result_inv up request r H)
    as (mint & c & txs & creationTx & creatorAddress & asc & desc
        & _ & _ & _ & _ & _ & _ & Hdesc & ->).
  exists desc. split; [exact Hdesc|].
  assert (Hfilter : List.filter RiskScore.txLooksLikeTokenCreation desc
                    = List.filter Analyze.isCreationTx desc)
    by (apply List.filter_ext; intros tx; apply classifiers_pointwise).
  split.
  - unfold Analyze.assemble. cbv zeta. simpl.
    unfold RiskScore.createdCountOf. now rewrite Hfilter.
  - intros Hnone.
    assert (Hempty : List.filter Analyze.isCreationTx desc = []).
    { clear -Hnone. induction desc as [|tx l IH]; simpl; [reflexivity|].
      rewrite (Hnone tx) by now left. apply IH. intros t Ht. apply Hnone. now right. }
    split.
    + rewrite assemble_previous.
      assert (Hm : Analyze.getOtherMintsFromCreatorTxs desc mint 8 = []).
      { destruct (Analyze.getOtherMintsFromCreatorTxs desc mint 8) as [|m rest] eqn:Em;
          [reflexivity|].
        assert (Hin : In m (Analyze.getOtherMintsFromCreatorTxs desc mint 8))
          by (rewrite Em; now left).
        rewrite getOtherMints_unfold in Hin. apply take_In in Hin.
        apply (proj2 (scanTx_fold mint desc []) m) in Hin as [[]|Hs].
        destruct Hs as (_ & _ & tx & t & raw & Htx & Hc & _).
        rewrite (Hnone tx Htx) in Hc. discriminate. }
      now rewrite Hm.
    + unfold Analyze.assemble. cbv zeta.
      unfold Analyze.withPreviousTokens. cbn [RiskScore.factors].
      apply factor_id_owner.
      change (ruleIndex "first_or_few" - 1)%nat with 2%nat.
      unfold perRule. cbn [nth]. unfold RiskScore.createdCountOf.
      rewrite Hfilter, Hempty. simpl. now left.
Qed.

Lemma X23_witness :
  exists r desc,
    Analyze.GET
      (Samples.upstream (JS.Ok None) (JS.Ok (Samples.mintAccount 0))
         (JS.Ok [Samples.tagged "CREATE" 1690000000]) (JS.Ok [])
         (JS.Ok [Fixtures.minting]))
      Samples.request = Analyze.JsonResult r /\
    Analyze.getTransactionsByAddress
      (Samples.upstream (JS.Ok None) (JS.Ok (Samples.mintAccount 0))
         (JS.Ok [Samples.tagged "CREATE" 1690000000]) (JS.Ok [])
         (JS.Ok [Fixtures.minting]))
      (RiskScore.creatorAddress (RiskScore.creator r)) Analyze.Desc 100 = JS.Ok desc /\
    (RiskScore.creatorPreviousTokens r = None <->
     forall m, ~ siblingMint desc (RiskScore.mint r) m).
Proof.
  assert (H : exists r,
             Analyze.GET
               (Samples.upstream (JS.Ok None) (JS.Ok (Samples.mintAccount 0))
                  (JS.Ok [Samples.tagged "CREATE" 1690000000]) (JS.Ok [])
                  (JS.Ok [Fixtures.minting]))
               Samples.request = Analyze.JsonResult r)
    by (eexists; vm_compute; reflexivity).
  destruct H as [r H]. exists r.
  destruct (X23_previous_tokens
              (Samples.upstream (JS.Ok None) (JS.Ok (Samples.mintAccount 0))
                 (JS.Ok [Samples.tagged "CREATE" 1690000000]) (JS.Ok [])
                 (JS.Ok [Fixtures.minting]))
              Samples.request r H) as (desc & Hd & Hiff & _).
  exists desc. split; [exact H|]. split; [exact Hd|exact Hiff].
Defined.

Lemma X24_witness :
  exists r desc,
    Analyze.GET
      (Samples.upstream (JS.Ok None) (JS.Ok (Samples.mintAccount 0))
         (JS.Ok [Samples.tagged "CREATE" 1690000000]) (JS.Ok [])
         (JS.Ok [Fixtures.minting]))
      Samples.request = Analyze.JsonResult r /\
    RiskScore.estimatedTokensCreated (RiskScore.creator r)
      = JS.Number_of_Z
          (Z.max (Z.of_nat (length (List.filter Analyze.isCreationTx desc))) 1).
Proof.
  assert (H : exists r,
             Analyze.GET
               (Samples.upstream (JS.Ok None) (JS.Ok (Samples.mintAccount 0))
                  (JS.Ok [Samples.tagged "CREATE" 1690000000]) (JS.Ok [])
                  (JS.Ok [Fixtures.minting]))
               Samples.request = Analyze.JsonResult r)
    by (eexists; vm_compute; reflexivity).
  destruct H as [r H]. exists r.
  destruct (X24_created_count_uses_collector_classifier
              (Samples.upstream (JS.Ok None) (JS.Ok (Samples.mintAccount 0))
                 (JS.Ok [Samples.tagged "CREATE" 1690000000]) (JS.Ok [])
                 (JS.Ok [Fixtures.minting]))
              Samples.request r H) as (desc & _ & Hest & _).
  exists desc. split; [exact H|exact Hest].
Defined.

(* ===================================================================== *)
(** * Address validation, the key and the history request *)
(* ===================================================================== *)

Section Trimming.
Import JS Unicode.

Lemma after_spec w : forall s r, after w s = Some r <-> s = (w ++ r)%list.
Proof.
  induction w as [|a w IH]; intros s r; simpl.
  - split; [intros H; now injection H|intros ->; reflexivity].
  - destruct s as [|b s]; [split; discriminate|].
    destruct (Ascii.eqb_spec a b) as [->|Hne].
    + rewrite IH. split; [intros ->; reflexivity|intros H; now injection H].
    + split; [discriminate|]. intros H. injection H as H _. congruence.
Qed.

Lemma behead_Some spaces : forall s r,
  behead spaces s = Some r -> exists w, In w spaces /\ s = (w ++ r)%list.
Proof.
  induction spaces as [|w spaces IH]; intros s r; simpl; [discriminate|].
  destruct (after w s) as [r'|] eqn:E.
  - intros H. injection H as ->. apply after_spec in E. eauto.
  - intros H. destruct (IH _ _ H) as (w' & Hin & Hs). eauto.
Qed.

Lemma behead_None spaces s :
  behead spaces s = None <-> forall w, In w spaces -> after w s = None.
Proof.
  induction spaces as [|w spaces IH]; simpl.
  - split; [intros _ w []|reflexivity].
  - destruct (after w s) as [r|] eqn:E.
    + split; [discriminate|]. intros H. specialize (H w (or_introl eq_refl)).
      congruence.
    + rewrite IH. split.
      * intros H w' [<-|Hin]; [exact E|now apply H].
      * intros H w' Hin. apply H. now right.
Qed.

Lemma strip_fixed fuel spaces s :
  headClean spaces s -> strip fuel spaces s = s.
Proof. unfold headClean. destruct fuel; simpl; [reflexivity|]. now intros ->. Qed.

Lemma strip_clean spaces : forall fuel s,
  Forall (fun w => w <> []) spaces -> (length s <= fuel)%nat ->
  headClean spaces (strip fuel spaces s).
Proof.
  intros fuel s Hne. revert s.
  induction fuel as [|fuel IH]; intros s Hlen; simpl.
  - destruct s; [|simpl in Hlen; lia].
    apply behead_None. intros w Hin.
    rewrite List.Forall_forall in Hne. specialize (Hne w Hin).
    destruct w; [contradiction|reflexivity].
  - destruct (behead spaces s) as [r|] eqn:E; [|exact E].
    apply IH. apply behead_Some in E as (w & Hin & ->).
    rewrite List.Forall_forall in Hne. specialize (Hne w Hin).
    rewrite length_app in Hlen. destruct w; [contradiction|]. simpl in Hlen. lia.
Qed.

Lemma strip_suffix spaces : forall fuel s,
  exists a, s = (a ++ strip fuel spaces s)%list.
Proof.
  induction fuel as [|fuel IH]; intros s; simpl; [now exists []|].
  destruct (behead spaces s) as [r|] eqn:E; [|now exists []].
  apply behead_Some in E as (w & _ & ->).
  destruct (IH r) as [a Ha]. exists (w ++ a)%list.
  rewrite <- app_assoc. now rewrite <- Ha.
Qed.

Lemma headClean_prefix spaces a b :
  headClean spaces (a ++ b) -> headClean spaces a.
Proof.
  unfold headClean. rewrite !behead_None. intros H w Hin.
  specialize (H w Hin). destruct (after w a) as [r|] eqn:E; [|reflexivity].
  apply after_spec in E. subst a.
  assert (Hs : after w ((w ++ r) ++ b) = Some (r ++ b)%list)
    by (apply after_spec; now rewrite app_assoc).
  congruence.
Qed.

Lemma whiteSpace_nonempty : Forall (fun w : list ascii => w <> []) whiteSpace.
Proof. repeat constructor; discriminate. Qed.

Lemma whiteSpace_rev_nonempty :
  Forall (fun w : list ascii => w <> []) (map (@rev ascii) whiteSpace).
Proof. repeat constructor; discriminate. Qed.

Lemma trimStartBytes_clean l : headClean whiteSpace (trimStartBytes l).
Proof. apply strip_clean; [apply whiteSpace_nonempty|reflexivity]. Qed.

Lemma trimStartBytes_fixed l : headClean whiteSpace l -> trimStartBytes l = l.
Proof. apply strip_fixed. Qed.

Lemma trimEndBytes_prefix l : exists b, l = (trimEndBytes l ++ b)%list.
Proof.
  unfold trimEndBytes.
  destruct (strip_suffix (map (@rev ascii) whiteSpace) (length l) (rev l)) as [a Ha].
  exists (rev a). rewrite <- rev_app_distr, <- Ha. now rewrite rev_involutive.
Qed.

Lemma trimEndBytes_clean l :
  headClean whiteSpace l -> headClean whiteSpace (trimEndBytes l).
Proof.
  intros H. destruct (trimEndBytes_prefix l) as [b Hb].
  rewrite Hb in H. eapply headClean_prefix, H.
Qed.

Lemma trimEndBytes_idempotent l : trimEndBytes (trimEndBytes l) = trimEndBytes l.
Proof.
  unfold trimEndBytes. rewrite rev_involutive. f_equal.
  apply strip_fixed, strip_clean; [apply whiteSpace_rev_nonempty|].
  now rewrite length_rev.
Qed.

Lemma trim_idempotent s : trim (trim s) = trim s.
Proof.
  unfold trim. rewrite list_ascii_of_string_of_list_ascii.
  rewrite (trimStartBytes_fixed (trimEndBytes _))
    by apply trimEndBytes_clean, trimStartBytes_clean.
  now rewrite trimEndBytes_idempotent.
Qed.

Lemma isBase58_excludes c :
  Utils.isBase58 c = true ->
  (byte c <? 0x80)%N = true /\ alphanumeric c = true /\
  c <> "0"%char /\ c <> "O"%char /\ c <> "I"%char /\ c <> "l"%char.
Proof.
  destruct c as [[] [] [] [] [] [] [] []]; vm_compute; intros H;
    try discriminate H; repeat split; discriminate.
Qed.

Lemma allBase58_Forall t :
  Utils.allBase58 t = true ->
  Forall (fun c => Utils.isBase58 c = true) (list_ascii_of_string t).
Proof.
  induction t as [|c t IH]; simpl; intros H; [constructor|].
  apply andb_true_iff in H as [Hc Ht]. constructor; auto.
Qed.

Lemma decode_ascii a s :
  (byte a <? 0x80)%N = true -> decode (String a s) = Code (byte a) :: decode s.
Proof. intros H. cbn [decode]. cbv zeta. now rewrite H. Qed.

(** On base58 text, code units and bytes are the same count. *)
Lemma lengthOf_allBase58 t :
  Utils.allBase58 t = true -> lengthOf t = String.length t.
Proof.
  unfold lengthOf. induction t as [|c t IH]; [reflexivity|].
  simpl Utils.allBase58. intros H. apply andb_true_iff in H as [Hc Ht].
  destruct (isBase58_excludes c Hc) as (Hb & _).
  rewrite (decode_ascii c t Hb). unfold units. cbn [flat_map].
  assert (Hlow : (0x10000 <=? byte c)%N = false).
  { apply N.ltb_lt in Hb. apply N.leb_gt. lia. }
  rewrite Hlow. cbn [app length String.length]. fold (units (decode t)).
  now rewrite (IH Ht).
Qed.

Lemma includes_head a p : forall t,
  includes t (String a p) = true -> In a (list_ascii_of_string t).
Proof.
  induction t as [|b t IH]; simpl; [discriminate|].
  destruct (Ascii.eqb_spec a b) as [->|Hne]; simpl.
  - intros _. now left.
  - intros H. right. apply IH. exact H.
Qed.

Lemma whiteSpace_leads cp :
  In cp WHITE_SPACE ->
  exists a p, utf8 cp = String a p /\ Utils.isBase58 a = false.
Proof.
  intros H. simpl in H.
  repeat (destruct H as [<-|H];
          [eexists; eexists; split; [vm_compute; reflexivity|reflexivity]|]).
  contradiction.
Qed.

Lemma allBase58_spaceFree t : Utils.allBase58 t = true -> spaceFree t.
Proof.
  intros Hb cp Hin. destruct (whiteSpace_leads cp Hin) as (a & p & -> & Ha).
  destruct (includes t (String a p)) eqn:E; [|reflexivity].
  apply includes_head in E. apply allBase58_Forall in Hb.
  rewrite List.Forall_forall in Hb. specialize (Hb a E). congruence.
Qed.

End Trimming.

(** X25. Address validation looks at the trimmed value only: trimming
    (of every white-space character and line terminator, not only the
    ASCII ones) is idempotent and a value is accepted exactly when its
    trimmed form is. An accepted value has a trimmed form of 32 to 44
    characters, each an ASCII letter or digit other than 0, O, I and l,
    and so holds no white space anywhere. *)
Theorem X25_address_validation
    (value : string) :
  JS.trim (JS.trim value) = JS.trim value /\
  Utils.isValidSolanaAddress (JS.trim value) = Utils.isValidSolanaAddress value /\
  (Utils.isValidSolanaAddress value = true ->
   (32 <= String.length (JS.trim value) <= 44)%nat /\
   Forall (fun c => alphanumeric c = true /\ c <> "0"%char /\ c <> "O"%char /\
                    c <> "I"%char /\ c <> "l"%char)
          (list_ascii_of_string (JS.trim value)) /\
   spaceFree (JS.trim value)).
Proof.
  split; [apply trim_idempotent|]. split.
  - unfold Utils.isValidSolanaAddress. rewrite trim_idempotent.
    destruct value as [|c v]; [reflexivity|].
    destruct (JS.trim (String c v)) eqn:E; reflexivity.
  - unfold Utils.isValidSolanaAddress. destruct value as [|c v]; [discriminate|].
    cbv zeta. intros H. apply andb_true_iff in H as [H Hb].
    apply andb_true_iff in H as [Hlo Hhi].
    apply Nat.leb_le in Hlo, Hhi.
    rewrite (lengthOf_allBase58 _ Hb) in Hlo, Hhi.
    split; [lia|]. split; [|now apply allBase58_spaceFree].
    eapply List.Forall_impl; [|apply allBase58_Forall, Hb].
    intros a Ha. apply isBase58_excludes in Ha. tauto.
Qed.

Lemma X25_witness :
  let padded :=
    Unicode.utf8 0x00A0 ++ "  " ++ Samples.mintA ++ Unicode.utf8 0xFEFF in
  (32 <= String.length (JS.trim padded) <= 44)%nat /\
  Forall (fun c => alphanumeric c = true /\ c <> "0"%char /\ c <> "O"%char /\
                   c <> "I"%char /\ c <> "l"%char)
         (list_ascii_of_string (JS.trim padded)) /\
  spaceFree (JS.trim padded).
Proof.
  apply (X25_address_validation
           (Unicode.utf8 0x00A0 ++ "  " ++ Samples.mintA ++ Unicode.utf8 0xFEFF)).
  reflexivity.
Defined.

Section Key.
Import JS Client.

Lemma getApiKey_Ok raw key :
  getApiKey raw = Ok key ->
  (exists r, raw = Some r /\ key = trim r) /\
  key <> "" /\
  toLowerCase key <> PLACEHOLDER_KEY.
Proof.
  unfold getApiKey. destruct raw as [[|c r]|]; try discriminate.
  cbn [truthy negb nullish]. cbv zeta.
  destruct (trim (String c r)) as [|c' k'] eqn:Ek; cbn [truthy negb];
    [discriminate|].
  destruct (String.eqb (String c' k') PLACEHOLDER_KEY
            || String.eqb (toLowerCase (String c' k')) (toLowerCase PLACEHOLDER_KEY))
    eqn:Ep; [discriminate|].
  intros H. injection H as <-. split; [|split].
  - exists (String c r). split; [reflexivity|]. symmetry. exact Ek.
  - discriminate.
  - apply orb_false_iff in Ep as [_ Ep]. apply String.eqb_neq in Ep.
    exact Ep.
Qed.

End Key.

(** X26. A key returned by [getApiKey] is the trimmed environment value:
    it is not empty, has no surrounding white space, and is not the
    placeholder in any letter case. The handler's own check ([configured])
    passes exactly when [getApiKey] returns a key or rejects the
    placeholder. *)
Theorem X26_api_key
    (raw : option string) :
  (forall key, Client.getApiKey raw = JS.Ok key ->
     (exists r, raw = Some r /\ key = JS.trim r) /\
     key <> "" /\ JS.trim key = key /\
     Client.toLowerCase key <> Client.PLACEHOLDER_KEY) /\
  (JS.truthy (JS.trim <$> raw) = true <->
   (exists key, Client.getApiKey raw = JS.Ok key) \/
   Client.getApiKey raw
     = JS.Throw ".env contains the placeholder key. Replace your_helius_api_key_here with your key from https://dashboard.helius.dev").
Proof.
  split.
  - intros key H. destruct (getApiKey_Ok raw key H) as ((r & -> & ->) & Hne & Hp).
    split; [eauto|]. split; [exact Hne|]. split; [apply trim_idempotent|exact Hp].
  - unfold Client.getApiKey. destruct raw as [[|c r]|].
    + split; [discriminate|]. intros [[k H]|H]; discriminate.
    + cbn [JS.truthy negb JS.nullish fmap option_fmap option_map]. cbv zeta.
      destruct (JS.trim (String c r)) as [|c' k'] eqn:Ek; cbn [JS.truthy negb].
      * split; [discriminate|]. intros [[k H]|H]; discriminate.
      * split; [|reflexivity]. intros _.
        destruct (_ || _); [now right|left; eauto].
    + split; [discriminate|]. intros [[k H]|H]; discriminate.
Qed.

Section HistoryRequest.
Import JS Helius Analyze.

Lemma client_unauthorized envKey key res :
  Client.getApiKey envKey = Ok key ->
  Client.status res = 401%nat ->
  Client.getTransactionsByAddress envKey (Ok res) = Throw Client.INVALID_KEY_MSG.
Proof.
  intros Hk Hs. unfold Client.getTransactionsByAddress, mbind, result_bind.
  rewrite Hk, Hs. reflexivity.
Qed.

Lemma client_not_array envKey key res :
  Client.getApiKey envKey = Ok key ->
  Client.ok res = true ->
  Client.json res = Ok None ->
  Client.getTransactionsByAddress envKey (Ok res) = Ok [].
Proof.
  intros Hk Hok Hj. unfold Client.getTransactionsByAddress, mbind, result_bind.
  rewrite Hk, Hok, Hj.
  assert (Hs : (Client.status res =? 401)%nat = false).
  { unfold Client.ok in Hok. apply andb_true_iff in Hok as [_ Hhi].
    apply Nat.leb_le in Hhi. apply Nat.eqb_neq. lia. }
  now rewrite Hs.
Qed.

Lemma GET_resolution_throws up request mint c message :
  accepted request mint -> configured up ->
  mintAuthority up mint (snd (assetMetadata up mint)) = Ok c ->
  getTransactionsByAddress up mint Asc 1 = Throw message ->
  GET up request = Json (statusOf message) message.
Proof.
  intros Ha Hc Hma Htx.
  rewrite (GET_accepted up request mint Ha).
  unfold analyze, configured in *. rewrite Hc. cbv zeta. simpl negb. cbv iota.
  rewrite Hma. simpl. rewrite Htx. reflexivity.
Qed.

End HistoryRequest.

(** X27. When Helius answers 401 to the creator-resolution request, the
    client throws its invalid-key message and the handler answers with
    that message under status 503, not 401: the message mentions
    HELIUS_API_KEY and contains neither "Invalid API key" nor "invalid api
    key". *)
Theorem X27_unauthorized_resolution_is_503
    (up : Analyze.Upstream) (request : Analyze.Request) (mint key : string)
    (c : option bool) (res : Client.HttpResponse) :
  accepted request mint ->
  configured up ->
  Analyze.mintAuthority up mint (snd (Analyze.assetMetadata up mint)) = JS.Ok c ->
  Client.getApiKey (Analyze.HELIUS_API_KEY up) = JS.Ok key ->
  Analyze.getTransactionsByAddress up mint Analyze.Asc 1
    = Client.getTransactionsByAddress (Analyze.HELIUS_API_KEY up) (JS.Ok res) ->
  Client.status res = 401%nat ->
  Analyze.GET up request = Analyze.Json 503 Client.INVALID_KEY_MSG.
Proof.
  intros Ha Hc Hma Hk Hcall Hs.
  rewrite (client_unauthorized _ key res Hk Hs) in Hcall.
  rewrite (GET_resolution_throws up request mint c _ Ha Hc Hma Hcall).
  reflexivity.
Qed.

(** X28. When Helius answers the creator-resolution request with a 2xx
    status and a body that is not an array, the client returns the empty
    list and the handler answers 404: a malformed payload is treated as a
    mint without history. *)
Theorem X28_malformed_history_is_not_found
    (up : Analyze.Upstream) (request : Analyze.Request) (mint key : string)
    (c : option bool) (res : Client.HttpResponse) :
  accepted request mint ->
  configured up ->
  Analyze.mintAuthority up mint (snd (Analyze.assetMetadata up mint)) = JS.Ok c ->
  Client.getApiKey (Analyze.HELIUS_API_KEY up) = JS.Ok key ->
  Analyze.getTransactionsByAddress up mint Analyze.Asc 1
    = Client.getTransactionsByAddress (Analyze.HELIUS_API_KEY up) (JS.Ok res) ->
  Client.ok res = true ->
  Client.json res = JS.Ok None ->
  Analyze.GET up request =
    Analyze.Json 404
      "Could not determine token creator (no transaction history for this address)".
Proof.
  intros Ha Hc Hma Hk Hcall Hok Hj.
  rewrite (client_not_array _ key res Hk Hok Hj) in Hcall.
  exact (GET_not_found up request mint c [] Ha Hc Hma Hcall eq_refl).
Qed.

Lemma X27_witness :
  let res := {| Client.status := 401; Client.text := JS.Ok "unauthorized";
                Client.json := JS.Throw "Unexpected token" |} in
  let up :=
    {| Analyze.HELIUS_API_KEY := Some " 0123-key ";
       Analyze.Date_now := 1700000000000%float;
       Analyze.getAsset := fun _ => JS.Ok None;
       Analyze.getAccountInfo := fun _ => JS.Ok (Samples.mintAccount 0);
       Analyze.getTransactionsByAddress := fun _ _ _ =>
         Client.getTransactionsByAddress (Some " 0123-key ") (JS.Ok res);
       Analyze.ascSettlesFirst := true;
       Analyze.getTokenAccountsByMint := fun _ _ => JS.Throw "unreachable";
       Analyze.fetchDexScreenerData := fun _ =>
         Analyze.DexData.mk None None None None None None None;
       Analyze.birdeyeUniqueWallet24h := None |} in
  Analyze.GET up Samples.request = Analyze.Json 503 Client.INVALID_KEY_MSG.
Proof.
  cbv zeta.
  eapply (X27_unauthorized_resolution_is_503 _ Samples.request Samples.mintA
            "0123-key" (Some false)
            {| Client.status := 401; Client.text := JS.Ok "unauthorized";
               Client.json := JS.Throw "Unexpected token" |}).
  - repeat split; reflexivity.
  - reflexivity.
  - reflexivity.
  - reflexivity.
  - reflexivity.
  - reflexivity.
Defined.

Lemma X28_witness :
  let res := {| Client.status := 200; Client.text := JS.Ok "{}";
                Client.json := JS.Ok None |} in
  let up :=
    {| Analyze.HELIUS_API_KEY := Some "0123-key";
       Analyze.Date_now := 1700000000000%float;
       Analyze.getAsset := fun _ => JS.Ok None;
       Analyze.getAccountInfo := fun _ => JS.Ok (Samples.mintAccount 0);
       Analyze.getTransactionsByAddress := fun _ _ _ =>
         Client.getTransactionsByAddress (Some "0123-key") (JS.Ok res);
       Analyze.ascSettlesFirst := true;
       Analyze.getTokenAccountsByMint := fun _ _ => JS.Throw "unreachable";
       Analyze.fetchDexScreenerData := fun _ =>
         Analyze.DexData.mk None None None None None None None;
       Analyze.birdeyeUniqueWallet24h := None |} in
  Analyze.GET up Samples.request =
    Analyze.Json 404
      "Could not determine token creator (no transaction history for this address)".
Proof.
  cbv zeta.
  eapply (X28_malformed_history_is_not_found _ Samples.request Samples.mintA
            "0123-key" (Some false)
            {| Client.status := 200; Client.text := JS.Ok "{}";
               Client.json := JS.Ok None |}).
  - repeat split; reflexivity.
  - reflexivity.
  - reflexivity.
  - reflexivity.
  - reflexivity.
  - reflexivity.
  - reflexivity.
Defined.

(* ===================================================================== *)
(** * The migration stage *)
(* ===================================================================== *)

Section MigrationStage.
Import JS RiskScore Migration.

Lemma includes_trans t p n :
  includes t p = true -> includes p n = true -> includes t n = true.
Proof.
  intros Htp Hpn. induction t as [|c t IH].
  - simpl in Htp. rewrite orb_false_r in Htp.
    eapply startsWith_includes; eassumption.
  - cbn [includes] in Htp. apply orb_true_iff in Htp as [Htp|Htp].
    + eapply startsWith_includes; eassumption.
    + apply includes_cons. now apply IH.
Qed.

Lemma existsb_same {A} (f : A -> bool) (l l' : list A) :
  (forall x, In x l <-> In x l') -> existsb f l = existsb f l'.
Proof.
  intros Hsame.
  destruct (existsb f l) eqn:E; symmetry.
  - apply existsb_exists in E as (x & Hx & Hf). apply existsb_exists.
    exists x. split; [now apply Hsame|exact Hf].
  - destruct (existsb f l') eqn:E'; [|reflexivity].
    apply existsb_exists in E' as (x & Hx & Hf).
    assert (existsb f l = true)
      by (apply existsb_exists; exists x; split; [now apply Hsame|exact Hf]).
    congruence.
Qed.

Lemma map_same {A B} (g : A -> B) (l l' : list A) :
  (forall x, In x l <-> In x l') ->
  forall y, In y (map g l) <-> In y (map g l').
Proof.
  intros Hsame y. rewrite !in_map_iff.
  split; intros (x & Hy & Hx); exists x; (split; [exact Hy|now apply Hsame]).
Qed.

End MigrationStage.

(** X29. A venue list in which some id contains "pump-amm" or "pump_amm",
    in any letter case, is always reported as migrated: such an id also
    counts as a bonding-curve venue, so it can never give "amm_only". *)
Theorem X29_pump_amm_means_migrated
    (dexIds : list string) (d : string) :
  In d dexIds ->
  JS.includes (Client.toLowerCase d) "pump-amm" = true \/
  JS.includes (Client.toLowerCase d) "pump_amm" = true ->
  Migration.inferMigrationStatus dexIds
  = (RiskScore.Migrated, "Migrated (e.g. Raydium)").
Proof.
  intros Hin Hd. unfold Migration.inferMigrationStatus. cbv zeta.
  assert (Hlen : (length dexIds =? 0)%nat = false)
    by (destruct dexIds; [contradiction|reflexivity]).
  rewrite Hlen.
  assert (Hl : In (Client.toLowerCase d) (map Client.toLowerCase dexIds))
    by now apply in_map.
  assert (Hpump : existsb (fun x => JS.includes x "pump")
                          (map Client.toLowerCase dexIds) = true).
  { apply existsb_exists. exists (Client.toLowerCase d). split; [exact Hl|].
    destruct Hd as [H|H]; eapply includes_trans; try exact H; reflexivity. }
  assert (Hamm : existsb (fun x => JS.includes x "pump-amm" || JS.includes x "pump_amm")
                         (map Client.toLowerCase dexIds) = true).
  { apply existsb_exists. exists (Client.toLowerCase d). split; [exact Hl|].
    destruct Hd as [-> | ->]; [reflexivity|apply orb_true_r]. }
  rewrite Hpump, Hamm. rewrite orb_true_r. simpl. reflexivity.
Qed.

Lemma X29_witness :
  Migration.inferMigrationStatus ["meteora"; "Pump-AMM"]
  = (RiskScore.Migrated, "Migrated (e.g. Raydium)").
Proof.
  apply (X29_pump_amm_means_migrated ["meteora"; "Pump-AMM"] "Pump-AMM").
  - right. now left.
  - left. reflexivity.
Defined.

(** X30. The migration stage depends only on the set of venue ids: two
    lists with the same elements, in any order and with any repetition,
    give the same status and label. *)
Theorem X30_migration_depends_on_venue_set
    (dexIds dexIds' : list string) :
  (forall d, In d dexIds <-> In d dexIds') ->
  Migration.inferMigrationStatus dexIds = Migration.inferMigrationStatus dexIds'.
Proof.
  intros Hsame. unfold Migration.inferMigrationStatus. cbv zeta.
  pose proof (map_same Client.toLowerCase _ _ Hsame) as Hlower.
  rewrite !(existsb_same _ _ _ Hlower).
  assert (Hlen : (length dexIds =? 0)%nat = (length dexIds' =? 0)%nat).
  { destruct dexIds as [|a l], dexIds' as [|b l']; try reflexivity.
    - exfalso. apply (proj2 (Hsame b)). now left.
    - exfalso. apply (proj1 (Hsame a)). now left. }
  now rewrite Hlen.
Qed.

Lemma X30_witness :
  Migration.inferMigrationStatus ["raydium"; "pumpfun"]
  = Migration.inferMigrationStatus ["pumpfun"; "raydium"; "pumpfun"].
Proof.
  apply (X30_migration_depends_on_venue_set
           ["raydium"; "pumpfun"] ["pumpfun"; "raydium"; "pumpfun"]).
  intros d. simpl. tauto.
Defined.
